(** * HlaPrint for HubSpot: the print-job submission pipeline

    A shallow embedding of the two CRM-card components of the repository
    ([HlaPrintCard], file part_000, and [HlaPrintCardView], file part_001):
    the client-side validator, the construction of the job payload, the
    [hsFetch] request wrapper and the [doLogin] / [sendPrint] handlers.

    JavaScript strings are sequences of UTF-16 code units, numbers are
    IEEE-754 doubles seen through their exact rational value, React state
    is a record, and a handler is a computation that emits state setters
    and network requests and may throw. *)

From Stdlib Require Import String Ascii DecimalString.
From Stdlib Require Import List Bool Arith ZArith NArith QArith Qround Lia.
Import ListNotations.

Set Implicit Arguments.
Set Warnings "-register-all".
Close Scope Q_scope.

(* ================================================================== *)
(** * JavaScript strings *)
(* ================================================================== *)

(** A string is its list of UTF-16 code units; [length] is [.length]. *)
Definition jsstring := list N.

(** Embedding of an ASCII literal, one code unit per character. *)
Definition js (s : string) : jsstring :=
  map N_of_ascii (list_ascii_of_string s).

Fixpoint str_eqb (a b : jsstring) : bool :=
  match a, b with
  | [], [] => true
  | x :: a', y :: b' => N.eqb x y && str_eqb a' b'
  | _, _ => false
  end.

(** [!!s] for a string: every string but the empty one is truthy. *)
Definition str_truthy (s : jsstring) : bool :=
  match s with [] => false | _ :: _ => true end.

(** WhiteSpace and LineTerminator code units (ECMA-262 StrWhiteSpaceChar):
    the characters [String.prototype.trim] strips and [Number] skips. *)
Definition is_ws (c : N) : bool :=
  ((9 <=? c) && (c <=? 13) || (c =? 32) || (c =? 160) || (c =? 5760)
   || (8192 <=? c) && (c <=? 8202) || (c =? 8232) || (c =? 8233)
   || (c =? 8239) || (c =? 8287) || (c =? 12288) || (c =? 65279))%N.

Fixpoint drop_ws (s : jsstring) : jsstring :=
  match s with
  | c :: s' => if is_ws c then drop_ws s' else s
  | [] => []
  end.

(** [s.trim()] *)
Definition trim (s : jsstring) : jsstring :=
  rev (drop_ws (rev (drop_ws s))).

(** [s.slice(0, n)] for a non-negative [n] *)
Definition slice0 (n : nat) (s : jsstring) : jsstring := firstn n s.

(** Decimal rendering of a non-negative integer, as a template literal
    renders an integral number below 1e21. *)
Definition N_to_js (n : N) : jsstring :=
  js (NilEmpty.string_of_uint (N.to_uint n)).

(** [needle] occurs in [hay] as a contiguous run of code units. *)
Definition contains (needle hay : jsstring) : Prop :=
  exists pre post, hay = pre ++ needle ++ post.

(* ================================================================== *)
(** * JavaScript numbers *)
(* ================================================================== *)

(** A double is NaN, an infinity, or a finite value given by its exact
    rational value.  The sign of zero is not kept: nothing in the
    components observes it (comparisons, [Number.isInteger] and
    [JSON.stringify] treat both zeros alike). *)
Inductive jsnum : Type :=
| JNaN
| JInf (negative : bool)
| JFin (q : Q).

Definition num_of_Z (z : Z) : jsnum := JFin (inject_Z z).

Definition Qltb (p q : Q) : bool :=
  (Qnum p * Zpos (Qden q) <? Qnum q * Zpos (Qden p))%Z.

(** [a < b]: false as soon as one side is NaN. *)
Definition jlt (a b : jsnum) : bool :=
  match a, b with
  | JNaN, _ | _, JNaN => false
  | JInf na, JInf nb => na && negb nb
  | JInf na, JFin _ => na
  | JFin _, JInf nb => negb nb
  | JFin p, JFin q => Qltb p q
  end.

(** [a > b] *)
Definition jgt (a b : jsnum) : bool := jlt b a.

Definition Qleb (p q : Q) : bool :=
  (Qnum p * Zpos (Qden q) <=? Qnum q * Zpos (Qden p))%Z.

(** [a <= b]: false as soon as one side is NaN. *)
Definition jle (a b : jsnum) : bool :=
  match a, b with
  | JNaN, _ | _, JNaN => false
  | JInf na, JInf nb => na || negb nb
  | JInf na, JFin _ => na
  | JFin _, JInf nb => negb nb
  | JFin p, JFin q => Qleb p q
  end.

(** [!!a] for a number: 0 and NaN are falsy. *)
Definition num_truthy (a : jsnum) : bool :=
  match a with
  | JNaN => false
  | JInf _ => true
  | JFin q => negb (Qnum q =? 0)%Z
  end.

(** [Math.max(a, b)] and [Math.min(a, b)]: NaN if either is NaN. *)
Definition Math_max (a b : jsnum) : jsnum :=
  match a, b with
  | JNaN, _ | _, JNaN => JNaN
  | _, _ => if jlt a b then b else a
  end.

Definition Math_min (a b : jsnum) : jsnum :=
  match a, b with
  | JNaN, _ | _, JNaN => JNaN
  | _, _ => if jlt b a then b else a
  end.

(** [Number.isInteger] *)
Definition isInteger (a : jsnum) : bool :=
  match a with
  | JFin q => (Z.rem (Qnum q) (Zpos (Qden q)) =? 0)%Z
  | _ => false
  end.

(** ** Rounding an exact value to the nearest double *)

(** [n / d] rounded to the nearest integer, ties to even. *)
Definition round_half_even (n d : Z) : Z :=
  let q := (n / d)%Z in
  let r := (n mod d)%Z in
  match (2 * r ?= d)%Z with
  | Lt => q
  | Gt => (q + 1)%Z
  | Eq => if Z.even q then q else (q + 1)%Z
  end.

(** The double nearest to [n / d], for [0 <= n] and [0 < d]: 53 bits of
    significand, exponents down to the subnormal 2^-1074, overflow to
    [Infinity] from 2^1024 on. *)
Definition round64 (n d : Z) : jsnum :=
  if (n =? 0)%Z then JFin 0 else
  let e0 := (Z.log2 n - Z.log2 d)%Z in
  let at_least :=
    if (0 <=? e0)%Z then (d * 2 ^ e0 <=? n)%Z else (d <=? n * 2 ^ (- e0))%Z in
  let e := if at_least then e0 else (e0 - 1)%Z in
  let ex := Z.max (e - 52) (-1074) in
  if (0 <=? ex)%Z then
    let m := round_half_even n (d * 2 ^ ex) in
    if (2 ^ 1024 <=? m * 2 ^ ex)%Z then JInf false
    else JFin (inject_Z (m * 2 ^ ex))
  else
    let m := round_half_even (n * 2 ^ (- ex)) d in
    JFin (Qred (Qmake m (Z.to_pos (2 ^ (- ex))))).

Definition jneg (a : jsnum) : jsnum :=
  match a with
  | JNaN => JNaN
  | JInf b => JInf (negb b)
  | JFin q => JFin (Qopp q)
  end.

(** ** [Number(s)] on a string: ECMA-262 StringToNumber *)

Definition digit_val (base : Z) (c : N) : option Z :=
  let v :=
    if ((48 <=? c) && (c <=? 57))%N then Some (Z.of_N c - 48)%Z
    else if ((97 <=? c) && (c <=? 102))%N then Some (Z.of_N c - 87)%Z
    else if ((65 <=? c) && (c <=? 70))%N then Some (Z.of_N c - 55)%Z
    else None in
  match v with
  | Some d => if (d <? base)%Z then Some d else None
  | None => None
  end.

(** Value of a string made of digits only; [None] at the first other
    character. *)
Fixpoint digits_val (base : Z) (acc : Z) (s : jsstring) : option Z :=
  match s with
  | [] => Some acc
  | c :: s' =>
      match digit_val base c with
      | Some d => digits_val base (acc * base + d)%Z s'
      | None => None
      end
  end.

(** The longest prefix of decimal digits, and what follows it. *)
Fixpoint span_digits (s : jsstring) : jsstring * jsstring :=
  match s with
  | c :: s' =>
      if ((48 <=? c) && (c <=? 57))%N
      then let (ds, r) := span_digits s' in (c :: ds, r)
      else ([], s)
  | [] => ([], [])
  end.

(** A non-empty all-digit string in the given base. *)
Definition int_literal (base : Z) (s : jsstring) : option Z :=
  match s with
  | [] => None
  | _ => digits_val base 0 s
  end.

(** ExponentPart, or nothing: [e] or [E], an optional sign, digits. *)
Definition exponent_part (s : jsstring) : option Z :=
  match s with
  | [] => Some 0%Z
  | c :: r =>
      if ((c =? 101) || (c =? 69))%N then
        match r with
        | 43%N :: ds => int_literal 10 ds
        | 45%N :: ds => option_map Z.opp (int_literal 10 ds)
        | _ => int_literal 10 r
        end
      else None
  end.

(** The double nearest to [mant * 10 ^ k]. *)
Definition decimal_value (mant k : Z) : jsnum :=
  if (0 <=? k)%Z then round64 (mant * 10 ^ k) 1
  else round64 mant (10 ^ (- k)).

(** StrUnsignedDecimalLiteral *)
Definition unsigned_decimal (s : jsstring) : jsnum :=
  if str_eqb s (js "Infinity") then JInf false else
  let (ip, r1) := span_digits s in
  let '(fp, r2) :=
    match r1 with
    | 46%N :: r => span_digits r
    | _ => ([], r1)
    end in
  match ip ++ fp with
  | [] => JNaN
  | ds =>
      match digits_val 10 0 ds, exponent_part r2 with
      | Some mant, Some ex => decimal_value mant (ex - Z.of_nat (length fp))
      | _, _ => JNaN
      end
  end.

(** StrNumericLiteral: a signed decimal literal, or an unsigned binary,
    octal or hexadecimal integer. *)
Definition numeric_literal (s : jsstring) : jsnum :=
  match s with
  | 48%N :: x :: r =>
      if ((x =? 120) || (x =? 88))%N then
        match int_literal 16 r with Some v => round64 v 1 | None => JNaN end
      else if ((x =? 111) || (x =? 79))%N then
        match int_literal 8 r with Some v => round64 v 1 | None => JNaN end
      else if ((x =? 98) || (x =? 66))%N then
        match int_literal 2 r with Some v => round64 v 1 | None => JNaN end
      else unsigned_decimal s
  | 43%N :: r => unsigned_decimal r
  | 45%N :: r => jneg (unsigned_decimal r)
  | _ => unsigned_decimal s
  end.

(** [Number(s)]: white space is stripped, the empty string is 0, anything
    that is not a numeric literal is NaN. *)
Definition Number (s : jsstring) : jsnum :=
  match trim s with
  | [] => JFin 0
  | t => numeric_literal t
  end.

(* ================================================================== *)
(** * JavaScript values *)
(* ================================================================== *)

(** The values the components handle: what [JSON.parse] returns, the
    object literals the handlers build, and [undefined].  An object is
    its list of own properties in insertion order, each key once. *)
Inductive jsval : Type :=
| VUndef
| VNull
| VBool (b : bool)
| VNum (n : jsnum)
| VStr (s : jsstring)
| VArr (items : list jsval)
| VObj (props : list (jsstring * jsval)).

(** [!!v] *)
Definition truthy (v : jsval) : bool :=
  match v with
  | VUndef | VNull => false
  | VBool b => b
  | VNum n => num_truthy n
  | VStr s => str_truthy s
  | VArr _ | VObj _ => true
  end.

Fixpoint lookup (k : jsstring) (props : list (jsstring * jsval))
  : option jsval :=
  match props with
  | [] => None
  | (k', v) :: rest => if str_eqb k k' then Some v else lookup k rest
  end.

(** [v?.k] for the property names the components read ([token],
    [message], [transaction_id], [code]): [undefined] on [null],
    [undefined] and on every value that is not an object holding [k]. *)
Definition get_prop (v : jsval) (k : jsstring) : jsval :=
  match v with
  | VObj props => match lookup k props with Some x => x | None => VUndef end
  | _ => VUndef
  end.

(** [a || b] on values *)
Definition or_else (a b : jsval) : jsval := if truthy a then a else b.

(** [a ?? b] *)
Definition nullish_else (a b : jsval) : jsval :=
  match a with VUndef | VNull => b | _ => a end.

(** The property [k], which [props] holds, takes the value [v] and
    keeps its place. *)
Fixpoint set_prop (k : jsstring) (v : jsval) (props : list (jsstring * jsval))
  : list (jsstring * jsval) :=
  match props with
  | [] => [(k, v)]
  | (k', v') :: rest =>
      if str_eqb k k' then (k', v) :: rest else (k', v') :: set_prop k v rest
  end.

(** [key in obj] for own properties *)
Definition has_key (k : jsstring) (v : jsval) : bool :=
  match v with
  | VObj props => match lookup k props with Some _ => true | None => false end
  | _ => false
  end.

(* ================================================================== *)
(** * The pieces of the JavaScript runtime the components call *)
(* ================================================================== *)

(** An [Error] object, reduced to its [message].  Whatever the
    components throw or catch is one: their own [new Error(...)], the
    TypeError of a failed conversion, the rejection of a fetch. *)
Record JsError : Type := mkError { message : jsstring }.

(** ** Number::toString *)

Definition Z_to_js (z : Z) : jsstring := N_to_js (Z.to_N z).

Definition pow10 (k : Z) : Q :=
  if (0 <=? k)%Z then inject_Z (10 ^ k)
  else Qmake 1 (Z.to_pos (10 ^ (- k))).

(** For [0 < q], the [n] with [10^(n-1) <= q < 10^n], found around an
    estimate taken from the binary logarithms. *)
Definition dec_exponent (q : Q) : Z :=
  let l := (Z.log2 (Qnum q) - Z.log2 (Zpos (Qden q)))%Z in
  let n0 := (l * 30103 / 100000 - 1)%Z in
  fold_left (fun n j => if Qleb (pow10 (n0 + j)) q then (n + 1)%Z else n)
            [0; 1; 2; 3]%Z n0.

Definition same_num (a b : jsnum) : bool :=
  match a, b with
  | JNaN, JNaN => true
  | JInf x, JInf y => Bool.eqb x y
  | JFin p, JFin q => Qeq_bool p q
  | _, _ => false
  end.

(** The shortest digit string [s] (of [k] digits) and exponent [n] such
    that [s * 10^(n-k)] reads back as [q]; of two such [s] the nearer to
    [q] wins.  Seventeen digits always identify a double; on a rational
    that is no double the nearest seventeen digits are taken. *)
Fixpoint shortest_digits (fuel : nat) (k : Z) (q : Q) (n : Z) : Z * Z :=
  let scaled := Qmult q (pow10 (k - n)) in
  let f := Qfloor scaled in
  let up := if (f + 1 =? 10 ^ k)%Z then (10 ^ (k - 1), n + 1)%Z
            else (f + 1, n)%Z in
  let nearest :=
    match Qcompare (Qmult 2 scaled) (inject_Z (2 * f + 1)) with
    | Lt => (f, n)
    | Gt => up
    | Eq => if Z.even f then (f, n) else up
    end in
  match fuel with
  | O => nearest
  | S fuel' =>
      let ok_down := same_num (decimal_value f (n - k)) (JFin q) in
      let ok_up := same_num (decimal_value (f + 1) (n - k)) (JFin q) in
      if ok_down && ok_up then nearest
      else if ok_down then (f, n)
      else if ok_up then up
      else shortest_digits fuel' (k + 1) q n
  end.

Definition zeros (n : Z) : jsstring := repeat 48%N (Z.to_nat n).

(** Number::toString of a positive finite value. *)
Definition positive_toString (q : Q) : jsstring :=
  let (s, n) := shortest_digits 16 1 q (dec_exponent q) in
  let ds := Z_to_js s in
  let k := Z.of_nat (length ds) in
  if ((k <=? n) && (n <=? 21))%Z then ds ++ zeros (n - k)
  else if ((0 <? n) && (n <=? 21))%Z then
    firstn (Z.to_nat n) ds ++ js "." ++ skipn (Z.to_nat n) ds
  else if ((-6 <? n) && (n <=? 0))%Z then js "0." ++ zeros (- n) ++ ds
  else
    let e := (n - 1)%Z in
    let ex := (if (e <? 0)%Z then js "e-" else js "e+") ++ Z_to_js (Z.abs e) in
    if (k =? 1)%Z then ds ++ ex
    else firstn 1 ds ++ js "." ++ skipn 1 ds ++ ex.

Definition Number_toString (x : jsnum) : jsstring :=
  match x with
  | JNaN => js "NaN"
  | JInf false => js "Infinity"
  | JInf true => js "-Infinity"
  | JFin q =>
      match Qnum q with
      | Z0 => js "0"
      | Zpos _ => positive_toString q
      | Zneg _ => js "-" ++ positive_toString (Qopp q)
      end
  end.

(** ** ToString, as a template literal and [new Error(...)] apply it *)

Fixpoint join (sep : jsstring) (parts : list jsstring) : jsstring :=
  match parts with
  | [] => []
  | [p] => p
  | p :: rest => p ++ sep ++ join sep rest
  end.

Definition TYPE_ERROR_PRIMITIVE : JsError :=
  mkError (js "Cannot convert object to primitive value").

Fixpoint all_ok (l : list (JsError + jsstring)) : JsError + list jsstring :=
  match l with
  | [] => inr []
  | inl e :: _ => inl e
  | inr s :: rest =>
      match all_ok rest with
      | inl e => inl e
      | inr ss => inr (s :: ss)
      end
  end.

(** An array joins its elements with commas, [null] and [undefined]
    giving the empty string.  A plain object is ["[object Object]"],
    unless it carries an own [toString] property: a parsed value is never
    callable, so the conversion finds no method and throws a TypeError. *)
Fixpoint ToString (v : jsval) : JsError + jsstring :=
  match v with
  | VUndef => inr (js "undefined")
  | VNull => inr (js "null")
  | VBool true => inr (js "true")
  | VBool false => inr (js "false")
  | VNum n => inr (Number_toString n)
  | VStr s => inr s
  | VArr items =>
      match all_ok (map (fun x =>
                           match x with
                           | VUndef | VNull => inr []
                           | _ => ToString x
                           end) items) with
      | inl e => inl e
      | inr parts => inr (join (js ",") parts)
      end
  | VObj props =>
      match lookup (js "toString") props with
      | Some _ => inl TYPE_ERROR_PRIMITIVE
      | None => inr (js "[object Object]")
      end
  end.

(** ** JSON.stringify *)

Definition hex_digit (d : N) : N :=
  if (d <? 10)%N then (48 + d)%N else (87 + d)%N.

(** [\uXXXX] *)
Definition unicode_escape (c : N) : jsstring :=
  [92; 117]%N ++ map hex_digit
    [(c / 4096) mod 16; (c / 256) mod 16; (c / 16) mod 16; c mod 16]%N.

Definition is_lead (c : N) : bool := ((55296 <=? c) && (c <=? 56319))%N.
Definition is_trail (c : N) : bool := ((56320 <=? c) && (c <=? 57343))%N.

(** The body of QuoteJSONString: the escapes of quote, backslash and
    control characters; a surrogate that has no partner is escaped. *)
Fixpoint quote_body (s : jsstring) : jsstring :=
  match s with
  | [] => []
  | c :: r =>
      if (c =? 34)%N then [92; 34]%N ++ quote_body r
      else if (c =? 92)%N then [92; 92]%N ++ quote_body r
      else if (c =? 8)%N then [92; 98]%N ++ quote_body r
      else if (c =? 12)%N then [92; 102]%N ++ quote_body r
      else if (c =? 10)%N then [92; 110]%N ++ quote_body r
      else if (c =? 13)%N then [92; 114]%N ++ quote_body r
      else if (c =? 9)%N then [92; 116]%N ++ quote_body r
      else if (c <? 32)%N then unicode_escape c ++ quote_body r
      else if is_lead c then
        match r with
        | t :: r' =>
            if is_trail t then c :: t :: quote_body r'
            else unicode_escape c ++ quote_body r
        | [] => unicode_escape c
        end
      else if is_trail c then unicode_escape c ++ quote_body r
      else c :: quote_body r
  end.

Definition quote (s : jsstring) : jsstring := [34%N] ++ quote_body s ++ [34%N].

(** [JSON.stringify(v)]; [None] is the result [undefined].  In an array
    [undefined] is written [null]; in an object a property whose value is
    [undefined] is left out. *)
Fixpoint JSON_stringify (v : jsval) : option jsstring :=
  match v with
  | VUndef => None
  | VNull => Some (js "null")
  | VBool true => Some (js "true")
  | VBool false => Some (js "false")
  | VNum (JFin q) => Some (Number_toString (JFin q))
  | VNum _ => Some (js "null")
  | VStr s => Some (quote s)
  | VArr items =>
      Some (js "[" ++
            join (js ",")
              (map (fun x => match JSON_stringify x with
                             | Some t => t
                             | None => js "null"
                             end) items)
            ++ js "]")
  | VObj props =>
      Some (js "{" ++
            join (js ",")
              (flat_map (fun kv =>
                           match kv with
                           | (k, x) =>
                               match JSON_stringify x with
                               | Some t => [quote k ++ js ":" ++ t]
                               | None => []
                               end
                           end) props)
            ++ js "}")
  end.

(** ** JSON.parse *)

Definition is_json_ws (c : N) : bool :=
  ((c =? 9) || (c =? 10) || (c =? 13) || (c =? 32))%N.

Fixpoint skip_ws (s : jsstring) : jsstring :=
  match s with
  | c :: r => if is_json_ws c then skip_ws r else s
  | [] => []
  end.

(** [s] with the prefix [p] removed, when it starts with [p]. *)
Fixpoint strip_prefix (p s : jsstring) : option jsstring :=
  match p, s with
  | [], _ => Some s
  | x :: p', y :: s' => if (x =? y)%N then strip_prefix p' s' else None
  | _ :: _, [] => None
  end.

(** The character an escape letter stands for. *)
Definition simple_escape (e : N) : option N :=
  if (e =? 34)%N then Some 34%N
  else if (e =? 92)%N then Some 92%N
  else if (e =? 47)%N then Some 47%N
  else if (e =? 98)%N then Some 8%N
  else if (e =? 102)%N then Some 12%N
  else if (e =? 110)%N then Some 10%N
  else if (e =? 114)%N then Some 13%N
  else if (e =? 116)%N then Some 9%N
  else None.

(** A string literal after its opening quote: the decoded string and the
    text after the closing quote.  [acc] holds the decoded part in
    reverse. *)
Fixpoint string_body (s : jsstring) (acc : jsstring)
  : option (jsstring * jsstring) :=
  match s with
  | [] => None
  | c :: r =>
      if (c =? 34)%N then Some (rev acc, r)
      else if (c =? 92)%N then
        match r with
        | e :: r1 =>
            if (e =? 117)%N then
              match r1 with
              | h1 :: h2 :: h3 :: h4 :: r2 =>
                  match digits_val 16 0 [h1; h2; h3; h4] with
                  | Some v => string_body r2 (Z.to_N v :: acc)
                  | None => None
                  end
              | _ => None
              end
            else
              match simple_escape e with
              | Some x => string_body r1 (x :: acc)
              | None => None
              end
        | [] => None
        end
      else if (c <? 32)%N then None
      else string_body r (c :: acc)
  end.

(** The digits of a JSON exponent, fraction or integer part: the run of
    digits must not be empty. *)
Definition digit_run (s : jsstring) : option (jsstring * jsstring) :=
  match span_digits s with
  | ([], _) => None
  | (ds, r) => Some (ds, r)
  end.

(** A JSON number: an optional minus, an integer part without a leading
    zero, an optional fraction, an optional exponent. *)
Definition json_number (s : jsstring) : option (jsnum * jsstring) :=
  let (neg, s1) :=
    match s with
    | 45%N :: r => (true, r)
    | _ => (false, s)
    end in
  match digit_run s1 with
  | None => None
  | Some (ip, r1) =>
      match ip with
      | 48%N :: _ :: _ => None
      | _ =>
          let frac :=
            match r1 with
            | 46%N :: r =>
                match digit_run r with
                | Some (fp, r2) => Some (fp, r2)
                | None => None
                end
            | _ => Some ([], r1)
            end in
          match frac with
          | None => None
          | Some (fp, r2) =>
              let expo :=
                match r2 with
                | c :: r =>
                    if ((c =? 101) || (c =? 69))%N then
                      match r with
                      | 43%N :: r' =>
                          match digit_run r' with
                          | Some (ds, r3) =>
                              option_map (fun v => (v, r3)) (digits_val 10 0 ds)
                          | None => None
                          end
                      | 45%N :: r' =>
                          match digit_run r' with
                          | Some (ds, r3) =>
                              option_map (fun v => (- v, r3)%Z)
                                         (digits_val 10 0 ds)
                          | None => None
                          end
                      | _ =>
                          match digit_run r with
                          | Some (ds, r3) =>
                              option_map (fun v => (v, r3)) (digits_val 10 0 ds)
                          | None => None
                          end
                      end
                    else Some (0%Z, r2)
                | [] => Some (0%Z, r2)
                end in
              match expo, digits_val 10 0 (ip ++ fp) with
              | Some (ex, r3), Some mant =>
                  let v := decimal_value mant (ex - Z.of_nat (length fp)) in
                  Some (if neg then jneg v else v, r3)
              | _, _ => None
              end
          end
      end
  end.

(** Array-index keys: the canonical decimal strings of 0 .. 2^32 - 2.
    An object lists them first, in ascending order. *)
Definition array_index (k : jsstring) : option Z :=
  match k with
  | [] => None
  | 48%N :: _ :: _ => None
  | _ =>
      match span_digits k with
      | (_, _ :: _) => None
      | (ds, []) =>
          match digits_val 10 0 ds with
          | Some v => if (v <=? 4294967294)%Z then Some v else None
          | None => None
          end
      end
  end.

(** Insert the new index key [k] (of index [i]) at its place. *)
Fixpoint insert_index (i : Z) (k : jsstring) (v : jsval)
         (props : list (jsstring * jsval)) : list (jsstring * jsval) :=
  match props with
  | [] => [(k, v)]
  | (k', v') :: rest =>
      match array_index k' with
      | Some j =>
          if (i <? j)%Z then (k, v) :: props
          else (k', v') :: insert_index i k v rest
      | None => (k, v) :: props
      end
  end.

(** CreateDataProperty on a plain object: an existing key keeps its
    place and takes the new value; a new index key goes among the index
    keys; any other new key goes last. *)
Definition define_prop (k : jsstring) (v : jsval)
           (props : list (jsstring * jsval)) : list (jsstring * jsval) :=
  match lookup k props with
  | Some _ => set_prop k v props
  | None =>
      match array_index k with
      | Some i => insert_index i k v props
      | None => props ++ [(k, v)]
      end
  end.

(** [{ ...a, ...b }]: the properties of [b] are defined on a copy of
    [a], in their order. *)
Definition spread (a b : list (jsstring * jsval)) : list (jsstring * jsval) :=
  fold_left (fun acc kv => define_prop (fst kv) (snd kv) acc) b a.

(** A JSON value at the head of [s] (after white space) and the text
    that follows it.  [fuel] bounds the chain of calls; of two calls in
    a row at least one consumes a character of the text. *)
Fixpoint parse_value (fuel : nat) (s : jsstring) : option (jsval * jsstring) :=
  match fuel with
  | O => None
  | S fuel' =>
      match skip_ws s with
      | [] => None
      | c :: r =>
          if (c =? 123)%N then
            match skip_ws r with
            | 125%N :: r' => Some (VObj [], r')
            | _ => parse_members fuel' r []
            end
          else if (c =? 91)%N then
            match skip_ws r with
            | 93%N :: r' => Some (VArr [], r')
            | _ => parse_elements fuel' r []
            end
          else if (c =? 34)%N then
            match string_body r [] with
            | Some (str, r') => Some (VStr str, r')
            | None => None
            end
          else
            match strip_prefix (js "null") (c :: r),
                  strip_prefix (js "true") (c :: r),
                  strip_prefix (js "false") (c :: r) with
            | Some r', _, _ => Some (VNull, r')
            | _, Some r', _ => Some (VBool true, r')
            | _, _, Some r' => Some (VBool false, r')
            | None, None, None =>
                match json_number (c :: r) with
                | Some (n, r') => Some (VNum n, r')
                | None => None
                end
            end
      end
  end

(** The elements of an array after [[] or a comma; [acc] holds the
    elements read so far, in reverse. *)
with parse_elements (fuel : nat) (s : jsstring) (acc : list jsval)
  : option (jsval * jsstring) :=
  match fuel with
  | O => None
  | S fuel' =>
      match parse_value fuel' s with
      | None => None
      | Some (v, r) =>
          match skip_ws r with
          | c :: r' =>
              if (c =? 44)%N then parse_elements fuel' r' (v :: acc)
              else if (c =? 93)%N then Some (VArr (rev (v :: acc)), r')
              else None
          | [] => None
          end
      end
  end

(** The members of an object after [{] or a comma. *)
with parse_members (fuel : nat) (s : jsstring) (acc : list (jsstring * jsval))
  : option (jsval * jsstring) :=
  match fuel with
  | O => None
  | S fuel' =>
      match skip_ws s with
      | 34%N :: r =>
          match string_body r [] with
          | None => None
          | Some (k, r1) =>
              match skip_ws r1 with
              | 58%N :: r2 =>
                  match parse_value fuel' r2 with
                  | None => None
                  | Some (v, r3) =>
                      match skip_ws r3 with
                      | c :: r4 =>
                          if (c =? 44)%N
                          then parse_members fuel' r4 (define_prop k v acc)
                          else if (c =? 125)%N
                          then Some (VObj (define_prop k v acc), r4)
                          else None
                      | [] => None
                      end
                  end
              | _ => None
              end
          end
      | _ => None
      end
  end.

(** [JSON.parse(text)]; [None] when it throws a SyntaxError. *)
Definition JSON_parse (text : jsstring) : option jsval :=
  match parse_value (2 * length text + 1) text with
  | Some (v, r) =>
      match skip_ws r with
      | [] => Some v
      | _ :: _ => None
      end
  | None => None
  end.

(* ================================================================== *)
(** * Component state *)
(* ================================================================== *)

Inductive Stage : Type := login | ready | sending.

Inductive ToastType : Type := success | error.

Record Toast : Type := mkToast { type : ToastType; msg : jsstring }.

Inductive PageSize : Type := A4 | A3 | Letter.

Inductive Orientation : Type := auto | portrait | landscape.

Definition PageSize_str (p : PageSize) : jsstring :=
  match p with A4 => js "A4" | A3 => js "A3" | Letter => js "Letter" end.

Definition Orientation_str (o : Orientation) : jsstring :=
  match o with
  | auto => js "auto"
  | portrait => js "portrait"
  | landscape => js "landscape"
  end.

(** The [useState] cells of the card, with the names of the source.
    [token] is declared a string, but holds whatever value the login
    response carried under [token]. *)
Record State : Type := mkState {
  stage : Stage;
  toast : option Toast;
  email : jsstring;
  password : jsstring;
  token : jsval;
  deviceName : jsstring;
  fileUrl : jsstring;
  copies : jsnum;
  color : bool;
  duplex : bool;
  pageSize : PageSize;
  orientation : Orientation;
  rangeStart : jsstring;   (* '' means unset *)
  rangeEnd : jsstring      (* '' means unset *)
}.

(** The state of a freshly mounted card. *)
Definition initial : State :=
  mkState login None [] [] (VStr []) [] [] (num_of_Z 1) false true A4 auto [] [].

(** The value the copies input stores:
    [Math.min(100, Math.max(1, Number(v) || 1))]. *)
Definition clamp_copies (v : jsstring) : jsnum :=
  Math_min (num_of_Z 100)
    (Math_max (num_of_Z 1)
       (let n := Number v in if num_truthy n then n else num_of_Z 1)).

(** A range field is set when it is not the empty string. *)
Definition is_set (s : jsstring) : Prop := s <> [].

(* ================================================================== *)
(** * validateBeforeSend (identical in both components) *)
(* ================================================================== *)

Definition leq_sign : jsstring := [8804%N].   (* U+2264 *)

Definition ERR_LOGIN : jsstring := js "Please login first.".
Definition ERR_DEVICE_REQUIRED : jsstring := js "Device name is required.".
Definition ERR_DEVICE_LENGTH : jsstring :=
  js "Device name must be " ++ leq_sign ++ js " 23 characters.".
Definition ERR_FILE_REQUIRED : jsstring := js "File URL is required.".
Definition ERR_RANGE_BOTH : jsstring :=
  js "If using page range, set both start and end.".
Definition ERR_PAGE_START : jsstring :=
  js "Page start must be an integer " ++ [8805%N] ++ js " 1.".
Definition ERR_PAGE_END : jsstring :=
  js "Page end must be an integer " ++ [8805%N] ++ js " 1.".
Definition ERR_PAGE_ORDER : jsstring :=
  js "Page end must be " ++ [8805%N] ++ js " page start.".
Definition ERR_COPIES : jsstring := js "Copies must be between 1 and 100.".

(** [rangeStart.trim().length > 0] *)
Definition has_text (s : jsstring) : bool := 0 <? length (trim s).

(** The block guarded by [if (hasStart && hasEnd)]. *)
Definition check_range (rangeStart rangeEnd : jsstring) : option jsstring :=
  let s := Number rangeStart in
  let e := Number rangeEnd in
  if negb (isInteger s) || jlt s (num_of_Z 1) then Some ERR_PAGE_START
  else if negb (isInteger e) || jlt e (num_of_Z 1) then Some ERR_PAGE_END
  else if jlt e s then Some ERR_PAGE_ORDER
  else None.

Definition validateBeforeSend (st : State) : option jsstring :=
  if negb (truthy (token st)) then Some ERR_LOGIN
  else if negb (str_truthy (deviceName st)) then Some ERR_DEVICE_REQUIRED
  else if 23 <? length (deviceName st) then Some ERR_DEVICE_LENGTH
  else if negb (str_truthy (fileUrl st)) then Some ERR_FILE_REQUIRED
  else
    let hasStart := has_text (rangeStart st) in
    let hasEnd := has_text (rangeEnd st) in
    if negb (Bool.eqb hasStart hasEnd) then Some ERR_RANGE_BOTH
    else
      match (if hasStart && hasEnd
             then check_range (rangeStart st) (rangeEnd st) else None) with
      | Some err => Some err
      | None =>
          if jlt (copies st) (num_of_Z 1) || jgt (copies st) (num_of_Z 100)
          then Some ERR_COPIES
          else None
      end.

(* ================================================================== *)
(** * The job payload built by sendPrint (identical in both components) *)
(* ================================================================== *)

(** [printFile], with the page range added when
    [rangeStart && rangeEnd] is truthy. *)
Definition buildPrintFile (st : State) : jsval :=
  VObj ([ (js "filename", VStr (fileUrl st));
          (js "color", VBool (color st));
          (js "double_sided", VBool (duplex st));
          (js "page_size", VStr (PageSize_str (pageSize st)));
          (js "copies", VNum (copies st));
          (js "page_orientation", VStr (Orientation_str (orientation st))) ]
        ++ (if str_truthy (rangeStart st) && str_truthy (rangeEnd st)
            then [ (js "pages_start", VNum (Number (rangeStart st)));
                   (js "page_end", VNum (Number (rangeEnd st))) ]
            else [])).

(** [body] *)
Definition buildBody (st : State) : jsval :=
  VObj [ (js "device_name", VStr (deviceName st));
         (js "print_files", VArr [buildPrintFile st]) ].

(* ================================================================== *)
(** * Handlers as computations *)
(* ================================================================== *)

(** What [hubspot.fetch] is given. *)
Record Request : Type := mkRequest {
  url : jsstring;
  method : jsstring;
  headers : list (jsstring * jsval);
  body : option jsstring
}.

(** The optional [init] argument of [hsFetch]. *)
Record RequestInit : Type := mkInit {
  init_method : option jsstring;
  init_headers : option (list (jsstring * jsval));
  init_body : option jsstring
}.

(** What [hubspot.fetch] resolves with.  [resp_headers] is [None] when
    the response object has no usable [headers.get]; header names are
    lower case. *)
Record Response : Type := mkResponse {
  status : N;
  resp_headers : option (list (jsstring * jsstring));
  text : jsstring
}.

(** [res.ok]: the status is in 200..299. *)
Definition ok (res : Response) : bool :=
  ((200 <=? status res) && (status res <=? 299))%N.

Fixpoint header_get (name : jsstring) (hs : list (jsstring * jsstring))
  : option jsstring :=
  match hs with
  | [] => None
  | (k, v) :: rest => if str_eqb name k then Some v else header_get name rest
  end.

(** The network as one handler run meets it: a request is rejected (the
    promise of [hubspot.fetch], or the reading of the body by
    [res.text()], rejects with an error) or answered. *)
Inductive FetchOutcome : Type :=
| Rejected (e : JsError)
| Resolved (res : Response).

(** The effects of a handler, in the order it performs them. *)
Inductive Event : Type :=
| SetToken (v : jsval)
| SetToast (t : Toast)
| SetStage (s : Stage)
| Fetch (req : Request)
| ConsoleError (url : jsstring) (status : N) (xErr text : jsstring).

(** An async function: the effects it performed, and the error it threw
    or the value it returned. *)
Definition Async (A : Type) : Type := (list Event * (JsError + A))%type.

Definition ret {A} (a : A) : Async A := ([], inr a).
Definition throw {A} (e : JsError) : Async A := ([], inl e).
Definition emit (ev : Event) : Async unit := ([ev], inr tt).
Definition lift {A} (r : JsError + A) : Async A := ([], r).

Definition bind {A B} (m : Async A) (k : A -> Async B) : Async B :=
  match m with
  | (evs, inl e) => (evs, inl e)
  | (evs, inr a) => let (evs', r) := k a in (evs ++ evs', r)
  end.

(** [try { m } catch (e) { h e }] *)
Definition try_catch {A} (m : Async A) (h : JsError -> Async A) : Async A :=
  match m with
  | (evs, inl e) => let (evs', r) := h e in (evs ++ evs', r)
  | (evs, inr a) => (evs, inr a)
  end.

(** [try { m } finally { f }] *)
Definition finally {A} (m : Async A) (f : Async unit) : Async A :=
  let (evs, r) := m in
  match f with
  | (evs', inl e) => (evs ++ evs', inl e)
  | (evs', inr _) => (evs ++ evs', r)
  end.

Notation "x <- m ;; k" := (bind m (fun x => k))
  (at level 61, m at next level, right associativity).
Notation "m ;; k" := (bind m (fun _ => k))
  (at level 61, right associativity).

Definition events {A} (m : Async A) : list Event := fst m.
Definition outcome {A} (m : Async A) : JsError + A := snd m.

(** [await hubspot.fetch(...)] against the network [net]. *)
Definition hubspot_fetch (net : Request -> FetchOutcome) (req : Request)
  : Async Response :=
  ([Fetch req],
   match net req with
   | Rejected e => inl e
   | Resolved res => inr res
   end).

(** [new Error(x)]: the message is [ToString(x)] unless [x] is
    [undefined]; the conversion itself may throw. *)
Definition new_Error (x : jsval) : JsError + JsError :=
  match x with
  | VUndef => inr (mkError [])
  | _ =>
      match ToString x with
      | inl te => inl te
      | inr m => inr (mkError m)
      end
  end.

(** ** The state a handler leaves behind *)

Definition set_token (v : jsval) (st : State) : State :=
  mkState (stage st) (toast st) (email st) (password st) v
          (deviceName st) (fileUrl st) (copies st) (color st) (duplex st)
          (pageSize st) (orientation st) (rangeStart st) (rangeEnd st).

Definition set_toast (t : option Toast) (st : State) : State :=
  mkState (stage st) t (email st) (password st) (token st)
          (deviceName st) (fileUrl st) (copies st) (color st) (duplex st)
          (pageSize st) (orientation st) (rangeStart st) (rangeEnd st).

Definition set_stage (s : Stage) (st : State) : State :=
  mkState s (toast st) (email st) (password st) (token st)
          (deviceName st) (fileUrl st) (copies st) (color st) (duplex st)
          (pageSize st) (orientation st) (rangeStart st) (rangeEnd st).

Definition apply_event (st : State) (ev : Event) : State :=
  match ev with
  | SetToken v => set_token v st
  | SetToast t => set_toast (Some t) st
  | SetStage s => set_stage s st
  | Fetch _ | ConsoleError _ _ _ _ => st
  end.

(** The state after the effects [evs], applied in order. *)
Definition run (st : State) (evs : list Event) : State :=
  fold_left apply_event evs st.

(** The requests among the effects. *)
Definition requests (evs : list Event) : list Request :=
  flat_map (fun ev => match ev with Fetch req => [req] | _ => [] end) evs.

(** The toasts among the effects. *)
Definition toasts (evs : list Event) : list Toast :=
  flat_map (fun ev => match ev with SetToast t => [t] | _ => [] end) evs.

(** The stages among the effects. *)
Definition stages (evs : list Event) : list Stage :=
  flat_map (fun ev => match ev with SetStage s => [s] | _ => [] end) evs.

Definition POST : jsstring := js "POST".
Definition GET : jsstring := js "GET".

(** The request [hsFetch] hands to [hubspot.fetch], the same in both
    components: the method defaults to GET and the caller's headers are
    spread over the JSON content type. *)
Definition fetch_request (url : jsstring) (init : option RequestInit)
  : Request :=
  mkRequest url
    (match init with
     | Some i => match init_method i with Some m => m | None => GET end
     | None => GET
     end)
    (spread [(js "Content-Type", VStr (js "application/json"))]
            (match init with
             | Some i => match init_headers i with Some h => h | None => [] end
             | None => []
             end))
    (match init with Some i => init_body i | None => None end).

(** [JSON.parse(text)], the raw text when that throws. *)
Definition parse_or_text (text : jsstring) : jsval :=
  match JSON_parse text with
  | Some v => v
  | None => VStr text
  end.

(** [e?.message || fallback] in a catch clause *)
Definition message_or (e : JsError) (fallback : jsstring) : jsstring :=
  if str_truthy (message e) then message e else fallback.

(** The body of the login request. *)
Definition login_body (st : State) : option jsstring :=
  JSON_stringify (VObj [ (js "email", VStr (email st));
                         (js "password", VStr (password st)) ]).

Definition MSG_LOGGED_IN : jsstring := js "Logged in to HlaPrint.".
Definition MSG_TOKEN_MISSING : jsstring := js "Token missing in response".

(* ================================================================== *)
(** * HlaPrintCard (part_000) *)
(* ================================================================== *)

Module Card0.

Definition BASE : jsstring := js "https://YOUR-HLAPRINT-DOMAIN".

(** The [new Error(...)] of [hsFetch] on an answer that is not ok: the
    status and the body when the parsed body is a string, else the
    body's [message] or its JSON text.  The conversion of a [message]
    that is no string may itself throw. *)
Definition failure (res : Response) : JsError + JsError :=
  match parse_or_text (text res) with
  | VStr s => inr (mkError (N_to_js (status res) ++ js " " ++ s))
  | json =>
      new_Error
        (or_else (get_prop json (js "message"))
                 (match JSON_stringify json with
                  | Some s => VStr s
                  | None => VUndef
                  end))
  end.

(** What [hsFetch] throws on such an answer. *)
Definition thrown (res : Response) : JsError :=
  match failure res with
  | inl te => te
  | inr e => e
  end.

(** The catch clauses of [doLogin] and of [sendPrint]. *)
Definition loginCatch (e : JsError) : Async unit :=
  emit (SetToast (mkToast error (message_or e (js "Login failed")))).

Definition submitCatch (e : JsError) : Async unit :=
  emit (SetToast (mkToast error (message_or e (js "Failed to create job")))).

Section Handlers.

Variable net : Request -> FetchOutcome.

Definition hsFetch (path : jsstring) (init : option RequestInit)
  : Async jsval :=
  res <- hubspot_fetch net (fetch_request (BASE ++ path) init) ;;
  let text := text res in
  let json := parse_or_text text in
  if negb (ok res) then
    e <- lift (failure res) ;;
    throw e
  else ret json.

(** The [try] block of [doLogin]. *)
Definition loginAttempt (st : State) : Async unit :=
  out <- hsFetch (js "/api/login")
           (Some (mkInit (Some POST) None (login_body st))) ;;
  let t := get_prop out (js "token") in
  if negb (truthy t) then throw (mkError MSG_TOKEN_MISSING)
  else
    emit (SetToken t) ;;
    emit (SetToast (mkToast success MSG_LOGGED_IN)) ;;
    emit (SetStage ready).

Definition doLogin (st : State) : Async unit :=
  try_catch (loginAttempt st) loginCatch.

(** The [try] block of [sendPrint]. *)
Definition submitAttempt (st : State) : Async unit :=
  let body := buildBody st in
  bearer <- lift (ToString (token st)) ;;
  out <- hsFetch (js "/api/createPrintjob")
           (Some (mkInit (Some POST)
                         (Some [(js "Authorization",
                                 VStr (js "Bearer " ++ bearer))])
                         (JSON_stringify body))) ;;
  txn <- lift (ToString (nullish_else (get_prop out (js "transaction_id"))
                                      (VStr (js "-")))) ;;
  code <- lift (ToString (nullish_else (get_prop out (js "code"))
                                       (VStr (js "-")))) ;;
  emit (SetToast (mkToast success
                    (js "Created. Txn " ++ txn ++ js ", code " ++ code))).

Definition sendPrint (st : State) : Async unit :=
  let submit :=
    emit (SetStage sending) ;;
    finally (try_catch (submitAttempt st) submitCatch)
            (emit (SetStage ready)) in
  match validateBeforeSend st with
  | Some err =>
      if str_truthy err then emit (SetToast (mkToast error err)) else submit
  | None => submit
  end.

End Handlers.

End Card0.

(* ================================================================== *)
(** * HlaPrintCardView (part_001) *)
(* ================================================================== *)

Module Card1.

Definition BASE : jsstring := js "https://hlaprint.com".

Definition X_ERROR_HEADER : jsstring := js "x-hubspot-external-error".

(** [(res as any).headers?.get?.("x-hubspot-external-error") || ""] *)
Definition proxy_error (res : Response) : jsstring :=
  match resp_headers res with
  | Some hs =>
      match header_get X_ERROR_HEADER hs with
      | Some v => v
      | None => []
      end
  | None => []
  end.

(** The catch clauses of [doLogin] ("handled in hs fetch already") and
    of [sendPrint] ("hsFetch already handles") are empty. *)
Definition loginCatch (e : JsError) : Async unit := ret tt.

Definition submitCatch (e : JsError) : Async unit := ret tt.

(** The [detail] string of a failed call. *)
Definition detail (url : jsstring) (res : Response) : jsstring :=
  js "URL: " ++ url ++ [10%N] ++
  js "Status: " ++ N_to_js (status res) ++ [10%N] ++
  js "Proxy-Error: " ++ proxy_error res ++ [10%N] ++
  js "Body: " ++
  slice0 400 (if str_truthy (text res) then text res else js "<empty>").

Section Handlers.

Variable net : Request -> FetchOutcome.

Definition hsFetch (path : jsstring) (init : option RequestInit)
  : Async jsval :=
  let url := BASE ++ path in
  res <- hubspot_fetch net (fetch_request url init) ;;
  let text := text res in
  let xErr := proxy_error res in
  if negb (ok res) then
    emit (SetToast (mkToast error (detail url res))) ;;
    emit (ConsoleError url (status res) xErr text) ;;
    throw (mkError (detail url res))
  else ret (parse_or_text text).

(** The [try] block of [doLogin]. *)
Definition loginAttempt (st : State) : Async unit :=
  out <- hsFetch (js "/api/login")
           (Some (mkInit (Some POST) None (login_body st))) ;;
  let t := get_prop out (js "token") in
  if negb (truthy t) then throw (mkError MSG_TOKEN_MISSING)
  else
    emit (SetToken t) ;;
    emit (SetToast (mkToast success MSG_LOGGED_IN)) ;;
    emit (SetStage ready).

Definition doLogin (st : State) : Async unit :=
  try_catch (loginAttempt st) loginCatch.

(** The [try] block of [sendPrint]. *)
Definition submitAttempt (st : State) : Async unit :=
  let body := buildBody st in
  bearer <- lift (ToString (token st)) ;;
  out <- hsFetch (js "/api/createPrintjob")
           (Some (mkInit (Some POST)
                         (Some [(js "Authorization",
                                 VStr (js "Bearer " ++ bearer))])
                         (JSON_stringify body))) ;;
  txn <- lift (ToString (nullish_else (get_prop out (js "transaction_id"))
                                      (VStr (js "-")))) ;;
  code <- lift (ToString (nullish_else (get_prop out (js "code"))
                                       (VStr (js "-")))) ;;
  emit (SetToast (mkToast success
                    (js "Created. Txn " ++ txn ++ js ", code " ++ code))).

Definition sendPrint (st : State) : Async unit :=
  let submit :=
    emit (SetStage sending) ;;
    finally (try_catch (submitAttempt st) submitCatch)
            (emit (SetStage ready)) in
  match validateBeforeSend st with
  | Some err =>
      if str_truthy err then emit (SetToast (mkToast error err)) else submit
  | None => submit
  end.

End Handlers.

End Card1.

(* ================================================================== *)
(** * The validator's rules, as the specification lists them *)
(* ================================================================== *)

Module ValidatorSpec.

(** A rule inspects the draft and the session and names its error. *)
Definition Rule : Type := State -> option jsstring.

(** 1. A token must be held. *)
Definition rule_authenticated : Rule := fun st =>
  if truthy (token st) then None else Some ERR_LOGIN.

(** 2. The device name is not empty. *)
Definition rule_device_required : Rule := fun st =>
  match deviceName st with [] => Some ERR_DEVICE_REQUIRED | _ => None end.

(** 3. The device name has at most 23 characters. *)
Definition rule_device_length : Rule := fun st =>
  if length (deviceName st) <=? 23 then None else Some ERR_DEVICE_LENGTH.

(** 4. The file URL is not empty. *)
Definition rule_file_required : Rule := fun st =>
  match fileUrl st with [] => Some ERR_FILE_REQUIRED | _ => None end.

(** 5. The two range fields are given together or not at all. *)
Definition rule_range_complete : Rule := fun st =>
  match has_text (rangeStart st), has_text (rangeEnd st) with
  | true, true | false, false => None
  | _, _ => Some ERR_RANGE_BOTH
  end.

(** An integer that is at least 1. *)
Definition positive_integer (x : jsnum) : bool :=
  isInteger x && jle (num_of_Z 1) x.

(** 6. When both are given, each is a positive integer and the end is
    not before the start; each failure has its own error. *)
Definition rule_range_numeric : Rule := fun st =>
  if has_text (rangeStart st) && has_text (rangeEnd st) then
    let s := Number (rangeStart st) in
    let e := Number (rangeEnd st) in
    if negb (positive_integer s) then Some ERR_PAGE_START
    else if negb (positive_integer e) then Some ERR_PAGE_END
    else if jle s e then None
    else Some ERR_PAGE_ORDER
  else None.

(** 7. The copies are not below 1 and not above 100. *)
Definition rule_copies_bounds : Rule := fun st =>
  if jlt (copies st) (num_of_Z 1) then Some ERR_COPIES
  else if jgt (copies st) (num_of_Z 100) then Some ERR_COPIES
  else None.

(** The error of the first rule that fails. *)
Fixpoint first_failure (rules : list Rule) (st : State) : option jsstring :=
  match rules with
  | [] => None
  | r :: rest =>
      match r st with
      | Some err => Some err
      | None => first_failure rest st
      end
  end.

(** Rules 1 to 4: the session and the two required fields. *)
Definition required_rules : list Rule :=
  [ rule_authenticated; rule_device_required; rule_device_length;
    rule_file_required ].

Definition range_rules : list Rule :=
  [ rule_range_complete; rule_range_numeric ].

(** The seven rules in the order of the specification. *)
Definition rules : list Rule :=
  required_rules ++ range_rules ++ [ rule_copies_bounds ].

(** The errors of the rules before the copies rule. *)
Definition earlier_errors : list jsstring :=
  [ ERR_LOGIN; ERR_DEVICE_REQUIRED; ERR_DEVICE_LENGTH; ERR_FILE_REQUIRED;
    ERR_RANGE_BOTH; ERR_PAGE_START; ERR_PAGE_END; ERR_PAGE_ORDER ].

(** The errors of rule 6. *)
Definition range_value_errors : list jsstring :=
  [ ERR_PAGE_START; ERR_PAGE_END; ERR_PAGE_ORDER ].

(** What [validate] reads: the session token and five draft fields. *)
Definition inputs (st : State)
  : jsval * jsstring * jsstring * jsstring * jsstring * jsnum :=
  (token st, deviceName st, fileUrl st, rangeStart st, rangeEnd st, copies st).

End ValidatorSpec.

(** The fields of the draft: everything [sendPrint] puts in the payload. *)
Definition draft (st : State)
  : jsstring * jsstring * jsnum * bool * bool * PageSize * Orientation
    * jsstring * jsstring :=
  (deviceName st, fileUrl st, copies st, color st, duplex st, pageSize st,
   orientation st, rangeStart st, rangeEnd st).

(** The one request a submission sends, for a token that converts to the
    string [bearer]. *)
Definition submit_request (base bearer : jsstring) (st : State) : Request :=
  mkRequest (base ++ js "/api/createPrintjob") POST
    [ (js "Content-Type", VStr (js "application/json"));
      (js "Authorization", VStr (js "Bearer " ++ bearer)) ]
    (JSON_stringify (buildBody st)).

(** The request of a login. *)
Definition login_request (base : jsstring) (st : State) : Request :=
  mkRequest (base ++ js "/api/login") POST
    [ (js "Content-Type", VStr (js "application/json")) ]
    (login_body st).

(** The value a login answer carries under [token]. *)
Definition login_token (res : Response) : jsval :=
  get_prop (parse_or_text (text res)) (js "token").

(** A login succeeds when the answer is 2xx and carries a truthy token. *)
Definition login_succeeds (out : FetchOutcome) : bool :=
  match out with
  | Resolved res => ok res && truthy (login_token res)
  | Rejected _ => false
  end.

(** [Object.keys(v)] *)
Definition keys (v : jsval) : list jsstring :=
  match v with
  | VObj props => map fst props
  | _ => []
  end.

(** The stages a card rests in between two handler runs. *)
Definition interactive (s : Stage) : Prop := s = login \/ s = ready.

(** [containsb needle hay]: the decision procedure of [contains]. *)
Fixpoint is_prefix (p s : jsstring) : bool :=
  match p, s with
  | [], _ => true
  | x :: p', y :: s' => (x =? y)%N && is_prefix p' s'
  | _ :: _, [] => false
  end.

Fixpoint containsb (needle hay : jsstring) : bool :=
  is_prefix needle hay ||
  match hay with
  | [] => false
  | _ :: hay' => containsb needle hay'
  end.

(* ================================================================== *)
(** * Sample sessions, drafts and servers *)
(* ================================================================== *)

Module Sample.

(** A logged-in session with a complete draft: the scenario of the
    specification (device Desk1, two colour copies on A3, pages 1-3). *)
Definition desk1 : State :=
  mkState ready None (js "a@b.com") (js "x") (VStr (js "T1"))
          (js "Desk1") (js "https://x/y.pdf") (num_of_Z 2) true false
          A3 portrait (js "1") (js "3").

Definition with_token (v : jsval) (st : State) : State := set_token v st.

Definition with_device (d : jsstring) (st : State) : State :=
  mkState (stage st) (toast st) (email st) (password st) (token st)
          d (fileUrl st) (copies st) (color st) (duplex st)
          (pageSize st) (orientation st) (rangeStart st) (rangeEnd st).

Definition with_copies (c : jsnum) (st : State) : State :=
  mkState (stage st) (toast st) (email st) (password st) (token st)
          (deviceName st) (fileUrl st) c (color st) (duplex st)
          (pageSize st) (orientation st) (rangeStart st) (rangeEnd st).

Definition with_range (a b : jsstring) (st : State) : State :=
  mkState (stage st) (toast st) (email st) (password st) (token st)
          (deviceName st) (fileUrl st) (copies st) (color st) (duplex st)
          (pageSize st) (orientation st) a b.

(** The same draft before any login. *)
Definition logged_out : State := with_token (VStr []) desk1.

(** Credentials typed into a fresh card. *)
Definition at_login : State :=
  mkState login None (js "a@b.com") (js "x") (VStr []) [] []
          (num_of_Z 1) false true A4 auto [] [].

(** Device names of 23 and of 24 characters. *)
Definition name23 : jsstring := js "FrontDesk-PC-0123456789".
Definition name24 : jsstring := js "FrontDesk-PC-0123456789X".

(** [{"token":"T1","status":"ok"}] *)
Definition body_token : jsstring :=
  js "{" ++ quote (js "token") ++ js ":" ++ quote (js "T1") ++ js ","
  ++ quote (js "status") ++ js ":" ++ quote (js "ok") ++ js "}".

(** [{"status":"ok"}]: a login answer without a token *)
Definition body_no_token : jsstring :=
  js "{" ++ quote (js "status") ++ js ":" ++ quote (js "ok") ++ js "}".

(** [{"message":"ok","transaction_id":"TX9","code":"C7"}] *)
Definition body_created : jsstring :=
  js "{" ++ quote (js "message") ++ js ":" ++ quote (js "ok") ++ js ","
  ++ quote (js "transaction_id") ++ js ":" ++ quote (js "TX9") ++ js ","
  ++ quote (js "code") ++ js ":" ++ quote (js "C7") ++ js "}".

(** The failing answer of the specification's scenario. *)
Definition res500 : Response :=
  mkResponse 500
    (Some [(js "x-hubspot-external-error", js "upstream timeout")])
    (js "Internal error").

(** [{"message":"Unauthenticated."}] *)
Definition body_unauthenticated : jsstring :=
  js "{" ++ quote (js "message") ++ js ":" ++ quote (js "Unauthenticated.")
  ++ js "}".

(** A 401 answer whose body is a JSON object with a message. *)
Definition res401 : Response :=
  mkResponse 401
    (Some [(js "x-hubspot-external-error", js "upstream said no")])
    body_unauthenticated.

(** A text with single quotes in place of the double ones, to compare
    JSON texts with literals. *)
Definition single_quoted (s : jsstring) : jsstring :=
  map (fun c => if (c =? 34)%N then 39%N else c) s.

Definition ends_with (suffix s : jsstring) : bool :=
  is_prefix (rev suffix) (rev s).

(** A server that logs in and creates jobs. *)
Definition server_ok : Request -> FetchOutcome := fun req =>
  if ends_with (js "/api/login") (url req)
  then Resolved (mkResponse 200 (Some []) body_token)
  else Resolved (mkResponse 200 (Some []) body_created).

(** A server whose login answer carries no token. *)
Definition server_no_token : Request -> FetchOutcome := fun _ =>
  Resolved (mkResponse 200 (Some []) body_no_token).

(** A server that answers every call with [res500]. *)
Definition server_500 : Request -> FetchOutcome := fun _ => Resolved res500.

(** A server that answers every call with [res401]. *)
Definition server_401 : Request -> FetchOutcome := fun _ => Resolved res401.

(** No network: every call is rejected. *)
Definition offline : Request -> FetchOutcome := fun _ =>
  Rejected (mkError (js "Failed to fetch")).

End Sample.

(* ================================================================== *)
(** * The controls of the card *)
(* ================================================================== *)

(** The remaining setters of the [useState] cells. *)
Definition set_email (v : jsstring) (st : State) : State :=
  mkState (stage st) (toast st) v (password st) (token st)
          (deviceName st) (fileUrl st) (copies st) (color st) (duplex st)
          (pageSize st) (orientation st) (rangeStart st) (rangeEnd st).

Definition set_password (v : jsstring) (st : State) : State :=
  mkState (stage st) (toast st) (email st) v (token st)
          (deviceName st) (fileUrl st) (copies st) (color st) (duplex st)
          (pageSize st) (orientation st) (rangeStart st) (rangeEnd st).

Definition set_deviceName (v : jsstring) (st : State) : State :=
  mkState (stage st) (toast st) (email st) (password st) (token st)
          v (fileUrl st) (copies st) (color st) (duplex st)
          (pageSize st) (orientation st) (rangeStart st) (rangeEnd st).

Definition set_fileUrl (v : jsstring) (st : State) : State :=
  mkState (stage st) (toast st) (email st) (password st) (token st)
          (deviceName st) v (copies st) (color st) (duplex st)
          (pageSize st) (orientation st) (rangeStart st) (rangeEnd st).

Definition set_copies (c : jsnum) (st : State) : State :=
  mkState (stage st) (toast st) (email st) (password st) (token st)
          (deviceName st) (fileUrl st) c (color st) (duplex st)
          (pageSize st) (orientation st) (rangeStart st) (rangeEnd st).

Definition set_color (b : bool) (st : State) : State :=
  mkState (stage st) (toast st) (email st) (password st) (token st)
          (deviceName st) (fileUrl st) (copies st) b (duplex st)
          (pageSize st) (orientation st) (rangeStart st) (rangeEnd st).

Definition set_duplex (b : bool) (st : State) : State :=
  mkState (stage st) (toast st) (email st) (password st) (token st)
          (deviceName st) (fileUrl st) (copies st) (color st) b
          (pageSize st) (orientation st) (rangeStart st) (rangeEnd st).

Definition set_pageSize (p : PageSize) (st : State) : State :=
  mkState (stage st) (toast st) (email st) (password st) (token st)
          (deviceName st) (fileUrl st) (copies st) (color st) (duplex st)
          p (orientation st) (rangeStart st) (rangeEnd st).

Definition set_orientation (o : Orientation) (st : State) : State :=
  mkState (stage st) (toast st) (email st) (password st) (token st)
          (deviceName st) (fileUrl st) (copies st) (color st) (duplex st)
          (pageSize st) o (rangeStart st) (rangeEnd st).

Definition set_rangeStart (v : jsstring) (st : State) : State :=
  mkState (stage st) (toast st) (email st) (password st) (token st)
          (deviceName st) (fileUrl st) (copies st) (color st) (duplex st)
          (pageSize st) (orientation st) v (rangeEnd st).

Definition set_rangeEnd (v : jsstring) (st : State) : State :=
  mkState (stage st) (toast st) (email st) (password st) (token st)
          (deviceName st) (fileUrl st) (copies st) (color st) (duplex st)
          (pageSize st) (orientation st) (rangeStart st) v.

(** [onChange] of the device name input:
    [(v) => v.length <= 23 && setDeviceName(v)]. *)
Definition deviceName_onChange (v : jsstring) (st : State) : State :=
  if length v <=? 23 then set_deviceName v st else st.

(** [onChange] of the copies input:
    [(v) => setCopies(Math.min(100, Math.max(1, Number(v) || 1)))]. *)
Definition copies_onChange (v : jsstring) (st : State) : State :=
  set_copies (clamp_copies v) st.

(** [onChange] of the colour and duplex selects:
    [(v) => setColor(v === "true")]. *)
Definition color_onChange (v : jsstring) (st : State) : State :=
  set_color (str_eqb v (js "true")) st.

Definition duplex_onChange (v : jsstring) (st : State) : State :=
  set_duplex (str_eqb v (js "true")) st.

(** [onClose] of the alert: [() => setToast(null)]. *)
Definition toast_onClose (st : State) : State := set_toast None st.

(** [String(e)] for an Error object of the given [name]
    (Error.prototype.toString). *)
Definition Error_toString (name : jsstring) (e : JsError) : jsstring :=
  match name, message e with
  | [], m => m
  | n, [] => n
  | n, m => n ++ js ": " ++ m
  end.

(** The [SetToken] values among the effects. *)
Definition tokens (evs : list Event) : list jsval :=
  flat_map (fun ev => match ev with SetToken v => [v] | _ => [] end) evs.

Module Controls.

(** The two cards: [HlaPrintCard] is part_000, [HlaPrintCardView] is
    part_001. *)
Inductive Component : Type := HlaPrintCard | HlaPrintCardView.

(** What the user can act on, with the value an input hands to its
    [onChange]. *)
Inductive Control : Type :=
| AlertClose
| DebugPingButton
| EmailInput (v : jsstring)
| PasswordInput (v : jsstring)
| LoginButton
| DeviceNameInput (v : jsstring)
| FileUrlInput (v : jsstring)
| CopiesInput (v : jsstring)
| ColorSelect (v : jsstring)
| DuplexSelect (v : jsstring)
| PageSizeSelect (p : PageSize)
| OrientationSelect (o : Orientation)
| PageStartInput (v : jsstring)
| PageEndInput (v : jsstring)
| SendButton.

Definition at_login_stage (st : State) : bool :=
  match stage st with login => true | _ => false end.

(** [disabled={!deviceName || !fileUrl}] *)
Definition send_disabled (st : State) : bool :=
  negb (str_truthy (deviceName st)) || negb (str_truthy (fileUrl st)).

(** What the JSX renders, and enables, in a state: the alert when a
    toast is held, the ping button in part_001 only, the login form at
    stage [login], the job form at the other stages. *)
Definition shown (c : Component) (st : State) (ctl : Control) : bool :=
  match ctl with
  | AlertClose => match toast st with Some _ => true | None => false end
  | DebugPingButton =>
      match c with HlaPrintCardView => true | HlaPrintCard => false end
  | EmailInput _ | PasswordInput _ | LoginButton => at_login_stage st
  | SendButton => negb (at_login_stage st) && negb (send_disabled st)
  | _ => negb (at_login_stage st)
  end.

(** What holds of a card between two handler runs. *)
Definition invariant (st : State) : Prop :=
  length (deviceName st) <= 23
  /\ jle (num_of_Z 1) (copies st) = true
  /\ jle (copies st) (num_of_Z 100) = true
  /\ interactive (stage st)
  /\ (stage st = login -> token st = VStr [])
  /\ (stage st = ready -> truthy (token st) = true).

(** The caller's headers of an [init]. *)
Definition caller_headers (init : option RequestInit)
  : list (jsstring * jsval) :=
  match init with
  | Some i => match init_headers i with Some h => h | None => [] end
  | None => []
  end.

Section Runs.

(** The [name] of a thrown error, which [JsError] does not keep. *)
Variable error_name : JsError -> jsstring.

(** [debugPing] of part_001. *)
Definition debugPing (net : Request -> FetchOutcome) : Async unit :=
  let target := Card1.BASE ++ js "/robots.txt" in
  try_catch
    (res <- hubspot_fetch net (mkRequest target GET [] None) ;;
     emit (SetToast (mkToast (if ok res then success else error)
                             (js "Ping " ++ N_to_js (status res)
                              ++ js " " ++ target))))
    (fun e => emit (SetToast (mkToast error
                                (js "Ping failed: "
                                 ++ Error_toString (error_name e) e)))).

(** The state after one control is used: an input applies its
    [onChange], a button runs its handler to the end against the
    network it meets. *)
Definition handle (c : Component) (net : Request -> FetchOutcome)
           (st : State) (ctl : Control) : State :=
  match ctl with
  | AlertClose => toast_onClose st
  | DebugPingButton => run st (events (debugPing net))
  | EmailInput v => set_email v st
  | PasswordInput v => set_password v st
  | LoginButton =>
      match c with
      | HlaPrintCard => run st (events (Card0.doLogin net st))
      | HlaPrintCardView => run st (events (Card1.doLogin net st))
      end
  | DeviceNameInput v => deviceName_onChange v st
  | FileUrlInput v => set_fileUrl v st
  | CopiesInput v => copies_onChange v st
  | ColorSelect v => color_onChange v st
  | DuplexSelect v => duplex_onChange v st
  | PageSizeSelect p => set_pageSize p st
  | OrientationSelect o => set_orientation o st
  | PageStartInput v => set_rangeStart v st
  | PageEndInput v => set_rangeEnd v st
  | SendButton =>
      match c with
      | HlaPrintCard => run st (events (Card0.sendPrint net st))
      | HlaPrintCardView => run st (events (Card1.sendPrint net st))
      end
  end.

(** The states a card can be in: the mounted one, and those reached by
    using a control that is shown, one handler run at a time. *)
Inductive reachable (c : Component) : State -> Prop :=
| reach_mount : reachable c initial
| reach_use (st : State) (net : Request -> FetchOutcome) (ctl : Control) :
    reachable c st -> shown c st ctl = true ->
    reachable c (handle c net st ctl).

End Runs.

End Controls.

(* ================================================================== *)
(** * The settings page (HlaPrintSettings.tsx) *)
(* ================================================================== *)

Module Settings.

Definition BASE : jsstring := js "https://879a9ec3af06.ngrok-free.app".

(** The status shown: [msg] is a string in every branch but one, where
    it is whatever truthy value the answer had under [message]. *)
Record Status : Type := mkStatus { type : ToastType; msg : jsval }.

Record State : Type := mkState {
  email : jsstring;
  password : jsstring;
  busy : bool;
  status : option Status
}.

Definition initial : State := mkState [] [] false None.

Inductive Event : Type :=
| SetBusy (b : bool)
| SetStatus (s : option Status)
| Fetch (req : Request).

(** The computations of this page: as [Async], over its own effects. *)
Definition Async (A : Type) : Type := (list Event * (JsError + A))%type.

Definition ret {A} (a : A) : Async A := ([], inr a).
Definition emit (ev : Event) : Async unit := ([ev], inr tt).
Definition lift {A} (r : JsError + A) : Async A := ([], r).

Definition bind {A B} (m : Async A) (k : A -> Async B) : Async B :=
  match m with
  | (evs, inl e) => (evs, inl e)
  | (evs, inr a) => let (evs', r) := k a in (evs ++ evs', r)
  end.

Definition try_catch {A} (m : Async A) (h : JsError -> Async A) : Async A :=
  match m with
  | (evs, inl e) => let (evs', r) := h e in (evs ++ evs', r)
  | (evs, inr a) => (evs, inr a)
  end.

Definition finally {A} (m : Async A) (f : Async unit) : Async A :=
  let (evs, r) := m in
  match f with
  | (evs', inl e) => (evs ++ evs', inl e)
  | (evs', inr _) => (evs ++ evs', r)
  end.

Declare Scope settings_scope.
Notation "x <- m ;; k" := (bind m (fun x => k))
  (at level 61, m at next level, right associativity) : settings_scope.
Notation "m ;; k" := (bind m (fun _ => k))
  (at level 61, right associativity) : settings_scope.
Local Open Scope settings_scope.

Definition events {A} (m : Async A) : list Event := fst m.
Definition outcome {A} (m : Async A) : JsError + A := snd m.

Definition hubspot_fetch (net : Request -> FetchOutcome) (req : Request)
  : Async Response :=
  ([Fetch req],
   match net req with
   | Rejected e => inl e
   | Resolved res => inr res
   end).

(** [v.k] without optional chaining, for the names [status] and
    [message]: a TypeError on [null] and [undefined] (its wording is
    the one of V8), else as [v?.k]. *)
Definition get_member (v : jsval) (k : jsstring) : JsError + jsval :=
  match v with
  | VNull =>
      inl (mkError (js "Cannot read properties of null (reading '"
                    ++ k ++ js "')"))
  | VUndef =>
      inl (mkError (js "Cannot read properties of undefined (reading '"
                    ++ k ++ js "')"))
  | _ => inr (get_prop v k)
  end.

(** [v === "SUCCESS"] *)
Definition is_SUCCESS (v : jsval) : bool :=
  match v with
  | VStr s => str_eqb s (js "SUCCESS")
  | _ => false
  end.

Definition MSG_CONNECTED : jsstring := js "Connected to HlaPrint.".
Definition MSG_FAILED : jsstring := js "Failed to connect. Check credentials.".
Definition MSG_UNEXPECTED : jsstring := js "Unexpected error.".

Definition connect_request (st : State) : Request :=
  mkRequest (BASE ++ js "/api/hubspot/settings/hlaprint/connect") POST []
    (JSON_stringify (VObj [ (js "email", VStr (email st));
                            (js "password", VStr (password st)) ])).

(** The value the answer is read as: the parsed body, or
    [{ status: "FAILURE", message: txt }] when it does not parse. *)
Definition answer (txt : jsstring) : jsval :=
  match JSON_parse txt with
  | Some v => v
  | None => VObj [ (js "status", VStr (js "FAILURE"));
                   (js "message", VStr txt) ]
  end.

Section Handlers.

Variable net : Request -> FetchOutcome.

(** The [try] block of [connect]. *)
Definition connectAttempt (st : State) : Async unit :=
  res <- hubspot_fetch net (connect_request st) ;;
  let txt := text res in
  let json := answer txt in
  s <- lift (get_member json (js "status")) ;;
  if is_SUCCESS s then
    emit (SetStatus (Some (mkStatus success (VStr MSG_CONNECTED))))
  else
    m <- lift (get_member json (js "message")) ;;
    emit (SetStatus (Some (mkStatus error (or_else m (VStr MSG_FAILED))))).

Definition connectCatch (e : JsError) : Async unit :=
  emit (SetStatus (Some (mkStatus error
                           (VStr (message_or e MSG_UNEXPECTED))))).

Definition connect (st : State) : Async unit :=
  emit (SetStatus None) ;;
  emit (SetBusy true) ;;
  finally (try_catch (connectAttempt st) connectCatch)
          (emit (SetBusy false)).

End Handlers.

Definition apply_event (st : State) (ev : Event) : State :=
  match ev with
  | SetBusy b => mkState (email st) (password st) b (status st)
  | SetStatus s => mkState (email st) (password st) (busy st) s
  | Fetch _ => st
  end.

Definition run (st : State) (evs : list Event) : State :=
  fold_left apply_event evs st.

Definition requests (evs : list Event) : list Request :=
  flat_map (fun ev => match ev with Fetch req => [req] | _ => [] end) evs.

(** The controls of the page. *)
Inductive Control : Type :=
| AlertClose
| EmailInput (v : jsstring)
| PasswordInput (v : jsstring)
| ConnectButton.

(** [disabled={!email || !password || busy}] *)
Definition connect_disabled (st : State) : bool :=
  negb (str_truthy (email st)) || negb (str_truthy (password st)) || busy st.

Definition shown (st : State) (ctl : Control) : bool :=
  match ctl with
  | AlertClose => match status st with Some _ => true | None => false end
  | ConnectButton => negb (connect_disabled st)
  | _ => true
  end.

Definition handle (net : Request -> FetchOutcome) (st : State)
           (ctl : Control) : State :=
  match ctl with
  | AlertClose => mkState (email st) (password st) (busy st) None
  | EmailInput v => mkState v (password st) (busy st) (status st)
  | PasswordInput v => mkState (email st) v (busy st) (status st)
  | ConnectButton => run st (events (connect net st))
  end.

Inductive reachable : State -> Prop :=
| reach_mount : reachable initial
| reach_use (st : State) (net : Request -> FetchOutcome) (ctl : Control) :
    reachable st -> shown st ctl = true -> reachable (handle net st ctl).

End Settings.

(* ================================================================== *)
(** * More samples *)
(* ================================================================== *)

Module Sample2.

(** [{"status":"SUCCESS","message":"ok"}] *)
Definition body_success : jsstring :=
  js "{" ++ quote (js "status") ++ js ":" ++ quote (js "SUCCESS") ++ js ","
  ++ quote (js "message") ++ js ":" ++ quote (js "ok") ++ js "}".

(** [{"status":"FAILURE","message":"Bad credentials"}] *)
Definition body_failure : jsstring :=
  js "{" ++ quote (js "status") ++ js ":" ++ quote (js "FAILURE") ++ js ","
  ++ quote (js "message") ++ js ":" ++ quote (js "Bad credentials")
  ++ js "}".

Definition typed : Settings.State :=
  Settings.mkState (js "a@b.com") (js "x") false None.

(** A server that answers 500 with a SUCCESS envelope. *)
Definition server_500_success : Request -> FetchOutcome := fun _ =>
  Resolved (mkResponse 500 None body_success).

(** A server that answers 200 with a FAILURE envelope. *)
Definition server_failure : Request -> FetchOutcome := fun _ =>
  Resolved (mkResponse 200 None body_failure).

(** A server that answers 200 with the JSON text [null]. *)
Definition server_null : Request -> FetchOutcome := fun _ =>
  Resolved (mkResponse 200 None (js "null")).

(** A server that answers 200 with a text that is not JSON. *)
Definition server_html : Request -> FetchOutcome := fun _ =>
  Resolved (mkResponse 200 None (js "<html>Bad Gateway</html>")).

(** A job answer without transaction id and code. *)
Definition server_bare : Request -> FetchOutcome := fun _ =>
  Resolved (mkResponse 201 None (js "created")).

(** Every thrown error is a TypeError. *)
Definition type_errors : JsError -> jsstring := fun _ => js "TypeError".

(** A card after a login against [Sample.server_ok]. *)
Definition logged_in (c : Controls.Component) : State :=
  Controls.handle type_errors c Sample.server_ok initial Controls.LoginButton.

(** The same card after a device name and a file URL are typed. *)
Definition filled (c : Controls.Component) : State :=
  Controls.handle type_errors c Sample.server_ok
    (Controls.handle type_errors c Sample.server_ok (logged_in c)
       (Controls.DeviceNameInput (js "Desk1")))
    (Controls.FileUrlInput (js "https://x/y.pdf")).

(** The same card after one blank is typed into each range field. *)
Definition blank_range (c : Controls.Component) : State :=
  Controls.handle type_errors c Sample.server_ok
    (Controls.handle type_errors c Sample.server_ok (filled c)
       (Controls.PageStartInput (js " ")))
    (Controls.PageEndInput (js " ")).

(** The settings page after both credentials are typed, one control at
    a time. *)
Definition typed_in : Settings.State :=
  Settings.handle Sample.offline
    (Settings.handle Sample.offline Settings.initial
       (Settings.EmailInput (js "a@b.com")))
    (Settings.PasswordInput (js "x")).

(** The [init] of a call that names an Authorization header only. *)
Definition init_bearer : RequestInit :=
  mkInit (Some POST) (Some [(js "Authorization", VStr (js "Bearer T1"))])
         None.

End Sample2.

(* ================================================================== *)
(** * Facts about strings and numbers *)
(* ================================================================== *)

Lemma str_truthy_nonempty (s : jsstring) : str_truthy s = true <-> is_set s.
Proof.
  unfold is_set. destruct s; simpl; split; intro H; congruence.
Qed.

Lemma is_prefix_split (p s : jsstring) :
  is_prefix p s = true <-> exists post, s = p ++ post.
Proof.
  revert s. induction p as [|x p IH]; intros s; simpl.
  - split; [intros _; now exists s | reflexivity].
  - destruct s as [|y s].
    + split; [discriminate | intros [post H]; discriminate H].
    + rewrite andb_true_iff, N.eqb_eq, IH. split.
      * intros [-> [post ->]]. now exists post.
      * intros [post H]. injection H as -> ->. split; [reflexivity | now exists post].
Qed.

Lemma containsb_spec (needle hay : jsstring) :
  containsb needle hay = true <-> contains needle hay.
Proof.
  unfold contains. induction hay as [|c hay IH].
  - simpl. rewrite orb_false_r, is_prefix_split. split.
    + intros [post H]. now exists [], post.
    + intros [pre [post H]]. destruct pre; simpl in H.
      * now exists post.
      * discriminate H.
  - cbn [containsb]. rewrite orb_true_iff, is_prefix_split, IH. split.
    + intros [[post H] | [pre [post H]]].
      * now exists [], post.
      * exists (c :: pre), post. simpl. now rewrite H.
    + intros [pre [post H]]. destruct pre as [|x pre]; simpl in H.
      * left. now exists post.
      * right. injection H as _ H. now exists pre, post.
Qed.

(** On finite numbers [<] and [<=] are each other's negation. *)
Lemma Qltb_antisym (p q : Q) : Qltb p q = negb (Qleb q p).
Proof. unfold Qltb, Qleb. apply Z.ltb_antisym. Qed.

Lemma isInteger_finite (x : jsnum) :
  isInteger x = true -> exists q, x = JFin q.
Proof. destruct x; simpl; try discriminate. intros _. now exists q. Qed.

Lemma jlt_not_jle (a b : jsnum) :
  isInteger a = true -> isInteger b = true -> jlt a b = negb (jle b a).
Proof.
  intros Ha Hb. apply isInteger_finite in Ha as [p ->].
  apply isInteger_finite in Hb as [q ->]. apply Qltb_antisym.
Qed.

Lemma isInteger_num_of_Z (z : Z) : isInteger (num_of_Z z) = true.
Proof. unfold num_of_Z, isInteger, inject_Z. simpl. now rewrite Z.rem_1_r. Qed.

(** In bounds in the sense of [<=] excludes both strict comparisons. *)
Lemma jle_not_jlt (a b : jsnum) : jle a b = true -> jlt b a = false.
Proof.
  destruct a as [| na | p], b as [| nb | q]; simpl; try discriminate;
    try (destruct na; simpl; congruence); try (destruct nb; simpl; congruence).
  - destruct na, nb; simpl; congruence.
  - rewrite Qltb_antisym. now intros ->.
Qed.

(** The copies input never stores NaN or a value outside 1..100. *)
Lemma clamp_copies_in_bounds (v : jsstring) :
  jle (num_of_Z 1) (clamp_copies v) = true
  /\ jle (clamp_copies v) (num_of_Z 100) = true.
Proof.
  unfold clamp_copies.
  set (n := if num_truthy (Number v) then Number v else num_of_Z 1).
  assert (Hn : n <> JNaN).
  { unfold n. destruct (Number v) eqn:E; simpl; try discriminate.
    destruct (negb (Qnum q =? 0)%Z); discriminate. }
  destruct n as [| nb | q]; [congruence | |].
  - destruct nb; vm_compute; split; reflexivity.
  - change (Math_max (num_of_Z 1) (JFin q))
      with (if Qltb (inject_Z 1) q then JFin q else num_of_Z 1).
    destruct (Qltb (inject_Z 1) q) eqn:E1; [|vm_compute; now split].
    change (Math_min (num_of_Z 100) (JFin q))
      with (if Qltb q (inject_Z 100) then JFin q else num_of_Z 100).
    destruct (Qltb q (inject_Z 100)) eqn:E2; [|vm_compute; now split].
    unfold num_of_Z, jle, Qltb, Qleb in *.
    apply Z.ltb_lt in E1, E2. split; apply Z.leb_le; lia.
Qed.

(* ================================================================== *)
(** * The validator *)
(* ================================================================== *)

Import ValidatorSpec.

Lemma first_failure_app (rs1 rs2 : list Rule) (st : State) :
  first_failure (rs1 ++ rs2) st =
  match first_failure rs1 st with
  | Some err => Some err
  | None => first_failure rs2 st
  end.
Proof.
  induction rs1 as [|r rs1 IH]; simpl; [reflexivity|].
  destruct (r st); [reflexivity | apply IH].
Qed.

Lemma first_failure_none (rs : list Rule) (st : State) :
  first_failure rs st = None <-> Forall (fun r => r st = None) rs.
Proof.
  induction rs as [|r rs IH]; simpl.
  - split; [constructor | reflexivity].
  - destruct (r st) eqn:E.
    + split; [discriminate | intros H; inversion H; congruence].
    + rewrite IH. split; [now constructor | intros H; now inversion H].
Qed.

(** The numeric block of the source and rule 6 agree. *)
Lemma check_range_rule (st : State) :
  has_text (rangeStart st) && has_text (rangeEnd st) = true ->
  check_range (rangeStart st) (rangeEnd st) = rule_range_numeric st.
Proof.
  intros H. unfold rule_range_numeric, check_range, positive_integer.
  rewrite H.
  set (s := Number (rangeStart st)). set (e := Number (rangeEnd st)).
  pose proof (isInteger_num_of_Z 1) as H1.
  destruct (isInteger s) eqn:Hs; cbn [negb orb andb]; [|reflexivity].
  rewrite (@jlt_not_jle s _ Hs H1).
  destruct (jle (num_of_Z 1) s); cbn [negb orb andb]; [|reflexivity].
  destruct (isInteger e) eqn:He; cbn [negb orb andb]; [|reflexivity].
  rewrite (@jlt_not_jle e _ He H1).
  destruct (jle (num_of_Z 1) e); cbn [negb orb andb]; [|reflexivity].
  rewrite (@jlt_not_jle e s He Hs). now destruct (jle s e).
Qed.

(** [validateBeforeSend] is the first failure among the seven rules. *)
Lemma validate_rules (st : State) :
  validateBeforeSend st = first_failure rules st.
Proof.
  unfold validateBeforeSend, rules, required_rules, range_rules.
  cbn [app first_failure].
  unfold rule_authenticated at 1.
  destruct (truthy (token st)); cbn [negb]; [|reflexivity].
  unfold rule_device_required at 1.
  destruct (deviceName st) as [|c dn] eqn:Hd; [reflexivity|].
  cbn [str_truthy negb]. unfold rule_device_length at 1. rewrite Hd.
  rewrite Nat.ltb_antisym.
  destruct (length (c :: dn) <=? 23); cbn [negb]; [|reflexivity].
  unfold rule_file_required at 1.
  destruct (fileUrl st) as [|u fu]; [reflexivity|].
  cbn [str_truthy negb]. unfold rule_range_complete at 1.
  pose proof (check_range_rule st) as Hr.
  assert (Hc : (if jlt (copies st) (num_of_Z 1) || jgt (copies st) (num_of_Z 100)
                then Some ERR_COPIES else None) = rule_copies_bounds st).
  { unfold rule_copies_bounds.
    destruct (jlt (copies st) (num_of_Z 1)); cbn [orb]; [reflexivity|].
    now destruct (jgt (copies st) (num_of_Z 100)). }
  rewrite Hc.
  destruct (has_text (rangeStart st)) eqn:Hs, (has_text (rangeEnd st)) eqn:He;
    cbn [Bool.eqb negb andb]; try reflexivity.
  - rewrite (Hr eq_refl).
    destruct (rule_range_numeric st); [reflexivity|].
    now destruct (rule_copies_bounds st).
  - unfold rule_range_numeric at 1. rewrite Hs, He. cbn [andb].
    now destruct (rule_copies_bounds st).
Qed.

(** Every error the validator returns is a non-empty string, so
    [if (err)] in [sendPrint] takes the error branch. *)
Lemma validation_error_truthy (st : State) (err : jsstring) :
  validateBeforeSend st = Some err -> str_truthy err = true.
Proof.
  unfold validateBeforeSend, check_range.
  repeat match goal with
         | |- context [if ?c then _ else _] => destruct c
         end;
    intros H; inversion H; reflexivity.
Qed.

(** The validator reads nothing but its inputs. *)
Lemma validate_inputs (st1 st2 : State) :
  inputs st1 = inputs st2 -> validateBeforeSend st1 = validateBeforeSend st2.
Proof.
  unfold inputs. intros H. injection H as Ht Hd Hf Hs He Hc.
  unfold validateBeforeSend. now rewrite Ht, Hd, Hf, Hs, He, Hc.
Qed.

(** C4: [validate] applies the rules in the fixed order authentication,
    device name present, device name length, file URL present, range
    completeness, range numeric and order, copies bounds, and returns
    the error of the first rule that fails; it returns [null] exactly
    when every rule passes; and its result is a function of the token
    and the five fields it reads, whatever the rest of the state. *)
Theorem validate_first_failing_rule :
  rules = [ rule_authenticated; rule_device_required; rule_device_length;
            rule_file_required; rule_range_complete; rule_range_numeric;
            rule_copies_bounds ]
  /\ (forall st, validateBeforeSend st = first_failure rules st)
  /\ (forall st, validateBeforeSend st = None
                 <-> Forall (fun r => r st = None) rules)
  /\ (forall st before r after err,
         rules = before ++ r :: after ->
         Forall (fun r' => r' st = None) before ->
         r st = Some err ->
         validateBeforeSend st = Some err)
  /\ (forall st1 st2, inputs st1 = inputs st2 ->
                      validateBeforeSend st1 = validateBeforeSend st2).
Proof.
  split; [reflexivity|]. split; [exact validate_rules|]. split; [|split].
  - intros st. rewrite validate_rules. apply first_failure_none.
  - intros st before r after err Hsplit Hbefore Hr.
    rewrite validate_rules, Hsplit, first_failure_app.
    apply first_failure_none in Hbefore. rewrite Hbefore. simpl. now rewrite Hr.
  - exact validate_inputs.
Qed.

(** Closes a goal that separates two fixed messages. *)
Ltac fixed_messages :=
  match goal with
  | |- Some ?a <> Some ?b =>
      let H := fresh in intro H; vm_compute in H; discriminate H
  end.

Lemma range_numeric_errors (st : State) (err : jsstring) :
  rule_range_numeric st = Some err -> In err range_value_errors.
Proof.
  unfold rule_range_numeric, range_value_errors.
  repeat match goal with
         | |- context [if ?c then _ else _] => destruct c
         end;
    intros H; inversion H; simpl; auto.
Qed.

Lemma earlier_rules_errors (st : State) (err : jsstring) :
  first_failure (required_rules ++ range_rules) st = Some err ->
  In err earlier_errors.
Proof.
  unfold required_rules, range_rules. cbn [app first_failure].
  unfold rule_authenticated, rule_device_required, rule_device_length,
    rule_file_required, rule_range_complete.
  destruct (truthy (token st)); [|intros H; inversion H; simpl; auto].
  destruct (deviceName st); [intros H; inversion H; simpl; auto|].
  destruct (length (n :: j) <=? 23); [|intros H; inversion H; simpl; auto].
  destruct (fileUrl st); [intros H; inversion H; simpl; auto|].
  destruct (has_text (rangeStart st)), (has_text (rangeEnd st));
    try (intros H; inversion H; simpl; now auto 10).
  - destruct (rule_range_numeric st) eqn:E; [|discriminate].
    intros H; inversion H; subst. apply range_numeric_errors in E.
    unfold range_value_errors, earlier_errors in *. simpl in *. intuition.
  - destruct (rule_range_numeric st) eqn:E; [|discriminate].
    intros H; inversion H; subst. apply range_numeric_errors in E.
    unfold range_value_errors, earlier_errors in *. simpl in *. intuition.
Qed.

Lemma copies_error_is_late : ~ In ERR_COPIES earlier_errors.
Proof.
  unfold earlier_errors. simpl. intros H.
  repeat (destruct H as [H | H]; [vm_compute in H; discriminate H|]).
  exact H.
Qed.

Lemma validate_before_copies (st : State) :
  validateBeforeSend st =
  match first_failure (required_rules ++ range_rules) st with
  | Some err => Some err
  | None => rule_copies_bounds st
  end.
Proof.
  rewrite validate_rules. unfold rules. rewrite app_assoc, first_failure_app.
  destruct (first_failure (required_rules ++ range_rules) st); [reflexivity|].
  simpl. now destruct (rule_copies_bounds st).
Qed.

Lemma validate_after_required (st : State) :
  first_failure required_rules st = None ->
  validateBeforeSend st =
  match rule_range_complete st with
  | Some err => Some err
  | None =>
      match rule_range_numeric st with
      | Some err => Some err
      | None => rule_copies_bounds st
      end
  end.
Proof.
  intros H. rewrite validate_rules. unfold rules.
  rewrite first_failure_app, H. simpl.
  destruct (rule_range_complete st); [reflexivity|].
  destruct (rule_range_numeric st); [reflexivity|].
  now destruct (rule_copies_bounds st).
Qed.

(** A field with text is a set field; the converse fails on blanks. *)
Lemma has_text_is_set (s : jsstring) : has_text s = true -> is_set s.
Proof. unfold is_set. intros H ->. discriminate H. Qed.

(** C8 (amended): for every device name longer than 23 characters the
    validator rejects whatever the draft holds, with the device-name
    length error when a token is held and with the login error when
    none is; a device name of exactly 23 characters passes the length
    rule, so the validator never answers with the length error. *)
Theorem device_name_length_rule (st : State) :
  (23 < length (deviceName st) ->
   validateBeforeSend st =
   Some (if truthy (token st) then ERR_DEVICE_LENGTH else ERR_LOGIN))
  /\ (length (deviceName st) = 23 ->
      rule_device_length st = None
      /\ validateBeforeSend st <> Some ERR_DEVICE_LENGTH).
Proof.
  split.
  - intros Hlen. unfold validateBeforeSend.
    destruct (truthy (token st)); cbn [negb]; [|reflexivity].
    destruct (deviceName st) as [|c dn]; [simpl in Hlen; lia|].
    cbn [str_truthy negb].
    apply Nat.ltb_lt in Hlen. now rewrite Hlen.
  - intros Hlen.
    assert (Hrule : rule_device_length st = None).
    { unfold rule_device_length. now rewrite Hlen. }
    split; [exact Hrule|].
    rewrite validate_rules. unfold rules, required_rules, range_rules.
    cbn [app first_failure]. rewrite Hrule.
    unfold rule_authenticated, rule_device_required, rule_file_required,
      rule_range_complete, rule_copies_bounds.
    destruct (truthy (token st)); [|fixed_messages].
    destruct (deviceName st); [fixed_messages|].
    destruct (fileUrl st); [fixed_messages|].
    destruct (has_text (rangeStart st)), (has_text (rangeEnd st));
      try fixed_messages;
      (destruct (rule_range_numeric st) eqn:E;
       [ apply range_numeric_errors in E; intros H; inversion H; subst;
         unfold range_value_errors in E; simpl in E;
         repeat (destruct E as [E | E]; [vm_compute in E; discriminate E|]);
         exact E
       | destruct (jlt (copies st) (num_of_Z 1)); [fixed_messages|];
         destruct (jgt (copies st) (num_of_Z 100));
         [fixed_messages | discriminate] ]).
Qed.

(** C7 (amended): for every copies value below 1 or above 100 the
    validator rejects, with the copies error when the six earlier rules
    pass and with the error of the first failing earlier rule
    otherwise; for every value from 1 to 100 the copies rule does not
    reject, and the validator answers what the earlier rules answer. *)
Theorem copies_bounds_rule (st : State) :
  (jlt (copies st) (num_of_Z 1) = true \/ jgt (copies st) (num_of_Z 100) = true ->
   rule_copies_bounds st = Some ERR_COPIES
   /\ validateBeforeSend st =
      Some (match first_failure (required_rules ++ range_rules) st with
            | Some err => err
            | None => ERR_COPIES
            end))
  /\ (jle (num_of_Z 1) (copies st) = true
      /\ jle (copies st) (num_of_Z 100) = true ->
      rule_copies_bounds st = None
      /\ validateBeforeSend st = first_failure (required_rules ++ range_rules) st
      /\ validateBeforeSend st <> Some ERR_COPIES).
Proof.
  split.
  - intros Hout.
    assert (Hrule : rule_copies_bounds st = Some ERR_COPIES).
    { unfold rule_copies_bounds.
      destruct (jlt (copies st) (num_of_Z 1)); [reflexivity|].
      destruct Hout as [Hout | Hout]; [discriminate|]. now rewrite Hout. }
    split; [exact Hrule|].
    rewrite validate_before_copies, Hrule.
    now destruct (first_failure (required_rules ++ range_rules) st).
  - intros [Hlow Hhigh].
    assert (Hrule : rule_copies_bounds st = None).
    { unfold rule_copies_bounds, jgt.
      now rewrite (jle_not_jlt _ _ Hlow), (jle_not_jlt _ _ Hhigh). }
    split; [exact Hrule|].
    rewrite validate_before_copies, Hrule.
    destruct (first_failure (required_rules ++ range_rules) st) eqn:E.
    + split; [reflexivity|]. intros H. inversion H; subst.
      apply earlier_rules_errors in E. now apply copies_error_is_late.
    + split; [reflexivity | discriminate].
Qed.

(** C6 (amended): once the login, device-name and file-URL rules pass,
    the validator rejects with the range-incomplete error whenever
    exactly one of the two range fields has text (a character that is
    not white space); it accepts on the range rules, leaving the verdict
    to the copies rule, when neither has text, in particular when both
    are the empty string; and when both have text it rejects with one of
    the three range errors unless each parses as an integer of at least
    1 and the end is at least the start, in which case it accepts on the
    range rules; the error is that of the start when the start is not
    such an integer, else that of the end when the end is not, else that
    of the order. *)
Theorem page_range_rules (st : State) :
  first_failure required_rules st = None ->
  (has_text (rangeStart st) <> has_text (rangeEnd st) ->
   validateBeforeSend st = Some ERR_RANGE_BOTH)
  /\ (has_text (rangeStart st) = false -> has_text (rangeEnd st) = false ->
      validateBeforeSend st = rule_copies_bounds st)
  /\ (rangeStart st = [] -> rangeEnd st = [] ->
      validateBeforeSend st = rule_copies_bounds st)
  /\ (has_text (rangeStart st) = true -> has_text (rangeEnd st) = true ->
      let s := Number (rangeStart st) in
      let e := Number (rangeEnd st) in
      (positive_integer s = true -> positive_integer e = true ->
       jle s e = true ->
       validateBeforeSend st = rule_copies_bounds st)
      /\ (~ (positive_integer s = true /\ positive_integer e = true
             /\ jle s e = true) ->
          exists err, validateBeforeSend st = Some err
                      /\ In err range_value_errors)
      /\ (positive_integer s = false ->
          validateBeforeSend st = Some ERR_PAGE_START)
      /\ (positive_integer s = true -> positive_integer e = false ->
          validateBeforeSend st = Some ERR_PAGE_END)
      /\ (positive_integer s = true -> positive_integer e = true ->
          jle s e = false ->
          validateBeforeSend st = Some ERR_PAGE_ORDER)).
Proof.
  intros Hreq. rewrite (validate_after_required st Hreq).
  unfold rule_range_complete, rule_range_numeric.
  split; [|split; [|split]].
  - intros Hne.
    destruct (has_text (rangeStart st)), (has_text (rangeEnd st));
      congruence.
  - intros Hs He. now rewrite Hs, He.
  - intros Hs He. now rewrite Hs, He.
  - intros Hs He. rewrite Hs, He. cbv zeta. cbn [andb].
    split; [|split; [|split; [|split]]].
    + intros Ps Pe Hle. now rewrite Ps, Pe, Hle.
    + intros Hnot.
      destruct (positive_integer (Number (rangeStart st))) eqn:Ps; cbn [negb];
        [|eexists; split; [reflexivity | simpl; auto]].
      destruct (positive_integer (Number (rangeEnd st))) eqn:Pe; cbn [negb];
        [|eexists; split; [reflexivity | simpl; auto]].
      destruct (jle (Number (rangeStart st)) (Number (rangeEnd st))) eqn:Hle;
        [|eexists; split; [reflexivity | simpl; auto]].
      exfalso. apply Hnot. auto.
    + intros Ps. now rewrite Ps.
    + intros Ps Pe. now rewrite Ps, Pe.
    + intros Ps Pe Hle. now rewrite Ps, Pe, Hle.
Qed.

(* ================================================================== *)
(** * The request wrapper *)
(* ================================================================== *)

Lemma run_app (st : State) (evs1 evs2 : list Event) :
  run st (evs1 ++ evs2) = run (run st evs1) evs2.
Proof. apply fold_left_app. Qed.

Lemma requests_app (evs1 evs2 : list Event) :
  requests (evs1 ++ evs2) = requests evs1 ++ requests evs2.
Proof. apply flat_map_app. Qed.

Lemma stages_app (evs1 evs2 : list Event) :
  stages (evs1 ++ evs2) = stages evs1 ++ stages evs2.
Proof. apply flat_map_app. Qed.

Lemma toasts_app (evs1 evs2 : list Event) :
  toasts (evs1 ++ evs2) = toasts evs1 ++ toasts evs2.
Proof. apply flat_map_app. Qed.

(** [hsFetch] of part_001, case by case. *)
Lemma Card1_hsFetch_cases (net : Request -> FetchOutcome)
      (path : jsstring) (init : option RequestInit) :
  let url := Card1.BASE ++ path in
  let req := fetch_request url init in
  Card1.hsFetch net path init =
  match net req with
  | Rejected e => ([Fetch req], inl e)
  | Resolved res =>
      if ok res then ([Fetch req], inr (parse_or_text (text res)))
      else ([ Fetch req; SetToast (mkToast error (Card1.detail url res));
              ConsoleError url (status res) (Card1.proxy_error res) (text res) ],
            inl (mkError (Card1.detail url res)))
  end.
Proof.
  intros url req. unfold Card1.hsFetch, hubspot_fetch, bind.
  fold url. fold req. destruct (net req) as [e | res]; [reflexivity|].
  now destruct (ok res).
Qed.

(** [hsFetch] of part_000, case by case. *)
Lemma Card0_hsFetch_cases (net : Request -> FetchOutcome)
      (path : jsstring) (init : option RequestInit) :
  let req := fetch_request (Card0.BASE ++ path) init in
  Card0.hsFetch net path init =
  match net req with
  | Rejected e => ([Fetch req], inl e)
  | Resolved res =>
      if ok res then ([Fetch req], inr (parse_or_text (text res)))
      else ([Fetch req], inl (Card0.thrown res))
  end.
Proof.
  intros req. unfold Card0.hsFetch, hubspot_fetch, bind, Card0.thrown.
  fold req. destruct (net req) as [e | res]; [reflexivity|].
  destruct (ok res); cbn [negb]; [reflexivity|].
  unfold lift, throw. now destruct (Card0.failure res).
Qed.

Lemma slice0_length (n : nat) (s : jsstring) : length (slice0 n s) <= n.
Proof. unfold slice0. apply firstn_le_length. Qed.

Lemma detail_carries (url : jsstring) (res : Response) :
  contains (N_to_js (status res)) (Card1.detail url res)
  /\ contains (Card1.proxy_error res) (Card1.detail url res)
  /\ contains (slice0 400 (if str_truthy (text res) then text res
                           else js "<empty>"))
              (Card1.detail url res).
Proof.
  unfold Card1.detail. repeat split.
  - exists (js "URL: " ++ url ++ [10%N] ++ js "Status: ").
    eexists. rewrite <- !app_assoc. reflexivity.
  - exists (js "URL: " ++ url ++ [10%N] ++ js "Status: "
            ++ N_to_js (status res) ++ [10%N] ++ js "Proxy-Error: ").
    eexists. rewrite <- !app_assoc. reflexivity.
  - exists (js "URL: " ++ url ++ [10%N] ++ js "Status: "
            ++ N_to_js (status res) ++ [10%N] ++ js "Proxy-Error: "
            ++ Card1.proxy_error res ++ [10%N] ++ js "Body: "), [].
    rewrite app_nil_r, <- !app_assoc. reflexivity.
Qed.

(** C2 (amended): in HlaPrintCardView (part_001) every answer with a
    non-2xx status makes the wrapper show and throw one detail string
    that carries the request URL, the numeric status, the value of the
    x-hubspot-external-error header (empty when absent) and the first
    400 characters of the raw body (the marker <empty> for an empty
    body).  In HlaPrintCard (part_000) the wrapper throws without
    reading any header and without showing anything: the message is the
    status, a space and the whole body when the body is not JSON, and
    the body's own message property alone when the body is an object
    that has a non-empty string there. *)
Theorem hsFetch_failure_detail
        (net : Request -> FetchOutcome) (path : jsstring)
        (init : option RequestInit) (res : Response) :
  net (fetch_request (Card1.BASE ++ path) init) = Resolved res ->
  net (fetch_request (Card0.BASE ++ path) init) = Resolved res ->
  ok res = false ->
  let url := Card1.BASE ++ path in
  let excerpt := slice0 400 (if str_truthy (text res) then text res
                             else js "<empty>") in
  (outcome (Card1.hsFetch net path init) = inl (mkError (Card1.detail url res))
   /\ toasts (events (Card1.hsFetch net path init))
      = [mkToast error (Card1.detail url res)]
   /\ contains url (Card1.detail url res)
   /\ contains (N_to_js (status res)) (Card1.detail url res)
   /\ contains (Card1.proxy_error res) (Card1.detail url res)
   /\ contains excerpt (Card1.detail url res)
   /\ length excerpt <= 400
   /\ (text res <> [] -> excerpt = firstn 400 (text res))
   /\ (forall hs v, resp_headers res = Some hs ->
                    header_get Card1.X_ERROR_HEADER hs = Some v ->
                    Card1.proxy_error res = v))
  /\ (events (Card0.hsFetch net path init)
      = [Fetch (fetch_request (Card0.BASE ++ path) init)]
      /\ outcome (Card0.hsFetch net path init) = inl (Card0.thrown res)
      /\ (forall hs, Card0.thrown (mkResponse (status res) hs (text res))
                     = Card0.thrown res)
      /\ (JSON_parse (text res) = None ->
          message (Card0.thrown res)
          = N_to_js (status res) ++ js " " ++ text res)
      /\ (forall props m, JSON_parse (text res) = Some (VObj props) ->
                          lookup (js "message") props = Some (VStr m) ->
                          m <> [] ->
                          message (Card0.thrown res) = m)).
Proof.
  intros H1 H0 Hok url excerpt. split.
  - pose proof (Card1_hsFetch_cases net path init) as Hc. cbv zeta in Hc.
    rewrite H1, Hok in Hc. rewrite Hc. unfold outcome, events. cbn [fst snd].
    destruct (detail_carries url res) as (Hs & Hp & Hb).
    repeat split; auto.
    + unfold Card1.detail. exists (js "URL: "). eexists. reflexivity.
    + apply slice0_length.
    + intros Hne. unfold excerpt. destruct (text res); [congruence|reflexivity].
    + intros hs v Hh Hg. unfold Card1.proxy_error. now rewrite Hh, Hg.
  - pose proof (Card0_hsFetch_cases net path init) as Hc. cbv zeta in Hc.
    rewrite H0, Hok in Hc. rewrite Hc. unfold outcome, events. cbn [fst snd].
    repeat split.
    + intros Hp. unfold Card0.thrown, Card0.failure, parse_or_text.
      now rewrite Hp.
    + intros props m Hp Hl Hm.
      unfold Card0.thrown, Card0.failure, parse_or_text.
      rewrite Hp. unfold get_prop. rewrite Hl. unfold or_else.
      cbn [truthy]. destruct m as [|c m]; [congruence|]. reflexivity.
Qed.

(* ================================================================== *)
(** * Login *)
(* ================================================================== *)

Lemma login_request_is_fetched (base : jsstring) (st : State) :
  fetch_request (base ++ js "/api/login")
                (Some (mkInit (Some POST) None (login_body st)))
  = login_request base st.
Proof. reflexivity. Qed.

(** The [try] block of [doLogin], part_000, case by case. *)
Lemma Card0_loginAttempt_cases (net : Request -> FetchOutcome) (st : State) :
  let req := login_request Card0.BASE st in
  Card0.loginAttempt net st =
  match net req with
  | Rejected e => ([Fetch req], inl e)
  | Resolved res =>
      if ok res then
        if truthy (login_token res)
        then ([ Fetch req; SetToken (login_token res);
                SetToast (mkToast success MSG_LOGGED_IN); SetStage ready ],
              inr tt)
        else ([Fetch req], inl (mkError MSG_TOKEN_MISSING))
      else ([Fetch req], inl (Card0.thrown res))
  end.
Proof.
  intros req. unfold Card0.loginAttempt.
  pose proof (Card0_hsFetch_cases net (js "/api/login")
                (Some (mkInit (Some POST) None (login_body st)))) as Hc.
  cbv zeta in Hc. rewrite login_request_is_fetched in Hc. fold req in Hc.
  rewrite Hc. unfold login_token.
  destruct (net req) as [e | res]; [reflexivity|].
  destruct (ok res); [|reflexivity].
  unfold bind at 1.
  destruct (truthy (get_prop (parse_or_text (text res)) (js "token")));
    reflexivity.
Qed.

(** The [try] block of [doLogin], part_001, case by case. *)
Lemma Card1_loginAttempt_cases (net : Request -> FetchOutcome) (st : State) :
  let url := Card1.BASE ++ js "/api/login" in
  let req := login_request Card1.BASE st in
  Card1.loginAttempt net st =
  match net req with
  | Rejected e => ([Fetch req], inl e)
  | Resolved res =>
      if ok res then
        if truthy (login_token res)
        then ([ Fetch req; SetToken (login_token res);
                SetToast (mkToast success MSG_LOGGED_IN); SetStage ready ],
              inr tt)
        else ([Fetch req], inl (mkError MSG_TOKEN_MISSING))
      else ([ Fetch req; SetToast (mkToast error (Card1.detail url res));
              ConsoleError url (status res) (Card1.proxy_error res) (text res) ],
            inl (mkError (Card1.detail url res)))
  end.
Proof.
  intros url req. unfold Card1.loginAttempt.
  pose proof (Card1_hsFetch_cases net (js "/api/login")
                (Some (mkInit (Some POST) None (login_body st)))) as Hc.
  cbv zeta in Hc. rewrite login_request_is_fetched in Hc.
  fold req in Hc. fold url in Hc.
  rewrite Hc. unfold login_token.
  destruct (net req) as [e | res]; [reflexivity|].
  destruct (ok res); [|reflexivity].
  unfold bind at 1.
  destruct (truthy (get_prop (parse_or_text (text res)) (js "token")));
    reflexivity.
Qed.

Lemma get_prop_absent (v : jsval) (k : jsstring) :
  has_key k v = false -> get_prop v k = VUndef.
Proof.
  destruct v; try reflexivity. simpl.
  destruct (lookup k props); [discriminate | reflexivity].
Qed.

(** [doLogin] never throws, in either component. *)
Lemma doLogin_returns (net : Request -> FetchOutcome) (st : State) :
  outcome (Card0.doLogin net st) = inr tt
  /\ outcome (Card1.doLogin net st) = inr tt.
Proof.
  unfold Card0.doLogin, Card1.doLogin, try_catch, outcome. split.
  - destruct (Card0.loginAttempt net st) as [evs [e | []]]; reflexivity.
  - destruct (Card1.loginAttempt net st) as [evs [e | []]]; reflexivity.
Qed.

(** What a login leaves in the token and the stage, part_000. *)
Lemma Card0_doLogin_session (net : Request -> FetchOutcome) (st : State) :
  let st' := run st (events (Card0.doLogin net st)) in
  match net (login_request Card0.BASE st) with
  | Resolved res =>
      if ok res && truthy (login_token res)
      then token st' = login_token res /\ stage st' = ready
      else token st' = token st /\ stage st' = stage st
  | Rejected _ => token st' = token st /\ stage st' = stage st
  end.
Proof.
  unfold Card0.doLogin. pose proof (Card0_loginAttempt_cases net st) as Hc.
  cbv zeta in Hc. rewrite Hc. cbv zeta.
  destruct (net (login_request Card0.BASE st)) as [e | res];
    [now split|].
  destruct (ok res); cbn [andb]; [|now split].
  destruct (truthy (login_token res)); now split.
Qed.

(** What a login leaves in the token and the stage, part_001. *)
Lemma Card1_doLogin_session (net : Request -> FetchOutcome) (st : State) :
  let st' := run st (events (Card1.doLogin net st)) in
  match net (login_request Card1.BASE st) with
  | Resolved res =>
      if ok res && truthy (login_token res)
      then token st' = login_token res /\ stage st' = ready
      else token st' = token st /\ stage st' = stage st
  | Rejected _ => token st' = token st /\ stage st' = stage st
  end.
Proof.
  unfold Card1.doLogin. pose proof (Card1_loginAttempt_cases net st) as Hc.
  cbv zeta in Hc. rewrite Hc. cbv zeta.
  destruct (net (login_request Card1.BASE st)) as [e | res];
    [now split|].
  destruct (ok res); cbn [andb]; [|now split].
  destruct (truthy (login_token res)); now split.
Qed.

(** C5: a login attempt throws an error when the answer has a non-2xx
    status, and throws "Token missing in response" when a 2xx answer
    has no token (or a falsy one); [doLogin] itself catches it and
    returns; on a 2xx answer with a token the session leaves the
    logged-out stage for [ready] holding exactly that token.  This holds
    in both components. *)
Theorem login_contract (net : Request -> FetchOutcome) (st : State)
        (res : Response) :
  net (login_request Card0.BASE st) = Resolved res ->
  net (login_request Card1.BASE st) = Resolved res ->
  let after0 := run st (events (Card0.doLogin net st)) in
  let after1 := run st (events (Card1.doLogin net st)) in
  (ok res = false ->
   (exists e, outcome (Card0.loginAttempt net st) = inl e)
   /\ (exists e, outcome (Card1.loginAttempt net st) = inl e)
   /\ token after0 = token st /\ token after1 = token st)
  /\ (ok res = true -> truthy (login_token res) = false ->
      outcome (Card0.loginAttempt net st) = inl (mkError MSG_TOKEN_MISSING)
      /\ outcome (Card1.loginAttempt net st) = inl (mkError MSG_TOKEN_MISSING)
      /\ token after0 = token st /\ token after1 = token st)
  /\ (has_key (js "token") (parse_or_text (text res)) = false ->
      truthy (login_token res) = false)
  /\ outcome (Card0.doLogin net st) = inr tt
  /\ outcome (Card1.doLogin net st) = inr tt
  /\ (ok res = true -> truthy (login_token res) = true ->
      token after0 = login_token res /\ stage after0 = ready
      /\ token after1 = login_token res /\ stage after1 = ready).
Proof.
  intros H0 H1 after0 after1.
  pose proof (Card0_loginAttempt_cases net st) as A0.
  pose proof (Card1_loginAttempt_cases net st) as A1.
  pose proof (Card0_doLogin_session net st) as S0.
  pose proof (Card1_doLogin_session net st) as S1.
  cbv zeta in A0, A1, S0, S1. rewrite H0 in A0, S0. rewrite H1 in A1, S1.
  fold after0 in S0. fold after1 in S1.
  destruct (doLogin_returns net st) as [R0 R1].
  split; [|split; [|split; [|split; [|split]]]].
  - intros Hok. rewrite Hok in A0, A1, S0, S1. cbn [andb] in S0, S1.
    rewrite A0, A1. unfold outcome; cbn [snd].
    split; [eexists; reflexivity|]. split; [eexists; reflexivity|].
    split; [apply S0 | apply S1].
  - intros Hok Htok. rewrite Hok, Htok in A0, A1, S0, S1.
    cbn [andb] in S0, S1. rewrite A0, A1.
    split; [reflexivity|]. split; [reflexivity|].
    split; [apply S0 | apply S1].
  - intros Hkey. unfold login_token. now rewrite (get_prop_absent _ _ Hkey).
  - exact R0.
  - exact R1.
  - intros Hok Htok. rewrite Hok, Htok in S0, S1. cbn [andb] in S0, S1.
    destruct S0 as [T0 G0], S1 as [T1 G1]. now repeat split.
Qed.

(** A login attempt throws exactly when the login does not succeed. *)
Lemma loginAttempt_throws (net : Request -> FetchOutcome) (st : State) :
  (login_succeeds (net (login_request Card0.BASE st)) = false
   <-> exists e, outcome (Card0.loginAttempt net st) = inl e)
  /\ (login_succeeds (net (login_request Card1.BASE st)) = false
      <-> exists e, outcome (Card1.loginAttempt net st) = inl e).
Proof.
  pose proof (Card0_loginAttempt_cases net st) as A0.
  pose proof (Card1_loginAttempt_cases net st) as A1.
  cbv zeta in A0, A1. rewrite A0, A1. unfold login_succeeds, outcome.
  split.
  - destruct (net (login_request Card0.BASE st)) as [e | res]; cbn [snd].
    + split; [intros _; now exists e | reflexivity].
    + destruct (ok res), (truthy (login_token res)); cbn [andb snd];
        split; intros H; try reflexivity; try discriminate;
        try (eexists; reflexivity);
        destruct H as [e H]; discriminate H.
  - destruct (net (login_request Card1.BASE st)) as [e | res]; cbn [snd].
    + split; [intros _; now exists e | reflexivity].
    + destruct (ok res), (truthy (login_token res)); cbn [andb snd];
        split; intros H; try reflexivity; try discriminate;
        try (eexists; reflexivity);
        destruct H as [e H]; discriminate H.
Qed.

(** C10: whenever a login fails (the attempt throws: the call is
    rejected, the answer is not 2xx, or a 2xx answer has no token), the
    token and the stage are what they were; they change, to the
    returned token and to [ready], only on a 2xx answer that carries a
    token.  This holds in both components. *)
Theorem login_failure_keeps_session (net : Request -> FetchOutcome)
        (st : State) :
  let after0 := run st (events (Card0.doLogin net st)) in
  let after1 := run st (events (Card1.doLogin net st)) in
  (forall e, outcome (Card0.loginAttempt net st) = inl e ->
             token after0 = token st /\ stage after0 = stage st)
  /\ (forall e, outcome (Card1.loginAttempt net st) = inl e ->
                token after1 = token st /\ stage after1 = stage st)
  /\ (if login_succeeds (net (login_request Card0.BASE st))
      then exists res, net (login_request Card0.BASE st) = Resolved res
                       /\ ok res = true
                       /\ token after0 = login_token res
                       /\ stage after0 = ready
      else token after0 = token st /\ stage after0 = stage st)
  /\ (if login_succeeds (net (login_request Card1.BASE st))
      then exists res, net (login_request Card1.BASE st) = Resolved res
                       /\ ok res = true
                       /\ token after1 = login_token res
                       /\ stage after1 = ready
      else token after1 = token st /\ stage after1 = stage st).
Proof.
  intros after0 after1.
  pose proof (Card0_doLogin_session net st) as S0.
  pose proof (Card1_doLogin_session net st) as S1.
  destruct (loginAttempt_throws net st) as [T0 T1].
  cbv zeta in S0, S1. fold after0 in S0. fold after1 in S1.
  assert (C0 : if login_succeeds (net (login_request Card0.BASE st))
               then exists res, net (login_request Card0.BASE st) = Resolved res
                                /\ ok res = true
                                /\ token after0 = login_token res
                                /\ stage after0 = ready
               else token after0 = token st /\ stage after0 = stage st).
  { unfold login_succeeds.
    destruct (net (login_request Card0.BASE st)) as [e | res]; [exact S0|].
    destruct (ok res) eqn:Hok; cbn [andb] in *; [|exact S0].
    destruct (truthy (login_token res)); [|exact S0].
    exists res. destruct S0. now repeat split. }
  assert (C1 : if login_succeeds (net (login_request Card1.BASE st))
               then exists res, net (login_request Card1.BASE st) = Resolved res
                                /\ ok res = true
                                /\ token after1 = login_token res
                                /\ stage after1 = ready
               else token after1 = token st /\ stage after1 = stage st).
  { unfold login_succeeds.
    destruct (net (login_request Card1.BASE st)) as [e | res]; [exact S1|].
    destruct (ok res) eqn:Hok; cbn [andb] in *; [|exact S1].
    destruct (truthy (login_token res)); [|exact S1].
    exists res. destruct S1. now repeat split. }
  split; [|split; [|split; [exact C0 | exact C1]]].
  - intros e He.
    assert (F : login_succeeds (net (login_request Card0.BASE st)) = false)
      by (apply T0; now exists e).
    now rewrite F in C0.
  - intros e He.
    assert (F : login_succeeds (net (login_request Card1.BASE st)) = false)
      by (apply T1; now exists e).
    now rewrite F in C1.
Qed.

(* ================================================================== *)
(** * Submission *)
(* ================================================================== *)

Lemma submit_request_is_fetched (base bearer : jsstring) (st : State) :
  fetch_request (base ++ js "/api/createPrintjob")
    (Some (mkInit (Some POST)
                  (Some [(js "Authorization", VStr (js "Bearer " ++ bearer))])
                  (JSON_stringify (buildBody st))))
  = submit_request base bearer st.
Proof. reflexivity. Qed.

Lemma bind_lift_value {A B} (a : A) (k : A -> Async B) :
  bind (lift (inr a)) k = k a.
Proof. unfold bind, lift. now destruct (k a). Qed.

Lemma bind_lift_error {A B} (e : JsError) (k : A -> Async B) :
  bind (@lift A (inl e)) k = ([], inl e).
Proof. reflexivity. Qed.

Lemma bind_thrown {A B} (evs : list Event) (e : JsError) (k : A -> Async B) :
  bind (evs, inl e) k = (evs, inl e).
Proof. reflexivity. Qed.

Lemma bind_returned {A B} (evs : list Event) (a : A) (k : A -> Async B) :
  bind (evs, inr a) k = (evs ++ events (k a), outcome (k a)).
Proof. unfold bind, events, outcome. now destruct (k a). Qed.

Lemma try_catch_events {A} (m : Async A) (h : JsError -> Async A) :
  events (try_catch m h) =
  events m ++ match outcome m with
              | inl e => events (h e)
              | inr _ => []
              end.
Proof.
  destruct m as [evs [e | a]]; unfold try_catch, events, outcome; cbn [fst snd].
  - now destruct (h e).
  - now rewrite app_nil_r.
Qed.

(** The effects of the [try] block of [sendPrint]: no stage change, and
    the one request of the submission unless the token has no string
    form. *)
Lemma Card0_submitAttempt_effects (net : Request -> FetchOutcome) (st : State) :
  stages (events (Card0.submitAttempt net st)) = []
  /\ requests (events (Card0.submitAttempt net st)) =
     match ToString (token st) with
     | inl _ => []
     | inr bearer => [submit_request Card0.BASE bearer st]
     end.
Proof.
  unfold Card0.submitAttempt. cbv zeta.
  destruct (ToString (token st)) as [te | bearer];
    [rewrite bind_lift_error; split; reflexivity|].
  rewrite bind_lift_value.
  pose proof (Card0_hsFetch_cases net (js "/api/createPrintjob")
    (Some (mkInit (Some POST)
                  (Some [(js "Authorization", VStr (js "Bearer " ++ bearer))])
                  (JSON_stringify (buildBody st))))) as Hc.
  cbv zeta in Hc. rewrite submit_request_is_fetched in Hc. rewrite Hc.
  destruct (net (submit_request Card0.BASE bearer st)) as [e | res];
    [rewrite bind_thrown; split; reflexivity|].
  destruct (ok res); [|rewrite bind_thrown; split; reflexivity].
  rewrite bind_returned.
  destruct (ToString _) as [t1 | txn];
    [rewrite bind_lift_error; split; reflexivity|].
  rewrite bind_lift_value.
  destruct (ToString _) as [t2 | code];
    [rewrite bind_lift_error; split; reflexivity|].
  rewrite bind_lift_value. split; reflexivity.
Qed.

Lemma Card1_submitAttempt_effects (net : Request -> FetchOutcome) (st : State) :
  stages (events (Card1.submitAttempt net st)) = []
  /\ requests (events (Card1.submitAttempt net st)) =
     match ToString (token st) with
     | inl _ => []
     | inr bearer => [submit_request Card1.BASE bearer st]
     end.
Proof.
  unfold Card1.submitAttempt. cbv zeta.
  destruct (ToString (token st)) as [te | bearer];
    [rewrite bind_lift_error; split; reflexivity|].
  rewrite bind_lift_value.
  pose proof (Card1_hsFetch_cases net (js "/api/createPrintjob")
    (Some (mkInit (Some POST)
                  (Some [(js "Authorization", VStr (js "Bearer " ++ bearer))])
                  (JSON_stringify (buildBody st))))) as Hc.
  cbv zeta in Hc. rewrite submit_request_is_fetched in Hc. rewrite Hc.
  destruct (net (submit_request Card1.BASE bearer st)) as [e | res];
    [rewrite bind_thrown; split; reflexivity|].
  destruct (ok res); [|rewrite bind_thrown; split; reflexivity].
  rewrite bind_returned.
  destruct (ToString _) as [t1 | txn];
    [rewrite bind_lift_error; split; reflexivity|].
  rewrite bind_lift_value.
  destruct (ToString _) as [t2 | code];
    [rewrite bind_lift_error; split; reflexivity|].
  rewrite bind_lift_value. split; reflexivity.
Qed.

(** What [sendPrint] does with a draft the validator rejects. *)
Lemma sendPrint_rejected (net : Request -> FetchOutcome) (st : State)
      (err : jsstring) :
  validateBeforeSend st = Some err ->
  Card0.sendPrint net st = ([SetToast (mkToast error err)], inr tt)
  /\ Card1.sendPrint net st = ([SetToast (mkToast error err)], inr tt).
Proof.
  intros H. unfold Card0.sendPrint, Card1.sendPrint. rewrite H.
  now rewrite (validation_error_truthy st H).
Qed.

(** What [sendPrint] does with a draft the validator accepts: the stage
    goes to [sending], the guarded block runs, the stage goes to
    [ready]. *)
Lemma sendPrint_accepted (net : Request -> FetchOutcome) (st : State) :
  validateBeforeSend st = None ->
  (events (Card0.sendPrint net st) =
   SetStage sending
   :: events (try_catch (Card0.submitAttempt net st) Card0.submitCatch)
   ++ [SetStage ready]
   /\ outcome (Card0.sendPrint net st) = inr tt)
  /\ (events (Card1.sendPrint net st) =
      SetStage sending
      :: events (try_catch (Card1.submitAttempt net st) Card1.submitCatch)
      ++ [SetStage ready]
      /\ outcome (Card1.sendPrint net st) = inr tt).
Proof.
  intros H. unfold Card0.sendPrint, Card1.sendPrint. rewrite H.
  split.
  - unfold emit at 1. rewrite bind_returned. unfold finally, emit.
    destruct (try_catch (Card0.submitAttempt net st) Card0.submitCatch)
      as [evs r] eqn:E.
    unfold events, outcome. cbn [fst snd app]. split; [reflexivity|].
    unfold try_catch, Card0.submitCatch, emit in E.
    destruct (Card0.submitAttempt net st) as [evs0 [e | []]];
      inversion E; reflexivity.
  - unfold emit at 1. rewrite bind_returned. unfold finally, emit.
    destruct (try_catch (Card1.submitAttempt net st) Card1.submitCatch)
      as [evs r] eqn:E.
    unfold events, outcome. cbn [fst snd app]. split; [reflexivity|].
    unfold try_catch, Card1.submitCatch, ret in E.
    destruct (Card1.submitAttempt net st) as [evs0 [e | []]];
      inversion E; reflexivity.
Qed.

Lemma guarded_block_effects (net : Request -> FetchOutcome) (st : State) :
  (stages (events (try_catch (Card0.submitAttempt net st) Card0.submitCatch)) = []
   /\ length (requests (events (try_catch (Card0.submitAttempt net st)
                                          Card0.submitCatch))) <= 1)
  /\ (stages (events (try_catch (Card1.submitAttempt net st) Card1.submitCatch)) = []
      /\ length (requests (events (try_catch (Card1.submitAttempt net st)
                                             Card1.submitCatch))) <= 1).
Proof.
  rewrite !try_catch_events, !stages_app, !requests_app, !length_app.
  destruct (Card0_submitAttempt_effects net st) as [S0 R0].
  destruct (Card1_submitAttempt_effects net st) as [S1 R1].
  rewrite S0, S1, R0, R1.
  assert (H0 : forall o : JsError + unit,
             stages (match o with inl e => events (Card0.submitCatch e) | inr _ => [] end) = []
             /\ requests (match o with inl e => events (Card0.submitCatch e) | inr _ => [] end) = []).
  { intros [e | u]; now split. }
  assert (H1 : forall o : JsError + unit,
             stages (match o with inl e => events (Card1.submitCatch e) | inr _ => [] end) = []
             /\ requests (match o with inl e => events (Card1.submitCatch e) | inr _ => [] end) = []).
  { intros [e | u]; now split. }
  destruct (H0 (outcome (Card0.submitAttempt net st))) as [-> ->].
  destruct (H1 (outcome (Card1.submitAttempt net st))) as [-> ->].
  destruct (ToString (token st)); simpl; repeat split; lia.
Qed.

Lemma run_stage_last (st : State) (evs : list Event) (s : Stage) :
  stage (run st (evs ++ [SetStage s])) = s.
Proof. now rewrite run_app. Qed.

(** C9: a draft the validator rejects makes [sendPrint] show the error
    and do nothing else: no request is sent and the stage is not
    touched.  A draft it accepts makes the stage go to [sending] and
    then, whatever the network answers and whether or not the call
    fails, to [ready]: at most one request is sent in between and
    [ready] is the last effect.  So the stage is never left at
    [sending].  This holds in both components. *)
Theorem sendPrint_gate (net : Request -> FetchOutcome) (st : State) :
  (forall err, validateBeforeSend st = Some err ->
     events (Card0.sendPrint net st) = [SetToast (mkToast error err)]
     /\ events (Card1.sendPrint net st) = [SetToast (mkToast error err)]
     /\ requests (events (Card0.sendPrint net st)) = []
     /\ requests (events (Card1.sendPrint net st)) = [])
  /\ (validateBeforeSend st = None ->
      (exists mid,
          events (Card0.sendPrint net st)
          = SetStage sending :: mid ++ [SetStage ready]
          /\ stages mid = [] /\ length (requests mid) <= 1)
      /\ (exists mid,
             events (Card1.sendPrint net st)
             = SetStage sending :: mid ++ [SetStage ready]
             /\ stages mid = [] /\ length (requests mid) <= 1)
      /\ stage (run st (events (Card0.sendPrint net st))) = ready
      /\ stage (run st (events (Card1.sendPrint net st))) = ready)
  /\ (stage st <> sending ->
      stage (run st (events (Card0.sendPrint net st))) <> sending
      /\ stage (run st (events (Card1.sendPrint net st))) <> sending)
  /\ outcome (Card0.sendPrint net st) = inr tt
  /\ outcome (Card1.sendPrint net st) = inr tt.
Proof.
  destruct (validateBeforeSend st) as [err0 |] eqn:V.
  - destruct (sendPrint_rejected net st V) as [E0 E1].
    rewrite E0, E1. unfold events, outcome; cbn [fst snd].
    split; [|split; [|split]].
    + intros err H. injection H as <-. now repeat split.
    + discriminate.
    + intros Hs. split; exact Hs.
    + split; reflexivity.
  - destruct (sendPrint_accepted net st V) as [[E0 O0] [E1 O1]].
    destruct (guarded_block_effects net st) as [[S0 R0] [S1 R1]].
    assert (F0 : stage (run st (events (Card0.sendPrint net st))) = ready).
    { rewrite E0. change (SetStage sending :: ?l ++ ?r)
        with ((SetStage sending :: l) ++ r). apply run_stage_last. }
    assert (F1 : stage (run st (events (Card1.sendPrint net st))) = ready).
    { rewrite E1. change (SetStage sending :: ?l ++ ?r)
        with ((SetStage sending :: l) ++ r). apply run_stage_last. }
    split; [intros err H; discriminate H|].
    split; [intros _; repeat split; auto|].
    + eexists. split; [exact E0 | now split].
    + eexists. split; [exact E1 | now split].
    + rewrite F0, F1. repeat split; auto; discriminate.
Qed.

(** The requests of a submission: none for a rejected draft, and for an
    accepted one the single job request, whatever the network does. *)
Lemma sendPrint_requests (net : Request -> FetchOutcome) (st : State) :
  let sent base :=
    match validateBeforeSend st, ToString (token st) with
    | None, inr bearer => [submit_request base bearer st]
    | _, _ => []
    end in
  requests (events (Card0.sendPrint net st)) = sent Card0.BASE
  /\ requests (events (Card1.sendPrint net st)) = sent Card1.BASE.
Proof.
  cbv zeta. destruct (validateBeforeSend st) as [err |] eqn:V.
  - destruct (sendPrint_rejected net st V) as [-> ->]. now split.
  - destruct (sendPrint_accepted net st V) as [[E0 _] [E1 _]].
    rewrite E0, E1.
    change (SetStage sending :: ?l ++ ?r) with ([SetStage sending] ++ l ++ r).
    rewrite !requests_app, !try_catch_events, !requests_app.
    destruct (Card0_submitAttempt_effects net st) as [_ ->].
    destruct (Card1_submitAttempt_effects net st) as [_ ->].
    cbn [requests flat_map app].
    assert (H0 : forall o : JsError + unit,
               requests (match o with
                         | inl e => events (Card0.submitCatch e)
                         | inr _ => []
                         end) = []) by (intros [e | u]; reflexivity).
    assert (H1 : forall o : JsError + unit,
               requests (match o with
                         | inl e => events (Card1.submitCatch e)
                         | inr _ => []
                         end) = []) by (intros [e | u]; reflexivity).
    rewrite H0, H1, !app_nil_r. now split.
Qed.

Lemma buildBody_draft (st1 st2 : State) :
  draft st1 = draft st2 -> buildBody st1 = buildBody st2.
Proof.
  unfold draft. intros H. injection H as Hd Hf Hc Hco Hdu Hp Ho Hs He.
  unfold buildBody, buildPrintFile.
  now rewrite Hd, Hf, Hc, Hco, Hdu, Hp, Ho, Hs, He.
Qed.

Lemma draft_inputs (st1 st2 : State) :
  draft st1 = draft st2 -> token st1 = token st2 -> inputs st1 = inputs st2.
Proof.
  unfold draft, inputs. intros H Ht. injection H as Hd Hf Hc _ _ _ _ Hs He.
  now rewrite Ht, Hd, Hf, Hc, Hs, He.
Qed.

Lemma printFile_fields (st : State) :
  let file := buildPrintFile st in
  get_prop file (js "filename") = VStr (fileUrl st)
  /\ get_prop file (js "color") = VBool (color st)
  /\ get_prop file (js "double_sided") = VBool (duplex st)
  /\ get_prop file (js "page_size") = VStr (PageSize_str (pageSize st))
  /\ get_prop file (js "copies") = VNum (copies st)
  /\ get_prop file (js "page_orientation")
     = VStr (Orientation_str (orientation st)).
Proof. repeat split. Qed.

Lemma printFile_range (st : State) :
  let file := buildPrintFile st in
  if str_truthy (rangeStart st) && str_truthy (rangeEnd st)
  then has_key (js "pages_start") file = true
       /\ has_key (js "page_end") file = true
       /\ keys file = [ js "filename"; js "color"; js "double_sided";
                        js "page_size"; js "copies"; js "page_orientation";
                        js "pages_start"; js "page_end" ]
       /\ get_prop file (js "pages_start") = VNum (Number (rangeStart st))
       /\ get_prop file (js "page_end") = VNum (Number (rangeEnd st))
  else has_key (js "pages_start") file = false
       /\ has_key (js "page_end") file = false
       /\ keys file = [ js "filename"; js "color"; js "double_sided";
                        js "page_size"; js "copies"; js "page_orientation" ].
Proof.
  cbv zeta. unfold buildPrintFile.
  destruct (str_truthy (rangeStart st) && str_truthy (rangeEnd st));
    repeat split.
Qed.

(** Two states with the same draft and token send the same requests. *)
Lemma sendPrint_requests_draft (net net' : Request -> FetchOutcome)
      (st st' : State) :
  draft st' = draft st -> token st' = token st ->
  requests (events (Card0.sendPrint net' st'))
  = requests (events (Card0.sendPrint net st))
  /\ requests (events (Card1.sendPrint net' st'))
     = requests (events (Card1.sendPrint net st)).
Proof.
  intros Hd Ht.
  destruct (sendPrint_requests net' st') as [R0' R1'].
  destruct (sendPrint_requests net st) as [R0 R1].
  cbv zeta in R0, R0', R1, R1'. rewrite R0, R0', R1, R1'.
  rewrite (@validate_inputs st' st (@draft_inputs st' st Hd Ht)), Ht.
  unfold submit_request. now rewrite (@buildBody_draft st' st Hd).
Qed.

(** The payload as [sendPrint] builds it:
    [{device_name, print_files: [file]}] where [file] maps filename,
    color, double_sided, page_size, copies and page_orientation from the
    draft, in that order; [pages_start] and [page_end] (with these
    asymmetric names) are in the file, holding the numbers of the two
    range fields, exactly when neither range field is the empty string,
    which is the test of [sendPrint] and not the one of the validator;
    and the payload and the requests sent depend on nothing but the
    draft and the token: two states that agree on them send the same
    requests, whatever the network. *)
Theorem build_payload (st : State) :
  validateBeforeSend st = None ->
  let file := buildPrintFile st in
  keys (buildBody st) = [js "device_name"; js "print_files"]
  /\ get_prop (buildBody st) (js "device_name") = VStr (deviceName st)
  /\ get_prop (buildBody st) (js "print_files") = VArr [file]
  /\ get_prop file (js "filename") = VStr (fileUrl st)
  /\ get_prop file (js "color") = VBool (color st)
  /\ get_prop file (js "double_sided") = VBool (duplex st)
  /\ get_prop file (js "page_size") = VStr (PageSize_str (pageSize st))
  /\ get_prop file (js "copies") = VNum (copies st)
  /\ get_prop file (js "page_orientation")
     = VStr (Orientation_str (orientation st))
  /\ (has_key (js "pages_start") file = true
      <-> is_set (rangeStart st) /\ is_set (rangeEnd st))
  /\ (has_key (js "page_end") file = true
      <-> is_set (rangeStart st) /\ is_set (rangeEnd st))
  /\ (is_set (rangeStart st) -> is_set (rangeEnd st) ->
      keys file = [ js "filename"; js "color"; js "double_sided";
                    js "page_size"; js "copies"; js "page_orientation";
                    js "pages_start"; js "page_end" ]
      /\ get_prop file (js "pages_start") = VNum (Number (rangeStart st))
      /\ get_prop file (js "page_end") = VNum (Number (rangeEnd st)))
  /\ (~ (is_set (rangeStart st) /\ is_set (rangeEnd st)) ->
      keys file = [ js "filename"; js "color"; js "double_sided";
                    js "page_size"; js "copies"; js "page_orientation" ])
  /\ (forall st' net net',
         draft st' = draft st -> token st' = token st ->
         buildBody st' = buildBody st
         /\ requests (events (Card0.sendPrint net' st'))
            = requests (events (Card0.sendPrint net st))
         /\ requests (events (Card1.sendPrint net' st'))
            = requests (events (Card1.sendPrint net st)))
  /\ (forall net bearer,
         ToString (token st) = inr bearer ->
         requests (events (Card0.sendPrint net st))
         = [submit_request Card0.BASE bearer st]
         /\ requests (events (Card1.sendPrint net st))
            = [submit_request Card1.BASE bearer st]
         /\ body (submit_request Card0.BASE bearer st)
            = JSON_stringify (buildBody st)).
Proof.
  intros V file.
  assert (Hrange : str_truthy (rangeStart st) && str_truthy (rangeEnd st) = true
                   <-> is_set (rangeStart st) /\ is_set (rangeEnd st)).
  { rewrite andb_true_iff, !str_truthy_nonempty. reflexivity. }
  destruct (printFile_fields st) as (F1 & F2 & F3 & F4 & F5 & F6).
  pose proof (printFile_range st) as R. cbv zeta in R. fold file in R.
  split; [reflexivity|]. split; [reflexivity|]. split; [reflexivity|].
  split; [exact F1|]. split; [exact F2|]. split; [exact F3|].
  split; [exact F4|]. split; [exact F5|]. split; [exact F6|].
  assert (Hkeys :
    (has_key (js "pages_start") file = true
     <-> is_set (rangeStart st) /\ is_set (rangeEnd st))
    /\ (has_key (js "page_end") file = true
        <-> is_set (rangeStart st) /\ is_set (rangeEnd st))
    /\ (is_set (rangeStart st) -> is_set (rangeEnd st) ->
        keys file = [ js "filename"; js "color"; js "double_sided";
                      js "page_size"; js "copies"; js "page_orientation";
                      js "pages_start"; js "page_end" ]
        /\ get_prop file (js "pages_start") = VNum (Number (rangeStart st))
        /\ get_prop file (js "page_end") = VNum (Number (rangeEnd st)))
    /\ (~ (is_set (rangeStart st) /\ is_set (rangeEnd st)) ->
        keys file = [ js "filename"; js "color"; js "double_sided";
                      js "page_size"; js "copies"; js "page_orientation" ])).
  { destruct (str_truthy (rangeStart st) && str_truthy (rangeEnd st)).
    - destruct R as (K1 & K2 & K3 & K4 & K5).
      assert (Hset : is_set (rangeStart st) /\ is_set (rangeEnd st))
        by now apply Hrange.
      rewrite K1, K2. repeat split; auto; tauto.
    - destruct R as (K1 & K2 & K3).
      assert (Hno : ~ (is_set (rangeStart st) /\ is_set (rangeEnd st))).
      { intros H. apply Hrange in H. discriminate H. }
      rewrite K1, K2.
      split; [split; [discriminate | tauto]|].
      split; [split; [discriminate | tauto]|].
      split; [intros Hs He; exfalso; apply Hno; now split|].
      intros _. exact K3. }
  destruct Hkeys as (K1 & K2 & K3 & K4).
  split; [exact K1|]. split; [exact K2|]. split; [exact K3|].
  split; [exact K4|]. split.
  - intros st' net net' Hd Ht. split; [now apply buildBody_draft|].
    now apply sendPrint_requests_draft.
  - intros net bearer Hb.
    destruct (sendPrint_requests net st) as [R0 R1]. cbv zeta in R0, R1.
    rewrite R0, R1, V, Hb. repeat split.
Qed.

(* ================================================================== *)
(** * Which failures reach the user *)
(* ================================================================== *)

Lemma message_or_nonempty (e : JsError) (fallback : jsstring) :
  fallback <> [] -> message_or e fallback <> [].
Proof.
  unfold message_or. intros Hf.
  destruct (message e) eqn:E; cbn [str_truthy]; [exact Hf | discriminate].
Qed.

(** In part_000 every login that does not succeed ends with exactly one
    error toast, which is not empty, and leaves the stage alone. *)
Lemma Card0_login_failure_shown (net : Request -> FetchOutcome) (st : State) :
  login_succeeds (net (login_request Card0.BASE st)) = false ->
  exists e,
    outcome (Card0.loginAttempt net st) = inl e
    /\ toasts (events (Card0.doLogin net st))
       = [mkToast error (message_or e (js "Login failed"))]
    /\ message_or e (js "Login failed") <> []
    /\ stages (events (Card0.doLogin net st)) = [].
Proof.
  intros Hfail. unfold Card0.doLogin.
  pose proof (Card0_loginAttempt_cases net st) as Hc. cbv zeta in Hc.
  rewrite Hc. unfold login_succeeds in Hfail.
  assert (Hne : forall e, message_or e (js "Login failed") <> [])
    by (intros e; apply message_or_nonempty; discriminate).
  destruct (net (login_request Card0.BASE st)) as [e | res].
  - exists e. repeat split; auto.
  - destruct (ok res); cbn [andb] in Hfail.
    + rewrite Hfail. eexists. repeat split; auto.
    + eexists. repeat split; auto.
Qed.

(** In part_000 a submission whose guarded block throws ends with an
    error toast as its last toast, and with the stage at [ready]. *)
Lemma Card0_submit_failure_shown (net : Request -> FetchOutcome) (st : State)
      (e : JsError) :
  validateBeforeSend st = None ->
  outcome (Card0.submitAttempt net st) = inl e ->
  toasts (events (Card0.sendPrint net st))
  = toasts (events (Card0.submitAttempt net st))
    ++ [mkToast error (message_or e (js "Failed to create job"))]
  /\ stage (run st (events (Card0.sendPrint net st))) = ready.
Proof.
  intros V He. destruct (sendPrint_accepted net st V) as [[E0 _] _].
  rewrite E0. split.
  - change (SetStage sending :: ?l ++ ?r) with ([SetStage sending] ++ l ++ r).
    rewrite !toasts_app, try_catch_events, toasts_app, He.
    cbn [toasts flat_map app events fst Card0.submitCatch emit].
    now rewrite app_nil_r.
  - change (SetStage sending :: ?l ++ ?r) with ((SetStage sending :: l) ++ r).
    apply run_stage_last.
Qed.

(** In part_001 a login that fails before or after the HTTP exchange
    (the call is rejected, or a 2xx answer has no token) does nothing
    but the request: no toast, no state change. *)
Lemma Card1_login_failure_silent (net : Request -> FetchOutcome) (st : State) :
  (forall res, net (login_request Card1.BASE st) = Resolved res ->
               ok res = true /\ truthy (login_token res) = false) ->
  events (Card1.doLogin net st) = [Fetch (login_request Card1.BASE st)]
  /\ run st (events (Card1.doLogin net st)) = st
  /\ exists e, outcome (Card1.loginAttempt net st) = inl e.
Proof.
  intros H. unfold Card1.doLogin.
  pose proof (Card1_loginAttempt_cases net st) as Hc. cbv zeta in Hc.
  rewrite Hc.
  destruct (net (login_request Card1.BASE st)) as [e | res].
  - split; [reflexivity|]. split; [reflexivity|]. now exists e.
  - destruct (H res eq_refl) as [-> ->].
    split; [reflexivity|]. split; [reflexivity|]. eexists. reflexivity.
Qed.

(** In part_001 a submission whose call is rejected shows nothing. *)
Lemma Card1_submit_rejection_silent (net : Request -> FetchOutcome)
      (st : State) (bearer : jsstring) (e : JsError) :
  validateBeforeSend st = None ->
  ToString (token st) = inr bearer ->
  net (submit_request Card1.BASE bearer st) = Rejected e ->
  events (Card1.sendPrint net st)
  = [ SetStage sending; Fetch (submit_request Card1.BASE bearer st);
      SetStage ready ].
Proof.
  intros V Hb Hn. destruct (sendPrint_accepted net st V) as [_ [E1 _]].
  rewrite E1, try_catch_events. unfold Card1.submitAttempt. cbv zeta.
  rewrite Hb, bind_lift_value.
  pose proof (Card1_hsFetch_cases net (js "/api/createPrintjob")
    (Some (mkInit (Some POST)
                  (Some [(js "Authorization", VStr (js "Bearer " ++ bearer))])
                  (JSON_stringify (buildBody st))))) as Hc.
  cbv zeta in Hc. rewrite submit_request_is_fetched in Hc.
  rewrite Hc, Hn, bind_thrown. reflexivity.
Qed.

(** In both components a handler that starts in an interactive stage
    ends in one: no run of [doLogin] or [sendPrint] throws or rests at
    [sending]. *)
Lemma handlers_end_interactive (net : Request -> FetchOutcome) (st : State) :
  interactive (stage st) ->
  interactive (stage (run st (events (Card0.doLogin net st))))
  /\ interactive (stage (run st (events (Card1.doLogin net st))))
  /\ interactive (stage (run st (events (Card0.sendPrint net st))))
  /\ interactive (stage (run st (events (Card1.sendPrint net st)))).
Proof.
  intros Hi.
  pose proof (Card0_doLogin_session net st) as S0.
  pose proof (Card1_doLogin_session net st) as S1.
  cbv zeta in S0, S1.
  assert (L0 : interactive (stage (run st (events (Card0.doLogin net st))))).
  { destruct (net (login_request Card0.BASE st)) as [e | res];
      [destruct S0 as [_ ->]; exact Hi|].
    destruct (ok res && truthy (login_token res));
      destruct S0 as [_ ->]; [now right | exact Hi]. }
  assert (L1 : interactive (stage (run st (events (Card1.doLogin net st))))).
  { destruct (net (login_request Card1.BASE st)) as [e | res];
      [destruct S1 as [_ ->]; exact Hi|].
    destruct (ok res && truthy (login_token res));
      destruct S1 as [_ ->]; [now right | exact Hi]. }
  split; [exact L0|]. split; [exact L1|].
  destruct (validateBeforeSend st) as [err |] eqn:V.
  - destruct (sendPrint_rejected net st V) as [-> ->]. split; exact Hi.
  - destruct (sendPrint_accepted net st V) as [[-> _] [-> _]].
    change (SetStage sending :: ?l ++ ?r)
      with ((SetStage sending :: l) ++ r).
    rewrite !run_stage_last. split; now right.
Qed.

(** C3 (evaluated where the code departs from it): in part_001 a login
    whose 2xx answer has no token, a login whose call is rejected and a
    submission whose call is rejected each end without any toast, the
    state being what it was (after a submission: the stage back at
    [ready], the toast still absent); part_000 shows an error toast in
    each of these three runs. *)
Theorem Card1_silent_failures :
  (events (Card1.doLogin Sample.server_no_token Sample.at_login)
   = [Fetch (login_request Card1.BASE Sample.at_login)]
   /\ outcome (Card1.loginAttempt Sample.server_no_token Sample.at_login)
      = inl (mkError MSG_TOKEN_MISSING)
   /\ toast (run Sample.at_login
               (events (Card1.doLogin Sample.server_no_token Sample.at_login)))
      = None)
  /\ (events (Card1.doLogin Sample.offline Sample.at_login)
      = [Fetch (login_request Card1.BASE Sample.at_login)]
      /\ toast (run Sample.at_login
                  (events (Card1.doLogin Sample.offline Sample.at_login)))
         = None)
  /\ (toasts (events (Card1.sendPrint Sample.offline Sample.desk1)) = []
      /\ toast (run Sample.desk1
                  (events (Card1.sendPrint Sample.offline Sample.desk1)))
         = None
      /\ stage (run Sample.desk1
                  (events (Card1.sendPrint Sample.offline Sample.desk1)))
         = ready)
  /\ (toasts (events (Card0.doLogin Sample.server_no_token Sample.at_login))
      = [mkToast error MSG_TOKEN_MISSING]
      /\ toasts (events (Card0.doLogin Sample.offline Sample.at_login))
         = [mkToast error (js "Failed to fetch")]
      /\ toasts (events (Card0.sendPrint Sample.offline Sample.desk1))
         = [mkToast error (js "Failed to fetch")]).
Proof.
  split; [|split; [|split]]; repeat split; vm_compute; reflexivity.
Qed.

(* ================================================================== *)
(** * The statements checked on sample inputs *)
(* ================================================================== *)

Import Sample.

Example Number_samples :
  Number (js "1") = num_of_Z 1
  /\ Number (js " 12 ") = num_of_Z 12
  /\ Number [] = num_of_Z 0
  /\ Number (js " ") = num_of_Z 0
  /\ Number (js "0x10") = num_of_Z 16
  /\ Number (js "1e3") = num_of_Z 1000
  /\ Number (js "1.5") = JFin (3 # 2)
  /\ Number (js "abc") = JNaN
  /\ Number (js "-Infinity") = JInf true
  /\ Number (js "9007199254740993") = num_of_Z 9007199254740992.
Proof. vm_compute. repeat split. Qed.

Example validate_samples :
  validateBeforeSend initial = Some ERR_LOGIN
  /\ validateBeforeSend desk1 = None
  /\ validateBeforeSend logged_out = Some ERR_LOGIN
  /\ validateBeforeSend (with_device [] desk1) = Some ERR_DEVICE_REQUIRED
  /\ validateBeforeSend (with_device name24 desk1) = Some ERR_DEVICE_LENGTH
  /\ validateBeforeSend (with_device name23 desk1) = None
  /\ validateBeforeSend (with_range (js "2") [] desk1) = Some ERR_RANGE_BOTH
  /\ validateBeforeSend (with_range (js "0") (js "2") desk1) = Some ERR_PAGE_START
  /\ validateBeforeSend (with_range (js "1") (js "2.5") desk1) = Some ERR_PAGE_END
  /\ validateBeforeSend (with_range (js "3") (js "2") desk1) = Some ERR_PAGE_ORDER
  /\ validateBeforeSend (with_range (js "3") (js "3") desk1) = None
  /\ validateBeforeSend (with_copies (num_of_Z 0) desk1) = Some ERR_COPIES
  /\ validateBeforeSend (with_copies (num_of_Z 101) desk1) = Some ERR_COPIES
  /\ validateBeforeSend (with_copies (num_of_Z 100) desk1) = None.
Proof. vm_compute. repeat split. Qed.

(** The end-to-end scenario of the specification: the login stores T1,
    and the draft is sent as the expected JSON text. *)
Example scenario_login_and_submit :
  token (run at_login (events (Card1.doLogin server_ok at_login)))
  = VStr (js "T1")
  /\ stage (run at_login (events (Card1.doLogin server_ok at_login))) = ready
  /\ option_map single_quoted (JSON_stringify (buildBody desk1))
     = Some (js "{'device_name':'Desk1','print_files':[{'filename':'https://x/y.pdf','color':true,'double_sided':false,'page_size':'A3','copies':2,'page_orientation':'portrait','pages_start':1,'page_end':3}]}")
  /\ toasts (events (Card1.sendPrint server_ok desk1))
     = [mkToast success (js "Created. Txn TX9, code C7")].
Proof. vm_compute. repeat split. Qed.

(** The JSON text of the scenario's payload parses back to the payload,
    and the scenario's login answer parses to an object with the token. *)
Example scenario_texts_parse :
  match JSON_stringify (buildBody desk1) with
  | Some text => JSON_parse text = Some (buildBody desk1)
  | None => False
  end
  /\ login_token (mkResponse 200 (Some []) body_token) = VStr (js "T1")
  /\ JSON_parse (js "Internal error") = None.
Proof. vm_compute. repeat split. Qed.

(** A draft whose two range fields hold one blank each passes the
    validator, which sees no text in them, and is sent with both page
    fields, which [sendPrint] adds for any non-empty strings. *)
Example blank_range_is_sent :
  validateBeforeSend (with_range (js " ") (js " ") desk1) = None
  /\ get_prop (buildPrintFile (with_range (js " ") (js " ") desk1))
              (js "pages_start") = VNum (num_of_Z 0)
  /\ get_prop (buildPrintFile (with_range (js " ") (js " ") desk1))
              (js "page_end") = VNum (num_of_Z 0).
Proof. vm_compute. repeat split. Qed.

(** The copies rule lets NaN through: both comparisons are false. *)
Example copies_NaN_passes :
  validateBeforeSend (with_copies JNaN desk1) = None.
Proof. reflexivity. Qed.

(** A body of 450 characters is cut to its first 400. *)
Example long_body_is_cut :
  let res := mkResponse 502 None (repeat 65%N 450) in
  Card1.detail (js "u") res
  = js "URL: u" ++ [10%N] ++ js "Status: 502" ++ [10%N]
    ++ js "Proxy-Error: " ++ [10%N] ++ js "Body: " ++ repeat 65%N 400.
Proof. vm_compute. reflexivity. Qed.

(* ------------------------------------------------------------------ *)
(** ** Where the statements of the specification fail as written *)
(* ------------------------------------------------------------------ *)

(** C2, as stated, fails in part_000: the scenario's answer (500,
    "Internal error", proxy header "upstream timeout") is thrown as
    "500 Internal error", without the header value; and a 401 answer
    whose JSON body has a message is thrown as that message alone,
    without the status. *)
Lemma Card0_error_without_diagnostics :
  ok res500 = false
  /\ Card1.proxy_error res500 = js "upstream timeout"
  /\ outcome (Card0.hsFetch server_500 (js "/api/login") None)
     = inl (mkError (js "500 Internal error"))
  /\ ~ contains (js "upstream timeout") (js "500 Internal error")
  /\ ok res401 = false
  /\ outcome (Card0.hsFetch server_401 (js "/api/login") None)
     = inl (mkError (js "Unauthenticated."))
  /\ ~ contains (js "401") (js "Unauthenticated.").
Proof.
  split; [reflexivity|]. split; [reflexivity|].
  split; [vm_compute; reflexivity|].
  split; [intros H; apply (proj2 (containsb_spec _ _)) in H;
          vm_compute in H; discriminate H|].
  split; [reflexivity|]. split; [vm_compute; reflexivity|].
  intros H. apply (proj2 (containsb_spec _ _)) in H.
  vm_compute in H. discriminate H.
Qed.

(** C6, as stated, fails: with exactly one range field set the
    validator answers the login error when no token is held; and with a
    token, a start field holding one blank and an empty end field are
    accepted, the blank counting as no text. *)
Lemma range_incomplete_not_always :
  (is_set (js "1") /\ ~ is_set []
   /\ validateBeforeSend (with_range (js "1") [] logged_out) = Some ERR_LOGIN
   /\ ERR_LOGIN <> ERR_RANGE_BOTH)
  /\ (is_set (js " ") /\ ~ is_set []
      /\ validateBeforeSend (with_range (js " ") [] desk1) = None)
  /\ ~ (forall st,
           (is_set (rangeStart st) /\ ~ is_set (rangeEnd st))
           \/ (~ is_set (rangeStart st) /\ is_set (rangeEnd st)) ->
           validateBeforeSend st = Some ERR_RANGE_BOTH).
Proof.
  assert (H1 : is_set (js "1")) by (unfold is_set; discriminate).
  assert (H2 : is_set (js " ")) by (unfold is_set; discriminate).
  assert (H3 : ~ is_set []) by (unfold is_set; intros H; now apply H).
  assert (H4 : ERR_LOGIN <> ERR_RANGE_BOTH)
    by (intros H; vm_compute in H; discriminate H).
  split; [repeat split; auto|]. split; [repeat split; auto|].
  intros H. specialize (H (with_range (js "1") [] logged_out)).
  cbn [with_range rangeStart rangeEnd] in H.
  assert (E := H (or_introl (conj H1 H3))).
  vm_compute in E. discriminate E.
Qed.

(** C7, as stated, fails: with 0 copies (or 101) and no token the
    validator answers the login error, not the copies error. *)
Lemma copies_error_not_always :
  jlt (copies (with_copies (num_of_Z 0) logged_out)) (num_of_Z 1) = true
  /\ validateBeforeSend (with_copies (num_of_Z 0) logged_out) = Some ERR_LOGIN
  /\ jgt (copies (with_copies (num_of_Z 101) logged_out)) (num_of_Z 100) = true
  /\ validateBeforeSend (with_copies (num_of_Z 101) logged_out) = Some ERR_LOGIN
  /\ ERR_LOGIN <> ERR_COPIES
  /\ ~ (forall st,
           jlt (copies st) (num_of_Z 1) = true
           \/ jgt (copies st) (num_of_Z 100) = true ->
           validateBeforeSend st = Some ERR_COPIES).
Proof.
  split; [reflexivity|]. split; [reflexivity|]. split; [reflexivity|].
  split; [reflexivity|].
  split; [intros H; vm_compute in H; discriminate H|].
  intros H. specialize (H (with_copies (num_of_Z 0) logged_out)).
  assert (E := H (or_introl eq_refl)). vm_compute in E. discriminate E.
Qed.

(** C8, as stated, fails: a device name of 24 characters with no token
    held is answered with the login error, not the length error. *)
Lemma device_length_error_not_always :
  length (deviceName (with_device name24 logged_out)) = 24
  /\ validateBeforeSend (with_device name24 logged_out) = Some ERR_LOGIN
  /\ ERR_LOGIN <> ERR_DEVICE_LENGTH
  /\ ~ (forall st,
           23 < length (deviceName st) ->
           validateBeforeSend st = Some ERR_DEVICE_LENGTH).
Proof.
  split; [reflexivity|]. split; [reflexivity|].
  split; [intros H; vm_compute in H; discriminate H|].
  intros H. specialize (H (with_device name24 logged_out)).
  assert (L : 23 < length (deviceName (with_device name24 logged_out)))
    by (vm_compute; lia).
  assert (E := H L). vm_compute in E. discriminate E.
Qed.

(* ------------------------------------------------------------------ *)
(** ** The theorems applied to the samples *)
(* ------------------------------------------------------------------ *)

(** The payload theorem on the scenario's draft. *)
Lemma build_payload_witness :
  validateBeforeSend desk1 = None
  /\ keys (buildPrintFile desk1)
     = [ js "filename"; js "color"; js "double_sided"; js "page_size";
         js "copies"; js "page_orientation"; js "pages_start"; js "page_end" ]
  /\ get_prop (buildPrintFile desk1) (js "pages_start") = VNum (num_of_Z 1)
  /\ get_prop (buildPrintFile desk1) (js "page_end") = VNum (num_of_Z 3)
  /\ has_key (js "pages_start") (buildPrintFile desk1) = true
  /\ requests (events (Card1.sendPrint server_500 desk1))
     = [submit_request Card1.BASE (js "T1") desk1].
Proof.
  assert (V : validateBeforeSend desk1 = None) by (vm_compute; reflexivity).
  assert (S1 : is_set (rangeStart desk1)) by (vm_compute; discriminate).
  assert (S2 : is_set (rangeEnd desk1)) by (vm_compute; discriminate).
  pose proof (build_payload desk1 V) as H. cbv zeta in H.
  destruct H as (_ & _ & _ & _ & _ & _ & _ & _ & _ & P & _ & K & _ & _ & R).
  destruct (K S1 S2) as (Kk & Ks & Ke).
  destruct (R server_500 (js "T1") eq_refl) as (_ & R1 & _).
  split; [exact V|]. split; [exact Kk|]. split; [exact Ks|].
  split; [exact Ke|]. split; [apply P; now split | exact R1].
Defined.

(** The wrapper theorem on the scenario's failing answer. *)
Lemma hsFetch_failure_detail_witness :
  ok res500 = false
  /\ outcome (Card1.hsFetch server_500 (js "/api/login") None)
     = inl (mkError (js "URL: https://hlaprint.com/api/login" ++ [10%N]
                     ++ js "Status: 500" ++ [10%N]
                     ++ js "Proxy-Error: upstream timeout" ++ [10%N]
                     ++ js "Body: Internal error"))
  /\ contains (js "500") (Card1.detail (Card1.BASE ++ js "/api/login") res500)
  /\ contains (js "upstream timeout")
              (Card1.detail (Card1.BASE ++ js "/api/login") res500)
  /\ contains (js "Internal error")
              (Card1.detail (Card1.BASE ++ js "/api/login") res500)
  /\ message (Card0.thrown res500) = js "500 Internal error".
Proof.
  assert (Hok : ok res500 = false) by reflexivity.
  pose proof (@hsFetch_failure_detail server_500 (js "/api/login") None res500
                eq_refl eq_refl Hok) as H.
  cbv zeta in H.
  destruct H as [(Ho & _ & _ & Hs & Hp & Hb & _) (_ & _ & _ & H0 & _)].
  split; [exact Hok|]. split; [exact Ho|]. split; [exact Hs|].
  split; [exact Hp|]. split; [exact Hb|]. apply H0. reflexivity.
Defined.

(** The rule-order theorem on a draft that fails the third rule only,
    and on two states that differ in stage and toast alone. *)
Lemma validate_first_failing_rule_witness :
  validateBeforeSend (with_device name24 desk1) = Some ERR_DEVICE_LENGTH
  /\ validateBeforeSend (set_stage sending desk1) = validateBeforeSend desk1.
Proof.
  destruct validate_first_failing_rule as (_ & _ & _ & Hfirst & Hpure).
  split.
  - apply (Hfirst (with_device name24 desk1)
             [ValidatorSpec.rule_authenticated;
              ValidatorSpec.rule_device_required]
             ValidatorSpec.rule_device_length
             [ValidatorSpec.rule_file_required;
              ValidatorSpec.rule_range_complete;
              ValidatorSpec.rule_range_numeric;
              ValidatorSpec.rule_copies_bounds]).
    + reflexivity.
    + repeat constructor.
    + reflexivity.
  - apply Hpure. reflexivity.
Defined.

(** The login theorem on a successful login, on a 500 answer and on a
    2xx answer without token. *)
Lemma login_contract_witness :
  (token (run at_login (events (Card0.doLogin server_ok at_login)))
   = VStr (js "T1")
   /\ stage (run at_login (events (Card1.doLogin server_ok at_login))) = ready)
  /\ (exists e, outcome (Card1.loginAttempt server_500 at_login) = inl e)
  /\ outcome (Card0.loginAttempt server_no_token at_login)
     = inl (mkError MSG_TOKEN_MISSING).
Proof.
  split; [|split].
  - pose proof (@login_contract server_ok at_login
                  (mkResponse 200 (Some []) body_token) eq_refl eq_refl) as H.
    cbv zeta in H. destruct H as (_ & _ & _ & _ & _ & H).
    destruct (H eq_refl eq_refl) as (T0 & _ & _ & S1).
    split; [exact T0 | exact S1].
  - pose proof (@login_contract server_500 at_login res500 eq_refl eq_refl)
      as H.
    cbv zeta in H. destruct H as (H & _).
    destruct (H eq_refl) as (_ & E1 & _). exact E1.
  - pose proof (@login_contract server_no_token at_login
                  (mkResponse 200 (Some []) body_no_token) eq_refl eq_refl)
      as H.
    cbv zeta in H. destruct H as (_ & H & _).
    destruct (H eq_refl eq_refl) as (E0 & _). exact E0.
Defined.

(** The session theorem on a login that meets a 500 answer, in both
    components, and on one that has no network. *)
Lemma login_failure_keeps_session_witness :
  token (run at_login (events (Card1.doLogin server_500 at_login)))
  = token at_login
  /\ stage (run at_login (events (Card1.doLogin server_500 at_login))) = login
  /\ stage (run at_login (events (Card0.doLogin offline at_login))) = login.
Proof.
  pose proof (login_failure_keeps_session server_500 at_login) as H.
  cbv zeta in H. destruct H as (_ & H1 & _).
  destruct (H1 (mkError (Card1.detail (Card1.BASE ++ js "/api/login") res500))
               eq_refl) as (T & S).
  pose proof (login_failure_keeps_session offline at_login) as H.
  cbv zeta in H. destruct H as (H0 & _).
  destruct (H0 (mkError (js "Failed to fetch")) eq_refl) as (_ & S0).
  split; [exact T|]. split; [exact S | exact S0].
Defined.

(** The range theorem on four drafts of a logged-in session. *)
Lemma page_range_rules_witness :
  validateBeforeSend (with_range (js "2") [] desk1) = Some ERR_RANGE_BOTH
  /\ validateBeforeSend (with_range [] [] desk1)
     = ValidatorSpec.rule_copies_bounds (with_range [] [] desk1)
  /\ validateBeforeSend desk1 = ValidatorSpec.rule_copies_bounds desk1
  /\ exists err, validateBeforeSend (with_range (js "3") (js "2") desk1)
                 = Some err /\ In err range_value_errors.
Proof.
  split; [|split; [|split]].
  - destruct (@page_range_rules (with_range (js "2") [] desk1) eq_refl)
      as (H & _).
    apply H. vm_compute. discriminate.
  - destruct (@page_range_rules (with_range [] [] desk1) eq_refl)
      as (_ & _ & H & _).
    apply H; reflexivity.
  - destruct (@page_range_rules desk1 eq_refl) as (_ & _ & _ & H).
    destruct (H eq_refl eq_refl) as (Hacc & _).
    apply Hacc; reflexivity.
  - destruct (@page_range_rules (with_range (js "3") (js "2") desk1) eq_refl)
      as (_ & _ & _ & H).
    destruct (H eq_refl eq_refl) as (_ & Hrej & _).
    apply Hrej. vm_compute. intros (_ & _ & Hle). discriminate Hle.
Defined.

(** The copies theorem below, above and inside the bounds. *)
Lemma copies_bounds_rule_witness :
  validateBeforeSend (with_copies (num_of_Z 0) desk1) = Some ERR_COPIES
  /\ validateBeforeSend (with_copies (num_of_Z 101) logged_out) = Some ERR_LOGIN
  /\ validateBeforeSend (with_copies (JFin (5 # 2)) desk1) <> Some ERR_COPIES.
Proof.
  split; [|split].
  - destruct (copies_bounds_rule (with_copies (num_of_Z 0) desk1)) as (H & _).
    destruct (H (or_introl eq_refl)) as (_ & E). exact E.
  - destruct (copies_bounds_rule (with_copies (num_of_Z 101) logged_out))
      as (H & _).
    destruct (H (or_intror eq_refl)) as (_ & E). exact E.
  - destruct (copies_bounds_rule (with_copies (JFin (5 # 2)) desk1))
      as (_ & H).
    destruct (H (conj eq_refl eq_refl)) as (_ & _ & E). exact E.
Defined.

(** The device-name theorem at 24 and at 23 characters. *)
Lemma device_name_length_rule_witness :
  validateBeforeSend (with_device name24 desk1) = Some ERR_DEVICE_LENGTH
  /\ validateBeforeSend (with_device name24 logged_out) = Some ERR_LOGIN
  /\ validateBeforeSend (with_device name23 desk1) <> Some ERR_DEVICE_LENGTH.
Proof.
  assert (L24 : forall st, 23 < length (deviceName (with_device name24 st)))
    by (intros st; vm_compute; lia).
  split; [|split].
  - destruct (device_name_length_rule (with_device name24 desk1)) as (H & _).
    exact (H (L24 desk1)).
  - destruct (device_name_length_rule (with_device name24 logged_out))
      as (H & _).
    exact (H (L24 logged_out)).
  - destruct (device_name_length_rule (with_device name23 desk1)) as (_ & H).
    destruct (H eq_refl) as (_ & E). exact E.
Defined.

(** The submission theorem on a rejected draft and on an accepted draft
    whose call fails. *)
Lemma sendPrint_gate_witness :
  requests (events (Card1.sendPrint server_ok logged_out)) = []
  /\ events (Card0.sendPrint server_ok logged_out)
     = [SetToast (mkToast error ERR_LOGIN)]
  /\ stage (run desk1 (events (Card1.sendPrint server_500 desk1))) = ready
  /\ stage (run desk1 (events (Card0.sendPrint offline desk1))) <> sending.
Proof.
  split; [|split; [|split]].
  - destruct (sendPrint_gate server_ok logged_out) as (H & _).
    destruct (H ERR_LOGIN eq_refl) as (_ & _ & _ & R). exact R.
  - destruct (sendPrint_gate server_ok logged_out) as (H & _).
    destruct (H ERR_LOGIN eq_refl) as (E & _). exact E.
  - destruct (sendPrint_gate server_500 desk1) as (_ & H & _).
    destruct (H eq_refl) as (_ & _ & _ & S). exact S.
  - destruct (sendPrint_gate offline desk1) as (_ & _ & H & _).
    assert (N : stage desk1 <> sending) by (vm_compute; discriminate).
    destruct (H N) as (S & _). exact S.
Defined.

(* ================================================================== *)
(** * The inputs of the card *)
(* ================================================================== *)

Lemma str_eqb_eq (a b : jsstring) : str_eqb a b = true <-> a = b.
Proof.
  revert b. induction a as [|x a IH]; intros [|y b]; simpl;
    try (split; [discriminate | discriminate]); [tauto|].
  rewrite andb_true_iff, N.eqb_eq, IH. split.
  - intros [-> ->]. reflexivity.
  - intros H. injection H as -> ->. now split.
Qed.

Lemma str_eqb_refl (a : jsstring) : str_eqb a a = true.
Proof. now apply str_eqb_eq. Qed.

Lemma str_eqb_neq (a b : jsstring) : a <> b -> str_eqb a b = false.
Proof.
  intros H. destruct (str_eqb a b) eqn:E; [|reflexivity].
  apply str_eqb_eq in E. contradiction.
Qed.

(** No effect of a handler touches the credentials or the draft. *)
Lemma run_keeps_fields (st : State) (evs : list Event) :
  draft (run st evs) = draft st
  /\ email (run st evs) = email st
  /\ password (run st evs) = password st.
Proof.
  revert st. induction evs as [|ev evs IH]; intros st; [now repeat split|].
  cbn [run fold_left]. fold (run (apply_event st ev) evs).
  destruct (IH (apply_event st ev)) as (Hd & He & Hp).
  rewrite Hd, He, Hp. now destruct ev.
Qed.

Lemma run_keeps_token (st : State) (evs : list Event) :
  tokens evs = [] -> token (run st evs) = token st.
Proof.
  revert st. induction evs as [|ev evs IH]; intros st H; [reflexivity|].
  cbn [run fold_left]. fold (run (apply_event st ev) evs).
  destruct ev; cbn in H; try discriminate; now rewrite IH.
Qed.

Lemma run_keeps_stage (st : State) (evs : list Event) :
  stages evs = [] -> stage (run st evs) = stage st.
Proof.
  revert st. induction evs as [|ev evs IH]; intros st H; [reflexivity|].
  cbn [run fold_left]. fold (run (apply_event st ev) evs).
  destruct ev; cbn in H; try discriminate; now rewrite IH.
Qed.

Lemma tokens_app (evs1 evs2 : list Event) :
  tokens (evs1 ++ evs2) = tokens evs1 ++ tokens evs2.
Proof. apply flat_map_app. Qed.

(** The guarded block of a submission never sets the token. *)
Lemma submitAttempt_sets_no_token (net : Request -> FetchOutcome) (st : State) :
  tokens (events (Card0.submitAttempt net st)) = []
  /\ tokens (events (Card1.submitAttempt net st)) = [].
Proof.
  unfold Card0.submitAttempt, Card1.submitAttempt. cbv zeta.
  destruct (ToString (token st)) as [te | bearer];
    [rewrite !bind_lift_error; split; reflexivity|].
  rewrite !bind_lift_value.
  pose proof (Card0_hsFetch_cases net (js "/api/createPrintjob")
    (Some (mkInit (Some POST)
                  (Some [(js "Authorization", VStr (js "Bearer " ++ bearer))])
                  (JSON_stringify (buildBody st))))) as H0.
  pose proof (Card1_hsFetch_cases net (js "/api/createPrintjob")
    (Some (mkInit (Some POST)
                  (Some [(js "Authorization", VStr (js "Bearer " ++ bearer))])
                  (JSON_stringify (buildBody st))))) as H1.
  cbv zeta in H0, H1. rewrite submit_request_is_fetched in H0, H1.
  rewrite H0, H1. split.
  - destruct (net (submit_request Card0.BASE bearer st)) as [e | res];
      [rewrite bind_thrown; reflexivity|].
    destruct (ok res); [|rewrite bind_thrown; reflexivity].
    rewrite bind_returned.
    destruct (ToString _) as [t1 | txn];
      [rewrite bind_lift_error; reflexivity|].
    rewrite bind_lift_value.
    destruct (ToString _) as [t2 | code];
      [rewrite bind_lift_error; reflexivity|].
    rewrite bind_lift_value. reflexivity.
  - destruct (net (submit_request Card1.BASE bearer st)) as [e | res];
      [rewrite bind_thrown; reflexivity|].
    destruct (ok res); [|rewrite bind_thrown; reflexivity].
    rewrite bind_returned.
    destruct (ToString _) as [t1 | txn];
      [rewrite bind_lift_error; reflexivity|].
    rewrite bind_lift_value.
    destruct (ToString _) as [t2 | code];
      [rewrite bind_lift_error; reflexivity|].
    rewrite bind_lift_value. reflexivity.
Qed.

(** A submission leaves the token alone, in both components. *)
Lemma sendPrint_keeps_token (net : Request -> FetchOutcome) (st : State) :
  token (run st (events (Card0.sendPrint net st))) = token st
  /\ token (run st (events (Card1.sendPrint net st))) = token st.
Proof.
  destruct (validateBeforeSend st) as [err |] eqn:V.
  - destruct (sendPrint_rejected net st V) as [-> ->]. now split.
  - destruct (sendPrint_accepted net st V) as [[-> _] [-> _]].
    destruct (submitAttempt_sets_no_token net st) as [T0 T1].
    split; apply run_keeps_token;
      change (SetStage sending :: ?l ++ ?r) with ([SetStage sending] ++ l ++ r);
      rewrite !tokens_app, try_catch_events, tokens_app.
    + rewrite T0. now destruct (outcome (Card0.submitAttempt net st)).
    + rewrite T1. now destruct (outcome (Card1.submitAttempt net st)).
Qed.

(** The stage after a submission. *)
Lemma sendPrint_stage (net : Request -> FetchOutcome) (st : State) :
  let after s := match validateBeforeSend st with
                 | Some _ => stage st
                 | None => s
                 end in
  stage (run st (events (Card0.sendPrint net st))) = after ready
  /\ stage (run st (events (Card1.sendPrint net st))) = after ready.
Proof.
  cbv zeta. destruct (validateBeforeSend st) as [err |] eqn:V.
  - destruct (sendPrint_rejected net st V) as [-> ->]. now split.
  - destruct (sendPrint_accepted net st V) as [[-> _] [-> _]].
    change (SetStage sending :: ?l ++ ?r)
      with ((SetStage sending :: l) ++ r).
    now rewrite !run_stage_last.
Qed.

(** The value the copies input stores, by cases on the number read. *)
Lemma clamp_copies_value (v : jsstring) :
  clamp_copies v =
  match Number v with
  | JNaN => num_of_Z 1
  | JInf true => num_of_Z 1
  | JInf false => num_of_Z 100
  | JFin q =>
      if (Qnum q =? 0)%Z then num_of_Z 1
      else if Qltb (inject_Z 1) q
           then if Qltb q (inject_Z 100) then JFin q else num_of_Z 100
           else num_of_Z 1
  end.
Proof.
  unfold clamp_copies. destruct (Number v) as [| nb | q]; cbn [num_truthy].
  - reflexivity.
  - now destruct nb.
  - destruct (Qnum q =? 0)%Z; cbn [negb]; [reflexivity|].
    change (Math_max (num_of_Z 1) (JFin q))
      with (if Qltb (inject_Z 1) q then JFin q else num_of_Z 1).
    destruct (Qltb (inject_Z 1) q); reflexivity.
Qed.

(** X1: whatever is typed into the copies input, the value stored is a
    number from 1 to 100: 1 when the text reads as NaN, as 0 or as
    anything below 1, 100 when it reads above 100, and the number read
    (whole or not) in between.  So the validator never answers with the
    copies error for a value the input stored. *)
Theorem copies_input_in_bounds (v : jsstring) (st : State) :
  let c := copies (copies_onChange v st) in
  jle (num_of_Z 1) c = true
  /\ jle c (num_of_Z 100) = true
  /\ (num_truthy (Number v) = false -> c = num_of_Z 1)
  /\ (jlt (Number v) (num_of_Z 1) = true -> c = num_of_Z 1)
  /\ (jgt (Number v) (num_of_Z 100) = true -> c = num_of_Z 100)
  /\ (jle (num_of_Z 1) (Number v) = true ->
      jle (Number v) (num_of_Z 100) = true -> same_num c (Number v) = true)
  /\ validateBeforeSend (copies_onChange v st) <> Some ERR_COPIES.
Proof.
  cbv zeta. unfold copies_onChange. cbn [copies set_copies].
  destruct (clamp_copies_in_bounds v) as [Hlo Hhi].
  split; [exact Hlo|]. split; [exact Hhi|].
  assert (Hrule : rule_copies_bounds (set_copies (clamp_copies v) st) = None).
  { unfold rule_copies_bounds, jgt. cbn [copies set_copies].
    now rewrite (jle_not_jlt _ _ Hlo), (jle_not_jlt _ _ Hhi). }
  split; [|split; [|split; [|split]]].
  - rewrite clamp_copies_value.
    destruct (Number v) as [| nb | q]; cbn [num_truthy]; try discriminate.
    + reflexivity.
    + intros H. apply negb_false_iff in H. now rewrite H.
  - rewrite clamp_copies_value.
    destruct (Number v) as [| nb | q]; [discriminate | |].
    + destruct nb; [reflexivity | discriminate].
    + unfold num_of_Z. cbn [jlt]. intros H.
      destruct (Qnum q =? 0)%Z; [reflexivity|].
      assert (E : Qltb (inject_Z 1) q = false).
      { unfold Qltb in *. cbn in *. apply Z.ltb_lt in H. apply Z.ltb_ge. lia. }
      now rewrite E.
  - rewrite clamp_copies_value.
    unfold jgt. destruct (Number v) as [| nb | q]; [discriminate | |].
    + destruct nb; [discriminate | reflexivity].
    + unfold num_of_Z. cbn [jlt]. intros H.
      assert (E0 : (Qnum q =? 0)%Z = false).
      { unfold Qltb in H. cbn in H. apply Z.ltb_lt in H. apply Z.eqb_neq. lia. }
      assert (E1 : Qltb (inject_Z 1) q = true).
      { unfold Qltb in *. cbn in *. apply Z.ltb_lt in H. apply Z.ltb_lt. lia. }
      assert (E2 : Qltb q (inject_Z 100) = false).
      { unfold Qltb in *. cbn in *. apply Z.ltb_lt in H. apply Z.ltb_ge. lia. }
      now rewrite E0, E1, E2.
  - rewrite clamp_copies_value.
    destruct (Number v) as [| nb | q]; [discriminate | |].
    + destruct nb; discriminate.
    + unfold num_of_Z. cbn [jle]. intros H1 H100.
      unfold Qleb in H1, H100. cbn in H1, H100.
      apply Z.leb_le in H1, H100.
      assert (E0 : (Qnum q =? 0)%Z = false) by (apply Z.eqb_neq; lia).
      rewrite E0. unfold Qltb. cbn [Qnum Qden inject_Z].
      destruct (Z.ltb_spec (1 * Z.pos (Qden q)) (Qnum q * 1)) as [L1 | L1].
      * destruct (Z.ltb_spec (Qnum q * 1) (100 * Z.pos (Qden q))) as [L2 | L2];
          cbn [same_num].
        -- apply Qeq_bool_iff. reflexivity.
        -- apply Qeq_bool_iff. unfold Qeq. cbn. lia.
      * cbn [same_num]. apply Qeq_bool_iff. unfold Qeq. cbn. lia.
  - rewrite validate_before_copies, Hrule.
    destruct (first_failure (required_rules ++ range_rules)
                (set_copies (clamp_copies v) st)) eqn:E.
    + intros H. inversion H; subst.
      apply earlier_rules_errors in E. now apply copies_error_is_late.
    + discriminate.
Qed.

(* ================================================================== *)
(** * The card as a state machine *)
(* ================================================================== *)

Import Controls.

(** [debugPing] always ends with one toast after its one request. *)
Lemma debugPing_cases (error_name : JsError -> jsstring)
      (net : Request -> FetchOutcome) :
  let target := Card1.BASE ++ js "/robots.txt" in
  let req := mkRequest target GET [] None in
  debugPing error_name net =
  ([ Fetch req;
     SetToast
       match net req with
       | Resolved res =>
           mkToast (if ok res then success else error)
                   (js "Ping " ++ N_to_js (status res) ++ js " " ++ target)
       | Rejected e =>
           mkToast error (js "Ping failed: "
                          ++ Error_toString (error_name e) e)
       end ],
   inr tt).
Proof.
  cbv zeta. unfold debugPing, hubspot_fetch. cbv zeta.
  destruct (net _) as [e | res]; reflexivity.
Qed.

(** X2: [debugPing] of part_001 sends one GET request for /robots.txt
    without headers or body and ends, without throwing, with exactly one
    toast: "Ping <status> <url>", green exactly when the status is 2xx,
    or "Ping failed: " followed by the error's string form when the
    call is rejected.  It never touches the token, the stage or the
    draft. *)
Theorem debugPing_effects (error_name : JsError -> jsstring)
        (net : Request -> FetchOutcome) (st : State) :
  let target := Card1.BASE ++ js "/robots.txt" in
  let m := debugPing error_name net in
  outcome m = inr tt
  /\ requests (events m) = [mkRequest target GET [] None]
  /\ (forall res, net (mkRequest target GET [] None) = Resolved res ->
        toasts (events m)
        = [mkToast (if ok res then success else error)
                   (js "Ping " ++ N_to_js (status res) ++ js " " ++ target)])
  /\ (forall e, net (mkRequest target GET [] None) = Rejected e ->
        toasts (events m)
        = [mkToast error (js "Ping failed: "
                          ++ Error_toString (error_name e) e)])
  /\ length (toasts (events m)) = 1
  /\ token (run st (events m)) = token st
  /\ stage (run st (events m)) = stage st
  /\ draft (run st (events m)) = draft st.
Proof.
  cbv zeta. rewrite debugPing_cases. unfold outcome, events. cbn [fst snd].
  split; [reflexivity|]. split; [reflexivity|].
  split; [intros res H; now rewrite H|].
  split; [intros e H; now rewrite H|].
  repeat split.
Qed.

Lemma interactive_not_sending (s : Stage) : interactive s <-> s <> sending.
Proof.
  unfold interactive. destruct s; split; intros H; try tauto;
    try discriminate; try (destruct H; discriminate).
Qed.

(** Closes one component of the invariant. *)
Ltac invariant_part :=
  first [ assumption | discriminate | reflexivity
        | now left | now right | intros _; assumption ].

(** What a login leaves of the invariant, from what it leaves in the
    token and the stage. *)
Lemma login_keeps_invariant (st st' : State) (out : FetchOutcome) :
  invariant st -> stage st = login ->
  draft st' = draft st ->
  match out with
  | Resolved res =>
      if ok res && truthy (login_token res)
      then token st' = login_token res /\ stage st' = ready
      else token st' = token st /\ stage st' = stage st
  | Rejected _ => token st' = token st /\ stage st' = stage st
  end ->
  invariant st'.
Proof.
  intros (Hd & Hlo & Hhi & Hi & Hl & Hr) Hs Fd S.
  specialize (Hl Hs).
  unfold draft in Fd. injection Fd as F1 _ F3 _ _ _ _ _ _.
  unfold invariant. rewrite F1, F3.
  assert (Same : token st' = token st /\ stage st' = stage st ->
                 Datatypes.length (deviceName st) <= 23
                 /\ jle (num_of_Z 1) (copies st) = true
                 /\ jle (copies st) (num_of_Z 100) = true
                 /\ interactive (stage st')
                 /\ (stage st' = login -> token st' = VStr [])
                 /\ (stage st' = ready -> truthy (token st') = true)).
  { intros [St Ss]. rewrite St, Ss, Hs. repeat split; invariant_part. }
  destruct out as [e | res]; [now apply Same|].
  destruct (ok res && truthy (login_token res)) eqn:E; [|now apply Same].
  destruct S as [St Ss]. rewrite St, Ss.
  apply andb_true_iff in E as [_ E].
  repeat split; invariant_part.
Qed.

(** What a submission leaves of the invariant. *)
Lemma submit_keeps_invariant (st st' : State) :
  invariant st -> stage st = ready ->
  draft st' = draft st -> token st' = token st -> stage st' = ready ->
  invariant st'.
Proof.
  intros (Hd & Hlo & Hhi & Hi & Hl & Hr) Hs Fd Ft Fs.
  specialize (Hr Hs).
  unfold draft in Fd. injection Fd as F1 _ F3 _ _ _ _ _ _.
  unfold invariant. rewrite F1, F3, Ft, Fs.
  repeat split; invariant_part.
Qed.

(** Every control keeps the invariant. *)
Lemma handle_keeps_invariant (error_name : JsError -> jsstring)
      (c : Component) (net : Request -> FetchOutcome) (st : State)
      (ctl : Control) :
  invariant st -> shown c st ctl = true ->
  invariant (handle error_name c net st ctl).
Proof.
  intros Hinv Hshown.
  pose proof Hinv as (Hd & Hlo & Hhi & Hi & Hl & Hr).
  destruct ctl; cbn [handle]; try exact Hinv.
  - (* the ping button *)
    pose proof (debugPing_cases error_name net) as Hc. cbv zeta in Hc.
    rewrite Hc. exact Hinv.
  - (* the login button *)
    cbn [shown] in Hshown. unfold at_login_stage in Hshown.
    destruct (stage st) eqn:Hs; try discriminate.
    destruct c.
    + apply (@login_keeps_invariant st _ (net (login_request Card0.BASE st)));
        [exact Hinv | exact Hs | apply run_keeps_fields|].
      pose proof (Card0_doLogin_session net st) as S. cbv zeta in S.
      rewrite Hs in S. rewrite Hs. exact S.
    + apply (@login_keeps_invariant st _ (net (login_request Card1.BASE st)));
        [exact Hinv | exact Hs | apply run_keeps_fields|].
      pose proof (Card1_doLogin_session net st) as S. cbv zeta in S.
      rewrite Hs in S. rewrite Hs. exact S.
  - (* the device name input *)
    unfold deviceName_onChange.
    destruct (Datatypes.length v <=? 23) eqn:E; [|exact Hinv].
    apply Nat.leb_le in E. unfold invariant.
    cbn [deviceName copies stage token set_deviceName].
    repeat split; invariant_part.
  - (* the copies input *)
    destruct (clamp_copies_in_bounds v) as [Clo Chi].
    unfold invariant, copies_onChange.
    cbn [deviceName copies stage token set_copies].
    repeat split; invariant_part.
  - (* the send button *)
    cbn [shown] in Hshown. apply andb_true_iff in Hshown as [Hn _].
    unfold at_login_stage in Hn.
    assert (Hs : stage st = ready).
    { destruct (stage st) eqn:E; try discriminate; [reflexivity|].
      apply interactive_not_sending in Hi. now exfalso. }
    assert (Hr' := Hr Hs).
    destruct (sendPrint_keeps_token net st) as [T0 T1].
    destruct (sendPrint_stage net st) as [S0 S1]. cbv zeta in S0, S1.
    assert (Hst : match validateBeforeSend st with
                  | Some _ => stage st
                  | None => ready
                  end = ready) by (now destruct (validateBeforeSend st)).
    rewrite Hst in S0, S1.
    destruct c.
    + apply (@submit_keeps_invariant st); auto. apply run_keeps_fields.
    + apply (@submit_keeps_invariant st); auto. apply run_keeps_fields.
Qed.

Lemma invariant_of_reachable (error_name : JsError -> jsstring)
      (c : Component) (st : State) :
  reachable error_name c st -> invariant st.
Proof.
  induction 1 as [|st net ctl Hreach IH Hshown].
  - unfold invariant, initial.
    cbn [deviceName copies stage token Datatypes.length].
    repeat split; first [lia | discriminate | reflexivity | now left].
  - now apply handle_keeps_invariant.
Qed.

(** X3: in every state a card can reach by its controls, one handler
    run at a time, the device name has at most 23 characters, the
    copies are a number from 1 to 100, the stage is [login] or [ready]
    (never [sending]), the token is the empty string as long as the
    stage is [login] and is truthy once the stage is [ready].  This
    holds in both components, whatever the network answers. *)
Theorem reachable_invariant (error_name : JsError -> jsstring)
        (c : Component) (st : State) :
  reachable error_name c st ->
  length (deviceName st) <= 23
  /\ jle (num_of_Z 1) (copies st) = true
  /\ jle (copies st) (num_of_Z 100) = true
  /\ stage st <> sending
  /\ (stage st = login -> token st = VStr [])
  /\ (stage st = ready -> truthy (token st) = true).
Proof.
  intros H. destruct (invariant_of_reachable H) as (Hd & Hlo & Hhi & Hi & Hl & Hr).
  repeat split; auto. now apply interactive_not_sending.
Qed.

(** X4: in a reachable state where the Send button is enabled, the
    validator can only pass or answer with one of the four page-range
    errors: the login, device-name, file-URL and copies errors cannot
    occur. *)
Theorem reachable_send_only_range_errors
        (error_name : JsError -> jsstring) (c : Component) (st : State) :
  reachable error_name c st ->
  shown c st SendButton = true ->
  validateBeforeSend st = None
  \/ validateBeforeSend st = Some ERR_RANGE_BOTH
  \/ exists err, validateBeforeSend st = Some err
                 /\ In err range_value_errors.
Proof.
  intros Hreach Hshown.
  destruct (invariant_of_reachable Hreach) as (Hd & Hlo & Hhi & Hi & Hl & Hr).
  cbn [shown] in Hshown. apply andb_true_iff in Hshown as [Hn Hs].
  unfold at_login_stage in Hn. unfold send_disabled in Hs.
  apply negb_true_iff, orb_false_iff in Hs as [Hdn Hfu].
  apply negb_false_iff in Hdn, Hfu.
  assert (Hready : stage st = ready).
  { destruct (stage st) eqn:E; try discriminate; [reflexivity|].
    apply interactive_not_sending in Hi. now exfalso. }
  specialize (Hr Hready).
  assert (Hreq : first_failure required_rules st = None).
  { unfold required_rules. cbn [first_failure].
    unfold rule_authenticated, rule_device_required, rule_device_length,
      rule_file_required.
    rewrite Hr. destruct (deviceName st); [discriminate|].
    apply Nat.leb_le in Hd. rewrite Hd.
    destruct (fileUrl st); [discriminate | reflexivity]. }
  assert (Hcop : rule_copies_bounds st = None).
  { unfold rule_copies_bounds, jgt.
    now rewrite (jle_not_jlt _ _ Hlo), (jle_not_jlt _ _ Hhi). }
  rewrite (validate_after_required st Hreq), Hcop.
  unfold rule_range_complete.
  destruct (has_text (rangeStart st)), (has_text (rangeEnd st));
    try (right; left; reflexivity).
  - destruct (rule_range_numeric st) eqn:E; [|now left].
    right; right. exists j. split; [reflexivity|].
    now apply range_numeric_errors in E.
  - destruct (rule_range_numeric st) eqn:E; [|now left].
    right; right. exists j. split; [reflexivity|].
    now apply range_numeric_errors in E.
Qed.

(** X5: there is no way back from [ready]: whatever control is used in
    a state at stage [ready], and whatever the network answers, the
    stage is [ready] afterwards and the token is the one held before;
    the cards have no logout and no second login. *)
Theorem ready_is_final (error_name : JsError -> jsstring)
        (c : Component) (net : Request -> FetchOutcome) (st : State)
        (ctl : Control) :
  stage st = ready -> shown c st ctl = true ->
  stage (handle error_name c net st ctl) = ready
  /\ token (handle error_name c net st ctl) = token st.
Proof.
  intros Hs Hshown.
  destruct ctl; cbn [handle]; try (now split).
  - pose proof (debugPing_cases error_name net) as Hc. cbv zeta in Hc.
    rewrite Hc. now split.
  - cbn [shown] in Hshown. unfold at_login_stage in Hshown.
    rewrite Hs in Hshown. discriminate.
  - unfold deviceName_onChange. destruct (length v <=? 23); now split.
  - destruct (sendPrint_keeps_token net st) as [T0 T1].
    destruct (sendPrint_stage net st) as [S0 S1]. cbv zeta in S0, S1.
    destruct c; [rewrite T0, S0 | rewrite T1, S1];
      (split; [|reflexivity]); now destruct (validateBeforeSend st).
Qed.

(* ================================================================== *)
(** * Objects as the handlers build and read them *)
(* ================================================================== *)

Lemma lookup_set_prop_same (k : jsstring) (v : jsval)
      (props : list (jsstring * jsval)) :
  lookup k props <> None -> lookup k (set_prop k v props) = Some v.
Proof.
  induction props as [|[k' v'] props IH]; cbn [lookup set_prop];
    [congruence|].
  destruct (str_eqb k k') eqn:E; intros H; cbn [lookup]; rewrite E;
    [reflexivity | now apply IH].
Qed.

Lemma lookup_set_prop_other (k k0 : jsstring) (v : jsval)
      (props : list (jsstring * jsval)) :
  k <> k0 -> lookup k (set_prop k0 v props) = lookup k props.
Proof.
  intros Hne. induction props as [|[k' v'] props IH]; cbn [lookup set_prop].
  - now rewrite (str_eqb_neq Hne).
  - destruct (str_eqb k0 k') eqn:E; cbn [lookup].
    + apply str_eqb_eq in E. subst k'. now rewrite (str_eqb_neq Hne).
    + now rewrite IH.
Qed.

Lemma lookup_insert_index_same (i : Z) (k : jsstring) (v : jsval)
      (props : list (jsstring * jsval)) :
  lookup k props = None -> lookup k (insert_index i k v props) = Some v.
Proof.
  induction props as [|[k' v'] props IH]; cbn [lookup insert_index].
  - now rewrite str_eqb_refl.
  - destruct (str_eqb k k') eqn:E; [discriminate|]. intros H.
    destruct (array_index k') as [j|]; [destruct (i <? j)%Z|];
      cbn [lookup]; rewrite ?str_eqb_refl, ?E; auto.
Qed.

Lemma lookup_insert_index_other (i : Z) (k k0 : jsstring) (v : jsval)
      (props : list (jsstring * jsval)) :
  k <> k0 -> lookup k (insert_index i k0 v props) = lookup k props.
Proof.
  intros Hne. pose proof (str_eqb_neq Hne) as E0.
  induction props as [|[k' v'] props IH]; cbn [lookup insert_index].
  - now rewrite E0.
  - destruct (array_index k') as [j|]; [destruct (i <? j)%Z|];
      cbn [lookup]; rewrite ?E0; auto.
    now rewrite IH.
Qed.

Lemma lookup_app_last (k k0 : jsstring) (v : jsval)
      (props : list (jsstring * jsval)) :
  lookup k (props ++ [(k0, v)]) =
  match lookup k props with
  | Some x => Some x
  | None => if str_eqb k k0 then Some v else None
  end.
Proof.
  induction props as [|[k' v'] props IH]; cbn [lookup app]; [reflexivity|].
  destruct (str_eqb k k'); [reflexivity | apply IH].
Qed.

(** Defining a property and reading it back. *)
Lemma lookup_define_prop (k k0 : jsstring) (v : jsval)
      (props : list (jsstring * jsval)) :
  lookup k (define_prop k0 v props) =
  if str_eqb k k0 then Some v else lookup k props.
Proof.
  unfold define_prop. destruct (str_eqb k k0) eqn:E.
  - apply str_eqb_eq in E. subst k0.
    destruct (lookup k props) eqn:L.
    + apply lookup_set_prop_same. congruence.
    + destruct (array_index k).
      * now apply lookup_insert_index_same.
      * rewrite lookup_app_last, L. now rewrite str_eqb_refl.
  - assert (Hne : k <> k0).
    { intros ->. now rewrite str_eqb_refl in E. }
    destruct (lookup k0 props).
    + now apply lookup_set_prop_other.
    + destruct (array_index k0).
      * now apply lookup_insert_index_other.
      * rewrite lookup_app_last, E. now destruct (lookup k props).
Qed.

(** Reading a property of a spread: the last binding of the second
    object wins, else the first object is read. *)
Lemma lookup_spread (k : jsstring) (a b : list (jsstring * jsval)) :
  lookup k (spread a b) =
  match lookup k (rev b) with
  | Some v => Some v
  | None => lookup k a
  end.
Proof.
  unfold spread. revert a. induction b as [|[k0 v0] b IH]; intros a;
    cbn [fold_left rev fst snd]; [reflexivity|].
  rewrite IH, lookup_app_last, lookup_define_prop.
  destruct (lookup k (rev b)); [reflexivity|].
  now destruct (str_eqb k k0).
Qed.

(** X6: the request [hsFetch] hands to [hubspot.fetch] always carries a
    Content-Type header: the caller's, when the caller's headers name
    one, and application/json otherwise; every other header of the
    caller is passed with the caller's value, and no header is added.
    The method is the caller's, GET when the caller names none, and the
    body is the caller's. *)
Theorem fetch_request_headers (target : jsstring)
        (init : option RequestInit) (k : jsstring) :
  let req := fetch_request target init in
  lookup k (headers req) =
  match lookup k (rev (caller_headers init)) with
  | Some v => Some v
  | None =>
      if str_eqb k (js "Content-Type")
      then Some (VStr (js "application/json"))
      else None
  end
  /\ lookup (js "Content-Type") (headers req) <> None
  /\ (lookup (js "Content-Type") (caller_headers init) = None ->
      lookup (js "Content-Type") (headers req)
      = Some (VStr (js "application/json")))
  /\ url req = target
  /\ (init = None -> method req = GET /\ body req = None)
  /\ (forall i, init = Some i ->
        method req = match init_method i with Some m => m | None => GET end
        /\ body req = init_body i).
Proof.
  cbv zeta. unfold fetch_request. cbn [headers url method body].
  fold (caller_headers init).
  assert (L : forall k',
             lookup k' (spread [(js "Content-Type",
                                 VStr (js "application/json"))]
                               (caller_headers init)) =
             match lookup k' (rev (caller_headers init)) with
             | Some v => Some v
             | None =>
                 if str_eqb k' (js "Content-Type")
                 then Some (VStr (js "application/json"))
                 else None
             end).
  { intros k'. rewrite lookup_spread.
    destruct (lookup k' (rev (caller_headers init))); [reflexivity|].
    cbn [lookup]. now destruct (str_eqb k' (js "Content-Type")). }
  split; [apply L|]. split; [|split; [|split; [reflexivity|split]]].
  - rewrite L.
    destruct (lookup (js "Content-Type") (rev (caller_headers init)));
      [discriminate|].
    rewrite str_eqb_refl. discriminate.
  - intros Hnone. rewrite L.
    assert (R : forall l : list (jsstring * jsval),
               lookup (js "Content-Type") l = None ->
               lookup (js "Content-Type") (rev l) = None).
    { induction l as [|[k' v'] l IHl]; cbn [lookup rev]; [reflexivity|].
      destruct (str_eqb (js "Content-Type") k') eqn:E; [discriminate|].
      intros H. rewrite lookup_app_last, (IHl H), E. reflexivity. }
    rewrite (R _ Hnone), str_eqb_refl. reflexivity.
  - intros ->. now split.
  - intros i ->. now split.
Qed.

(* ================================================================== *)
(** * More on login and submission *)
(* ================================================================== *)

(** X7: a login sends exactly one request, whatever the answer and
    whether or not it succeeds: a POST to /api/login of the component's
    base, with the Content-Type header alone and the JSON text of
    [{email, password}] as body.  Nothing is sent twice and nothing is
    retried. *)
Theorem doLogin_one_request (net : Request -> FetchOutcome) (st : State) :
  requests (events (Card0.doLogin net st)) = [login_request Card0.BASE st]
  /\ requests (events (Card1.doLogin net st)) = [login_request Card1.BASE st]
  /\ method (login_request Card0.BASE st) = POST
  /\ headers (login_request Card0.BASE st)
     = [(js "Content-Type", VStr (js "application/json"))]
  /\ body (login_request Card0.BASE st)
     = JSON_stringify (VObj [ (js "email", VStr (email st));
                              (js "password", VStr (password st)) ])
  /\ body (login_request Card1.BASE st) = body (login_request Card0.BASE st).
Proof.
  unfold Card0.doLogin, Card1.doLogin.
  pose proof (Card0_loginAttempt_cases net st) as A0.
  pose proof (Card1_loginAttempt_cases net st) as A1.
  cbv zeta in A0, A1. rewrite A0, A1.
  split; [|split; [|now repeat split]].
  - destruct (net (login_request Card0.BASE st)) as [e | res];
      [reflexivity|].
    destruct (ok res); [|reflexivity].
    now destruct (truthy (login_token res)).
  - destruct (net (login_request Card1.BASE st)) as [e | res];
      [reflexivity|].
    destruct (ok res); [|reflexivity].
    now destruct (truthy (login_token res)).
Qed.

(** X8: a 2xx login answer logs in only if its body is a JSON object
    with a truthy [token]: a body that is not JSON, a JSON value that
    is not an object (a string, a number, an array, [null]), and an
    object whose [token] is absent, empty, [null], [false] or 0 all end
    as "Token missing in response", with token and stage unchanged. *)
Theorem login_needs_token_object (net : Request -> FetchOutcome) (st : State)
        (res : Response) :
  net (login_request Card0.BASE st) = Resolved res ->
  net (login_request Card1.BASE st) = Resolved res ->
  ok res = true ->
  (JSON_parse (text res) = None
   \/ (exists v, JSON_parse (text res) = Some v
                 /\ forall props, v <> VObj props)
   \/ (exists props, JSON_parse (text res) = Some (VObj props)
                     /\ match lookup (js "token") props with
                        | Some t => truthy t = false
                        | None => True
                        end)) ->
  outcome (Card0.loginAttempt net st) = inl (mkError MSG_TOKEN_MISSING)
  /\ outcome (Card1.loginAttempt net st) = inl (mkError MSG_TOKEN_MISSING)
  /\ toasts (events (Card0.doLogin net st))
     = [mkToast error MSG_TOKEN_MISSING]
  /\ token (run st (events (Card0.doLogin net st))) = token st
  /\ stage (run st (events (Card0.doLogin net st))) = stage st
  /\ token (run st (events (Card1.doLogin net st))) = token st
  /\ stage (run st (events (Card1.doLogin net st))) = stage st.
Proof.
  intros H0 H1 Hok Hbody.
  assert (Hfalsy : truthy (login_token res) = false).
  { unfold login_token, parse_or_text.
    destruct Hbody as [Hp | [(v & Hp & Hv) | (props & Hp & Ht)]];
      rewrite Hp.
    - reflexivity.
    - destruct v; try reflexivity. exfalso. now apply (Hv props).
    - cbn [get_prop]. destruct (lookup (js "token") props); [exact Ht|].
      reflexivity. }
  pose proof (Card0_loginAttempt_cases net st) as A0.
  pose proof (Card1_loginAttempt_cases net st) as A1.
  pose proof (Card0_doLogin_session net st) as S0.
  pose proof (Card1_doLogin_session net st) as S1.
  cbv zeta in A0, A1, S0, S1.
  rewrite H0, Hok, Hfalsy in A0, S0. rewrite H1, Hok, Hfalsy in A1, S1.
  cbn [andb] in S0, S1. destruct S0 as [T0 G0], S1 as [T1 G1].
  unfold Card0.doLogin in *. unfold Card1.doLogin in *.
  rewrite A0 in *. rewrite A1 in *.
  repeat split; assumption.
Qed.



(** The validator answers with the login error only when the token is
    falsy. *)
Lemma login_error_logged_out (st : State) :
  validateBeforeSend st = Some ERR_LOGIN -> truthy (token st) = false.
Proof.
  unfold validateBeforeSend, check_range.
  destruct (truthy (token st)); [|reflexivity]. cbn [negb].
  repeat match goal with
         | |- context [if ?c then _ else _] => destruct c
         end;
    intros H; try discriminate H; exfalso; vm_compute in H; discriminate H.
Qed.


(** X10: login and submission compose.  After a login that succeeds
    with a token whose string form is [bearer], the draft is what it
    was, the validator no longer answers with the login error, and a
    submission of a draft the validator accepts sends its one request
    with the header Authorization: Bearer [bearer] and the payload of
    that draft. *)
Theorem login_then_submit (net1 net2 : Request -> FetchOutcome) (st : State)
        (res : Response) (bearer : jsstring) :
  net1 (login_request Card0.BASE st) = Resolved res ->
  net1 (login_request Card1.BASE st) = Resolved res ->
  ok res = true ->
  truthy (login_token res) = true ->
  ToString (login_token res) = inr bearer ->
  let st0 := run st (events (Card0.doLogin net1 st)) in
  let st1 := run st (events (Card1.doLogin net1 st)) in
  draft st0 = draft st /\ draft st1 = draft st
  /\ validateBeforeSend st0 <> Some ERR_LOGIN
  /\ validateBeforeSend st1 = validateBeforeSend st0
  /\ (validateBeforeSend st0 = None ->
      requests (events (Card0.sendPrint net2 st0))
      = [submit_request Card0.BASE bearer st]
      /\ requests (events (Card1.sendPrint net2 st1))
         = [submit_request Card1.BASE bearer st]
      /\ lookup (js "Authorization")
                (headers (submit_request Card0.BASE bearer st))
         = Some (VStr (js "Bearer " ++ bearer))
      /\ body (submit_request Card0.BASE bearer st)
         = JSON_stringify (buildBody st)).
Proof.
  intros H0 H1 Hok Htok Hb st0 st1.
  pose proof (Card0_doLogin_session net1 st) as S0.
  pose proof (Card1_doLogin_session net1 st) as S1.
  cbv zeta in S0, S1. fold st0 in S0. fold st1 in S1.
  rewrite H0, Hok, Htok in S0. rewrite H1, Hok, Htok in S1.
  cbn [andb] in S0, S1. destruct S0 as [T0 _], S1 as [T1 _].
  destruct (run_keeps_fields st (events (Card0.doLogin net1 st)))
    as (D0 & _ & _).
  destruct (run_keeps_fields st (events (Card1.doLogin net1 st)))
    as (D1 & _ & _).
  fold st0 in D0. fold st1 in D1.
  assert (Hin : inputs st1 = inputs st0).
  { apply draft_inputs; [now rewrite D0, D1 | now rewrite T0, T1]. }
  assert (Hv : validateBeforeSend st1 = validateBeforeSend st0)
    by (now apply validate_inputs).
  split; [exact D0|]. split; [exact D1|]. split; [|split; [exact Hv|]].
  - intros H. apply login_error_logged_out in H.
    rewrite T0, Htok in H. discriminate H.
  - intros V.
    destruct (sendPrint_requests net2 st0) as [R0 _].
    destruct (sendPrint_requests net2 st1) as [_ R1].
    cbv zeta in R0, R1. rewrite R0, R1, Hv, V, T0, T1, Hb.
    unfold submit_request.
    rewrite (@buildBody_draft st0 st D0), (@buildBody_draft st1 st D1).
    repeat split.
Qed.

(* ================================================================== *)
(** * What an accepted draft puts on the wire *)
(* ================================================================== *)

(** What the validator has checked when it lets a draft through. *)
Lemma validate_accepts (st : State) :
  validateBeforeSend st = None ->
  truthy (token st) = true
  /\ str_truthy (deviceName st) = true
  /\ (23 <? length (deviceName st)) = false
  /\ str_truthy (fileUrl st) = true
  /\ has_text (rangeStart st) = has_text (rangeEnd st)
  /\ (has_text (rangeStart st) = true ->
      check_range (rangeStart st) (rangeEnd st) = None)
  /\ jlt (copies st) (num_of_Z 1) = false
  /\ jgt (copies st) (num_of_Z 100) = false.
Proof.
  unfold validateBeforeSend.
  destruct (truthy (token st)); cbn [negb]; [|discriminate].
  destruct (str_truthy (deviceName st)); cbn [negb]; [|discriminate].
  destruct (23 <? length (deviceName st)); [discriminate|].
  destruct (str_truthy (fileUrl st)); cbn [negb]; [|discriminate].
  cbv zeta.
  destruct (has_text (rangeStart st)), (has_text (rangeEnd st));
    cbn [Bool.eqb negb andb]; try discriminate.
  - destruct (check_range (rangeStart st) (rangeEnd st)); [discriminate|].
    destruct (jlt (copies st) (num_of_Z 1)); [discriminate|].
    destruct (jgt (copies st) (num_of_Z 100)); [discriminate|].
    intros _. repeat split.
  - destruct (jlt (copies st) (num_of_Z 1)); [discriminate|].
    destruct (jgt (copies st) (num_of_Z 100)); [discriminate|].
    intros _. repeat split. discriminate.
Qed.

(** An integral number is the image of an integer. *)
Lemma isInteger_value (x : jsnum) :
  isInteger x = true -> exists z : Z, same_num x (num_of_Z z) = true.
Proof.
  destruct x as [| nb | q]; simpl; try discriminate.
  intros H. apply Z.eqb_eq in H.
  exists (Z.quot (Qnum q) (Zpos (Qden q))).
  apply Qeq_bool_iff. unfold Qeq, inject_Z. cbn [Qnum Qden].
  pose proof (Z.quot_rem' (Qnum q) (Zpos (Qden q))) as E.
  rewrite H in E. lia.
Qed.

Lemma same_num_jle (x y : jsnum) (a b : Z) :
  same_num x (num_of_Z a) = true -> same_num y (num_of_Z b) = true ->
  jle x y = true -> (a <= b)%Z.
Proof.
  destruct x as [| nx | p], y as [| ny | q]; simpl; try discriminate.
  intros Hp Hq Hle.
  apply Qeq_bool_iff in Hp. apply Qeq_bool_iff in Hq.
  unfold Qleb in Hle. apply Z.leb_le in Hle.
  unfold Qeq, inject_Z in Hp, Hq.
  destruct p as [pn pd], q as [qn qd]. cbn [Qnum Qden] in *.
  apply (Z.mul_le_mono_pos_r _ _ (Zpos pd * Zpos qd)); [lia|].
  replace (a * (Zpos pd * Zpos qd))%Z with (pn * Zpos qd)%Z by lia.
  replace (b * (Zpos pd * Zpos qd))%Z with (qn * Zpos pd)%Z by lia.
  exact Hle.
Qed.

Lemma same_num_of_Z (a : Z) : same_num (num_of_Z a) (num_of_Z a) = true.
Proof. simpl. apply Qeq_bool_refl. Qed.

(** A field without text reads as the number 0. *)
Lemma blank_Number (s : jsstring) : has_text s = false -> Number s = JFin 0.
Proof.
  unfold has_text, Number. destruct (trim s); [reflexivity|].
  simpl. discriminate.
Qed.

(** X11: every draft the validator accepts has a truthy token, a device
    name of 1 to 23 code units, a non-empty file URL and a number of
    copies that is neither below 1 nor above 100; and when its range
    fields hold text, the payload carries [pages_start] and [page_end]
    as two integers [a] and [b] with 1 <= a <= b. *)
Theorem accepted_draft_payload (st : State) :
  validateBeforeSend st = None ->
  truthy (token st) = true
  /\ 1 <= length (deviceName st) <= 23
  /\ is_set (fileUrl st)
  /\ get_prop (buildBody st) (js "device_name") = VStr (deviceName st)
  /\ jlt (copies st) (num_of_Z 1) = false
  /\ jgt (copies st) (num_of_Z 100) = false
  /\ has_text (rangeStart st) = has_text (rangeEnd st)
  /\ (has_text (rangeStart st) = true ->
      exists a b : Z,
        (1 <= a <= b)%Z
        /\ same_num (Number (rangeStart st)) (num_of_Z a) = true
        /\ same_num (Number (rangeEnd st)) (num_of_Z b) = true
        /\ get_prop (buildPrintFile st) (js "pages_start")
           = VNum (Number (rangeStart st))
        /\ get_prop (buildPrintFile st) (js "page_end")
           = VNum (Number (rangeEnd st))).
Proof.
  intros V.
  destruct (@validate_accepts st V) as (T & D & L & F & R & C & C1 & C2).
  split; [exact T|]. split.
  { apply Nat.ltb_ge in L. split; [|exact L].
    destruct (deviceName st); [discriminate D | simpl; lia]. }
  split; [now apply str_truthy_nonempty|].
  split; [reflexivity|]. split; [exact C1|]. split; [exact C2|].
  split; [exact R|].
  intros Hs. specialize (C Hs). unfold check_range in C. cbv zeta in C.
  assert (He : has_text (rangeEnd st) = true) by (now rewrite <- R).
  destruct (isInteger (Number (rangeStart st))) eqn:Is;
    cbn [negb orb] in C; [|discriminate C].
  destruct (jlt (Number (rangeStart st)) (num_of_Z 1)) eqn:Ls;
    [discriminate C|].
  destruct (isInteger (Number (rangeEnd st))) eqn:Ie;
    cbn [negb orb] in C; [|discriminate C].
  destruct (jlt (Number (rangeEnd st)) (num_of_Z 1)) eqn:Le;
    [discriminate C|].
  destruct (jlt (Number (rangeEnd st)) (Number (rangeStart st))) eqn:Lo;
    [discriminate C|].
  rewrite (@jlt_not_jle _ _ Is (isInteger_num_of_Z 1)) in Ls.
  rewrite (@jlt_not_jle _ _ Ie Is) in Lo.
  apply negb_false_iff in Ls. apply negb_false_iff in Lo.
  destruct (@isInteger_value _ Is) as [a Ha].
  destruct (@isInteger_value _ Ie) as [b Hb].
  exists a, b.
  split; [split|].
  - exact (@same_num_jle _ _ _ _ (same_num_of_Z 1) Ha Ls).
  - exact (@same_num_jle _ _ _ _ Ha Hb Lo).
  - split; [exact Ha|]. split; [exact Hb|].
    pose proof (printFile_range st) as P. cbv zeta in P.
    apply has_text_is_set in Hs. apply has_text_is_set in He.
    apply str_truthy_nonempty in Hs. apply str_truthy_nonempty in He.
    rewrite Hs, He in P. cbn [andb] in P.
    destruct P as (_ & _ & _ & P1 & P2). split; assumption.
Qed.

(** X12: the validator and [sendPrint] disagree on what a filled range
    field is.  The validator looks at the trimmed text, [sendPrint] at
    the raw string: so whenever both range fields are non-empty but
    hold white space only, and the rest of the draft is acceptable,
    the validator lets the draft through and the payload carries
    [pages_start] 0 and [page_end] 0, which the numeric rules would
    have rejected.  With one of the two fields empty the payload has no
    page range at all. *)
Theorem blank_range_payload (st : State) :
  validateBeforeSend st = None ->
  has_text (rangeStart st) = false ->
  has_text (rangeEnd st) = false
  /\ check_range (rangeStart st) (rangeEnd st) = Some ERR_PAGE_START
  /\ (is_set (rangeStart st) -> is_set (rangeEnd st) ->
      get_prop (buildPrintFile st) (js "pages_start") = VNum (JFin 0)
      /\ get_prop (buildPrintFile st) (js "page_end") = VNum (JFin 0))
  /\ (rangeStart st = [] \/ rangeEnd st = [] ->
      has_key (js "pages_start") (buildPrintFile st) = false
      /\ has_key (js "page_end") (buildPrintFile st) = false).
Proof.
  intros V Hs.
  destruct (@validate_accepts st V) as (_ & _ & _ & _ & R & _).
  assert (He : has_text (rangeEnd st) = false) by (now rewrite <- R).
  pose proof (printFile_range st) as P. cbv zeta in P.
  split; [exact He|]. split; [|split].
  - unfold check_range. cbv zeta. rewrite (@blank_Number _ Hs). reflexivity.
  - intros S E. apply str_truthy_nonempty in S. apply str_truthy_nonempty in E.
    rewrite S, E in P. cbn [andb] in P.
    destruct P as (_ & _ & _ & P1 & P2).
    rewrite P1, P2, (@blank_Number _ Hs), (@blank_Number _ He).
    split; reflexivity.
  - intros [E | E]; rewrite E in P; cbn [str_truthy andb] in P.
    + destruct P as (P1 & P2 & _). split; assumption.
    + rewrite andb_false_r in P. destruct P as (P1 & P2 & _).
      split; assumption.
Qed.

(* ================================================================== *)
(** * The settings page (HlaPrintSettings.tsx) *)
(* ================================================================== *)

Lemma is_SUCCESS_spec (v : jsval) :
  Settings.is_SUCCESS v = true <-> v = VStr (js "SUCCESS").
Proof.
  destruct v; simpl; try (split; [discriminate | discriminate]).
  rewrite str_eqb_eq. split; [now intros -> | now intros [= ->]].
Qed.

(** One run of [connect], by what the network does. *)
Lemma connect_cases (net : Request -> FetchOutcome) (st : Settings.State) :
  Settings.connect net st =
  ([ Settings.SetStatus None; Settings.SetBusy true;
     Settings.Fetch (Settings.connect_request st);
     Settings.SetStatus
       (Some
          match net (Settings.connect_request st) with
          | Rejected e =>
              Settings.mkStatus error
                (VStr (message_or e Settings.MSG_UNEXPECTED))
          | Resolved res =>
              let json := Settings.answer (text res) in
              match Settings.get_member json (js "status") with
              | inl te =>
                  Settings.mkStatus error
                    (VStr (message_or te Settings.MSG_UNEXPECTED))
              | inr s =>
                  if Settings.is_SUCCESS s
                  then Settings.mkStatus success
                         (VStr Settings.MSG_CONNECTED)
                  else
                    match Settings.get_member json (js "message") with
                    | inl te =>
                        Settings.mkStatus error
                          (VStr (message_or te Settings.MSG_UNEXPECTED))
                    | inr m =>
                        Settings.mkStatus error
                          (or_else m (VStr Settings.MSG_FAILED))
                    end
              end
          end);
     Settings.SetBusy false ], inr tt).
Proof.
  unfold Settings.connect, Settings.connectAttempt, Settings.connectCatch,
    Settings.hubspot_fetch.
  destruct (net (Settings.connect_request st)) as [e | res]; [reflexivity|].
  cbv zeta.
  change (Settings.bind ([Settings.Fetch (Settings.connect_request st)],
                         inr res) ?k)
    with (let (evs', r) := k res in
          ([Settings.Fetch (Settings.connect_request st)] ++ evs', r)).
  cbv beta. unfold Settings.lift.
  destruct (Settings.get_member (Settings.answer (text res)) (js "status"))
    as [te | s]; [reflexivity|].
  change (Settings.bind ([], inr s) ?k)
    with (let (evs', r) := k s in (@nil Settings.Event ++ evs', r)).
  cbv beta.
  destruct (Settings.is_SUCCESS s); [reflexivity|].
  destruct (Settings.get_member (Settings.answer (text res))
                                (js "message")) as [te | m];
    reflexivity.
Qed.

(** What the text of an answer is read as, by the shape of the text. *)
Lemma answer_unparsed (txt : jsstring) :
  JSON_parse txt = None ->
  Settings.get_member (Settings.answer txt) (js "status")
  = inr (VStr (js "FAILURE"))
  /\ Settings.get_member (Settings.answer txt) (js "message")
     = inr (VStr txt).
Proof. unfold Settings.answer. intros ->. split; reflexivity. Qed.

Lemma status_truthy (out : FetchOutcome) (s : Settings.Status) :
  s = match out with
      | Rejected e =>
          Settings.mkStatus error
            (VStr (message_or e Settings.MSG_UNEXPECTED))
      | Resolved res =>
          let json := Settings.answer (text res) in
          match Settings.get_member json (js "status") with
          | inl te =>
              Settings.mkStatus error
                (VStr (message_or te Settings.MSG_UNEXPECTED))
          | inr s =>
              if Settings.is_SUCCESS s
              then Settings.mkStatus success (VStr Settings.MSG_CONNECTED)
              else
                match Settings.get_member json (js "message") with
                | inl te =>
                    Settings.mkStatus error
                      (VStr (message_or te Settings.MSG_UNEXPECTED))
                | inr m =>
                    Settings.mkStatus error
                      (or_else m (VStr Settings.MSG_FAILED))
                end
          end
      end ->
  truthy (Settings.msg s) = true.
Proof.
  assert (U : forall e,
             truthy (VStr (message_or e Settings.MSG_UNEXPECTED)) = true).
  { intros e. cbn [truthy]. apply str_truthy_nonempty.
    apply message_or_nonempty. discriminate. }
  intros ->. destruct out as [e | res]; [apply U|]. cbv zeta.
  destruct (Settings.get_member (Settings.answer (text res)) (js "status"))
    as [te | s]; [apply U|].
  destruct (Settings.is_SUCCESS s); [reflexivity|].
  destruct (Settings.get_member (Settings.answer (text res)) (js "message"))
    as [te | m]; [apply U|].
  cbn [Settings.msg]. unfold or_else.
  destruct (truthy m) eqn:Tm; [exact Tm | reflexivity].
Qed.

(** X13: [connect] always settles.  Whatever the network does, it never
    throws, sends exactly one request (a POST with the credentials as
    JSON text and no header at all), and leaves the page not busy, with
    the credentials as typed and a status whose message is truthy: no
    run ends without a verdict on screen, and none leaves the button
    stuck on "Connecting". *)
Theorem connect_settles (net : Request -> FetchOutcome)
        (st : Settings.State) :
  let st' := Settings.run st (Settings.events (Settings.connect net st)) in
  Settings.outcome (Settings.connect net st) = inr tt
  /\ Settings.requests (Settings.events (Settings.connect net st))
     = [Settings.connect_request st]
  /\ method (Settings.connect_request st) = POST
  /\ headers (Settings.connect_request st) = []
  /\ body (Settings.connect_request st)
     = JSON_stringify (VObj [ (js "email", VStr (Settings.email st));
                              (js "password", VStr (Settings.password st)) ])
  /\ Settings.busy st' = false
  /\ Settings.email st' = Settings.email st
  /\ Settings.password st' = Settings.password st
  /\ exists s, Settings.status st' = Some s
               /\ truthy (Settings.msg s) = true.
Proof.
  cbv zeta. rewrite connect_cases.
  split; [reflexivity|]. split; [reflexivity|]. split; [reflexivity|].
  split; [reflexivity|]. split; [reflexivity|]. split; [reflexivity|].
  split; [reflexivity|]. split; [reflexivity|].
  eexists. split; [reflexivity|].
  apply (@status_truthy (net (Settings.connect_request st))). reflexivity.
Qed.

(** X14: the verdict of [connect] is read off the body alone.  When the
    request is answered, the page reports success exactly when the body
    is a JSON object whose [status] is the string "SUCCESS"; the HTTP
    status of the answer is never looked at, so a 500 with such a body
    is a success and a 200 without it a failure. *)
Theorem connect_verdict (net : Request -> FetchOutcome)
        (st : Settings.State) (res : Response) :
  net (Settings.connect_request st) = Resolved res ->
  let st' := Settings.run st (Settings.events (Settings.connect net st)) in
  let envelope :=
    exists props, JSON_parse (text res) = Some (VObj props)
                  /\ lookup (js "status") props = Some (VStr (js "SUCCESS")) in
  (envelope ->
   Settings.status st'
   = Some (Settings.mkStatus success (VStr Settings.MSG_CONNECTED)))
  /\ (~ envelope ->
      exists s, Settings.status st' = Some s /\ Settings.type s = error).
Proof.
  intros Hn. cbv zeta. rewrite connect_cases, Hn.
  change (Settings.status (Settings.run st ?evs))
    with (Settings.status (fold_left Settings.apply_event evs st)).
  cbn [fold_left Settings.apply_event Settings.status Settings.events fst].
  cbv zeta. split.
  - intros (props & Hp & Hs). unfold Settings.answer. rewrite Hp.
    cbn [Settings.get_member get_prop]. rewrite Hs.
    reflexivity.
  - intros Hne.
    destruct (Settings.get_member (Settings.answer (text res))
                                  (js "status")) as [te | s] eqn:Es;
      [eexists; split; reflexivity|].
    destruct (Settings.is_SUCCESS s) eqn:Is.
    + exfalso. apply Hne. apply is_SUCCESS_spec in Is. subst s.
      unfold Settings.answer in Es.
      destruct (JSON_parse (text res)) as [v|] eqn:Hp.
      * destruct v; cbn [Settings.get_member get_prop] in Es;
          try discriminate Es.
        exists props. split; [reflexivity|].
        destruct (lookup (js "status") props) as [x|];
          [|discriminate Es].
        injection Es as ->. reflexivity.
      * vm_compute in Es. discriminate Es.
    + destruct (Settings.get_member (Settings.answer (text res))
                                    (js "message")) as [te | m];
        eexists; split; reflexivity.
Qed.

(** X15: the message of a failed [connect].  A rejected request shows
    the error's message, or "Unexpected error." when that is empty; a
    body that is not JSON is shown as it is, and an empty one as
    "Failed to connect. Check credentials."; a JSON object shows its
    [message] when that is truthy, as the value it is, and the fixed
    text otherwise; a JSON string, number, boolean or array shows the
    fixed text; and the JSON text [null] ends in the catch clause. *)
Theorem connect_failure_message (net : Request -> FetchOutcome)
        (st : Settings.State) :
  let st' := Settings.run st (Settings.events (Settings.connect net st)) in
  let shows m := Settings.status st' = Some (Settings.mkStatus error m) in
  (forall e, net (Settings.connect_request st) = Rejected e ->
             shows (VStr (message_or e Settings.MSG_UNEXPECTED)))
  /\ (forall res,
         net (Settings.connect_request st) = Resolved res ->
         JSON_parse (text res) = None ->
         shows (VStr (if str_truthy (text res) then text res
                      else Settings.MSG_FAILED)))
  /\ (forall res props,
         net (Settings.connect_request st) = Resolved res ->
         JSON_parse (text res) = Some (VObj props) ->
         lookup (js "status") props <> Some (VStr (js "SUCCESS")) ->
         shows (match lookup (js "message") props with
                | Some m => if truthy m then m else VStr Settings.MSG_FAILED
                | None => VStr Settings.MSG_FAILED
                end))
  /\ (forall res v,
         net (Settings.connect_request st) = Resolved res ->
         JSON_parse (text res) = Some v ->
         match v with
         | VBool _ | VNum _ | VStr _ | VArr _ => True
         | _ => False
         end ->
         shows (VStr Settings.MSG_FAILED))
  /\ (forall res,
         net (Settings.connect_request st) = Resolved res ->
         JSON_parse (text res) = Some VNull ->
         exists m, shows (VStr m) /\ m <> []).
Proof.
  cbv zeta. rewrite connect_cases.
  change (Settings.status (Settings.run st ?evs))
    with (Settings.status (fold_left Settings.apply_event evs st)).
  cbn [fold_left Settings.apply_event Settings.status Settings.events fst].
  split; [|split; [|split; [|split]]].
  - intros e ->. reflexivity.
  - intros res -> Hp. cbv zeta.
    destruct (answer_unparsed _ Hp) as [-> ->].
    replace (Settings.is_SUCCESS (VStr (js "FAILURE"))) with false
      by (vm_compute; reflexivity).
    unfold or_else. cbn [truthy].
    now destruct (str_truthy (text res)).
  - intros res props -> Hp Hs. cbv zeta. unfold Settings.answer.
    rewrite Hp. cbn [Settings.get_member get_prop].
    destruct (Settings.is_SUCCESS
                match lookup (js "status") props with
                | Some x => x
                | None => VUndef
                end) eqn:Is.
    + exfalso. apply is_SUCCESS_spec in Is.
      destruct (lookup (js "status") props) as [x|];
        [subst x; now apply Hs | discriminate Is].
    + unfold or_else.
      destruct (lookup (js "message") props) as [m|]; reflexivity.
  - intros res v -> Hp Hv. cbv zeta. unfold Settings.answer. rewrite Hp.
    destruct v; try contradiction; reflexivity.
  - intros res -> Hp. cbv zeta. unfold Settings.answer. rewrite Hp.
    cbn [Settings.get_member]. eexists. split; [reflexivity|].
    apply message_or_nonempty. discriminate.
Qed.

(** Every control keeps the page at rest with a truthy message, if it
    shows one. *)
Lemma settings_handle_keeps (net : Request -> FetchOutcome)
      (st : Settings.State) (ctl : Settings.Control) :
  Settings.busy st = false ->
  (forall s, Settings.status st = Some s -> truthy (Settings.msg s) = true) ->
  Settings.busy (Settings.handle net st ctl) = false
  /\ (forall s, Settings.status (Settings.handle net st ctl) = Some s ->
                truthy (Settings.msg s) = true).
Proof.
  intros Hb Hs. destruct ctl; cbn [Settings.handle];
    try (split; [exact Hb | exact Hs]).
  - split; [exact Hb | discriminate].
  - rewrite connect_cases. split; [reflexivity|].
    intros s E.
    apply (@status_truthy (net (Settings.connect_request st))).
    change (Settings.status (Settings.run st ?evs))
      with (Settings.status (fold_left Settings.apply_event evs st)) in E.
    cbn [fold_left Settings.apply_event Settings.status Settings.events fst]
      in E.
    injection E as <-. reflexivity.
Qed.

Lemma settings_reachable_rest (st : Settings.State) :
  Settings.reachable st ->
  Settings.busy st = false
  /\ (forall s, Settings.status st = Some s -> truthy (Settings.msg s) = true).
Proof.
  induction 1 as [|st net ctl _ [Hb Hs] _].
  - split; [reflexivity | discriminate].
  - now apply settings_handle_keeps.
Qed.

(** X16: in every state the settings page can be brought to by using
    the controls it shows, no run of [connect] is pending, a status on
    screen has a truthy message, and the Connect button is usable
    exactly when both the email and the password are non-empty. *)
Theorem settings_reachable_invariant (st : Settings.State) :
  Settings.reachable st ->
  Settings.busy st = false
  /\ (forall s, Settings.status st = Some s -> truthy (Settings.msg s) = true)
  /\ (Settings.shown st Settings.ConnectButton = true
      <-> is_set (Settings.email st) /\ is_set (Settings.password st)).
Proof.
  intros R. destruct (settings_reachable_rest R) as [Hb Hs].
  split; [exact Hb|]. split; [exact Hs|].
  cbn [Settings.shown]. unfold Settings.connect_disabled. rewrite Hb.
  rewrite <- !str_truthy_nonempty.
  destruct (str_truthy (Settings.email st)),
    (str_truthy (Settings.password st)); cbn; intuition discriminate.
Qed.

(* ================================================================== *)
(** * What a submission leaves behind, and the two cards side by side *)
(* ================================================================== *)

(** X17: a submission changes nothing of the session but the toast and
    the stage.  Whatever the network answers (a 401 included), the
    token, the credentials and the draft afterwards are those held
    before: a submission never logs the user out and never clears the
    form, also when the job was created.  The stage afterwards is
    [ready] when the validator accepted the draft and is untouched when
    it did not. *)
Theorem sendPrint_keeps_session (net : Request -> FetchOutcome) (st : State) :
  let a := run st (events (Card0.sendPrint net st)) in
  let b := run st (events (Card1.sendPrint net st)) in
  (token a = token st /\ token b = token st)
  /\ (draft a = draft st /\ draft b = draft st)
  /\ (email a = email st /\ password a = password st
      /\ email b = email st /\ password b = password st)
  /\ (validateBeforeSend st = None -> stage a = ready /\ stage b = ready)
  /\ (validateBeforeSend st <> None -> stage a = stage st /\ stage b = stage st).
Proof.
  cbv zeta.
  destruct (run_keeps_fields st (events (Card0.sendPrint net st)))
    as (D0 & E0 & P0).
  destruct (run_keeps_fields st (events (Card1.sendPrint net st)))
    as (D1 & E1 & P1).
  pose proof (sendPrint_stage net st) as S. cbv zeta in S.
  split; [exact (sendPrint_keeps_token net st)|].
  split; [split; assumption|].
  split; [repeat split; assumption|].
  split.
  - intros V. now rewrite V in S.
  - intros V. destruct (validateBeforeSend st); [exact S | now exfalso].
Qed.

(** X18: the two cards keep the same session.  When the login request
    of each meets the same answer, both end with the same token and the
    same stage; and after a submission of the same draft both hold the
    same token, stage and draft, whatever each of them was answered.
    What differs between part_000 and part_001 is the base address of
    the requests and what is shown on failure, nothing else. *)
Theorem components_agree (net0 net1 : Request -> FetchOutcome) (st : State) :
  (net0 (login_request Card0.BASE st) = net1 (login_request Card1.BASE st) ->
   let a := run st (events (Card0.doLogin net0 st)) in
   let b := run st (events (Card1.doLogin net1 st)) in
   token a = token b /\ stage a = stage b /\ draft a = draft b)
  /\ (let a := run st (events (Card0.sendPrint net0 st)) in
      let b := run st (events (Card1.sendPrint net1 st)) in
      token a = token b /\ stage a = stage b /\ draft a = draft b
      /\ map body (requests (events (Card0.sendPrint net0 st)))
         = map body (requests (events (Card1.sendPrint net1 st)))
      /\ map headers (requests (events (Card0.sendPrint net0 st)))
         = map headers (requests (events (Card1.sendPrint net1 st)))).
Proof.
  split.
  - intros Hn. cbv zeta.
    pose proof (Card0_doLogin_session net0 st) as S0.
    pose proof (Card1_doLogin_session net1 st) as S1.
    cbv zeta in S0, S1. rewrite Hn in S0.
    destruct (run_keeps_fields st (events (Card0.doLogin net0 st)))
      as (D0 & _ & _).
    destruct (run_keeps_fields st (events (Card1.doLogin net1 st)))
      as (D1 & _ & _).
    rewrite D0, D1.
    destruct (net1 (login_request Card1.BASE st)) as [e | res].
    + destruct S0 as [-> ->], S1 as [-> ->]. repeat split.
    + destruct (ok res && truthy (login_token res));
        destruct S0 as [-> ->], S1 as [-> ->]; repeat split.
  - cbv zeta.
    destruct (sendPrint_keeps_token net0 st) as [T0 _].
    destruct (sendPrint_keeps_token net1 st) as [_ T1].
    destruct (sendPrint_stage net0 st) as [S0 _].
    destruct (sendPrint_stage net1 st) as [_ S1].
    destruct (run_keeps_fields st (events (Card0.sendPrint net0 st)))
      as (D0 & _ & _).
    destruct (run_keeps_fields st (events (Card1.sendPrint net1 st)))
      as (D1 & _ & _).
    destruct (sendPrint_requests net0 st) as [R0 _].
    destruct (sendPrint_requests net1 st) as [_ R1].
    cbv zeta in S0, S1, R0, R1.
    rewrite T0, T1, S0, S1, D0, D1, R0, R1.
    split; [reflexivity|]. split; [reflexivity|]. split; [reflexivity|].
    destruct (validateBeforeSend st); [split; reflexivity|].
    destruct (ToString (token st)); split; reflexivity.
Qed.

(* ------------------------------------------------------------------ *)
(** ** The further theorems at concrete inputs *)
(* ------------------------------------------------------------------ *)

(** The copies input on "250", on "abc" and on "7". *)
Lemma copies_input_in_bounds_witness :
  copies (copies_onChange (js "250") desk1) = num_of_Z 100
  /\ copies (copies_onChange (js "abc") desk1) = num_of_Z 1
  /\ same_num (copies (copies_onChange (js "7") desk1)) (Number (js "7"))
     = true.
Proof.
  split; [|split].
  - destruct (copies_input_in_bounds (js "250") desk1)
      as (_ & _ & _ & _ & H & _).
    apply H. vm_compute. reflexivity.
  - destruct (copies_input_in_bounds (js "abc") desk1)
      as (_ & _ & H & _).
    apply H. vm_compute. reflexivity.
  - destruct (copies_input_in_bounds (js "7") desk1)
      as (_ & _ & _ & _ & _ & H & _).
    apply H; vm_compute; reflexivity.
Defined.

(** The ping against a server that answers 500, and without network. *)
Lemma debugPing_effects_witness :
  toasts (events (Controls.debugPing Sample2.type_errors server_500))
  = [mkToast error (js "Ping 500 https://hlaprint.com/robots.txt")]
  /\ toasts (events (Controls.debugPing Sample2.type_errors offline))
     = [mkToast error (js "Ping failed: TypeError: Failed to fetch")].
Proof.
  split.
  - destruct (debugPing_effects Sample2.type_errors server_500 desk1)
      as (_ & _ & H & _).
    exact (H res500 eq_refl).
  - destruct (debugPing_effects Sample2.type_errors offline desk1)
      as (_ & _ & _ & H & _).
    exact (H (mkError (js "Failed to fetch")) eq_refl).
Defined.

(** The states of [Sample2] are reached by the controls. *)
Lemma filled_reachable (c : Controls.Component) :
  Controls.reachable Sample2.type_errors c (Sample2.filled c).
Proof.
  unfold Sample2.filled, Sample2.logged_in.
  apply Controls.reach_use;
    [apply Controls.reach_use;
     [apply Controls.reach_use; [apply Controls.reach_mount | reflexivity]
     | destruct c; vm_compute; reflexivity]
    | destruct c; vm_compute; reflexivity].
Defined.

(** The invariant on a card that logged in and filled the form. *)
Lemma reachable_invariant_witness :
  length (deviceName (Sample2.filled Controls.HlaPrintCard)) <= 23
  /\ stage (Sample2.filled Controls.HlaPrintCard) <> sending
  /\ truthy (token (Sample2.filled Controls.HlaPrintCard)) = true.
Proof.
  destruct (@reachable_invariant Sample2.type_errors Controls.HlaPrintCard
              (Sample2.filled Controls.HlaPrintCard)
              (filled_reachable Controls.HlaPrintCard))
    as (D & _ & _ & S & _ & T).
  split; [exact D|]. split; [exact S|]. apply T. vm_compute. reflexivity.
Defined.

(** The errors left to the Send button, on the same card in part_001. *)
Lemma reachable_send_only_range_errors_witness :
  validateBeforeSend (Sample2.filled Controls.HlaPrintCardView) = None
  \/ validateBeforeSend (Sample2.filled Controls.HlaPrintCardView)
     = Some ERR_RANGE_BOTH
  \/ exists err,
       validateBeforeSend (Sample2.filled Controls.HlaPrintCardView)
       = Some err
       /\ In err range_value_errors.
Proof.
  apply (@reachable_send_only_range_errors Sample2.type_errors
           Controls.HlaPrintCardView
           (Sample2.filled Controls.HlaPrintCardView)
           (filled_reachable Controls.HlaPrintCardView)).
  vm_compute. reflexivity.
Defined.

(** A submission that meets a 500 answer leaves the card at [ready]. *)
Lemma ready_is_final_witness :
  stage (Controls.handle Sample2.type_errors Controls.HlaPrintCardView
           server_500 desk1 Controls.SendButton) = ready
  /\ token (Controls.handle Sample2.type_errors Controls.HlaPrintCardView
              server_500 desk1 Controls.SendButton) = VStr (js "T1").
Proof.
  apply (@ready_is_final Sample2.type_errors Controls.HlaPrintCardView
           server_500 desk1 Controls.SendButton); vm_compute; reflexivity.
Defined.

(** The headers of a call that names an Authorization header only. *)
Lemma fetch_request_headers_witness :
  lookup (js "Content-Type")
         (headers (fetch_request (js "https://hlaprint.com/api/createPrintjob")
                                 (Some Sample2.init_bearer)))
  = Some (VStr (js "application/json"))
  /\ method (fetch_request (js "https://hlaprint.com/robots.txt") None) = GET.
Proof.
  split.
  - destruct (fetch_request_headers
                (js "https://hlaprint.com/api/createPrintjob")
                (Some Sample2.init_bearer) (js "Content-Type"))
      as (_ & _ & H & _).
    apply H. vm_compute. reflexivity.
  - destruct (fetch_request_headers (js "https://hlaprint.com/robots.txt")
                None (js "Content-Type"))
      as (_ & _ & _ & _ & H & _).
    destruct (H eq_refl) as [M _]. exact M.
Defined.

(** A login answered 200 without token, and one answered 201 with a
    text that is not JSON. *)
Lemma login_needs_token_object_witness :
  toasts (events (Card0.doLogin server_no_token at_login))
  = [mkToast error MSG_TOKEN_MISSING]
  /\ stage (run at_login (events (Card1.doLogin Sample2.server_bare at_login)))
     = login.
Proof.
  split.
  - destruct (@login_needs_token_object server_no_token at_login
                (mkResponse 200 (Some []) body_no_token)
                eq_refl eq_refl eq_refl) as (_ & _ & H & _).
    + right. right. exists [(js "status", VStr (js "ok"))].
      split; [vm_compute; reflexivity | vm_compute; exact I].
    + exact H.
  - destruct (@login_needs_token_object Sample2.server_bare at_login
                (mkResponse 201 None (js "created"))
                eq_refl eq_refl eq_refl) as (_ & _ & _ & _ & _ & _ & H).
    + left. vm_compute. reflexivity.
    + exact H.
Defined.


(** A login of the scenario's draft, then its submission. *)
Lemma login_then_submit_witness :
  requests
    (events
       (Card0.sendPrint server_500
          (run logged_out (events (Card0.doLogin server_ok logged_out)))))
  = [submit_request Card0.BASE (js "T1") logged_out]
  /\ validateBeforeSend
       (run logged_out (events (Card1.doLogin server_ok logged_out)))
     <> Some ERR_LOGIN.
Proof.
  pose proof (@login_then_submit server_ok server_500 logged_out
                (mkResponse 200 (Some []) body_token) (js "T1")
                eq_refl eq_refl eq_refl eq_refl eq_refl) as H.
  cbv zeta in H. destruct H as (_ & _ & N & E & S).
  split.
  - destruct S as (R0 & _); [vm_compute; reflexivity | exact R0].
  - rewrite E. exact N.
Defined.

(** The payload of the scenario's draft. *)
Lemma accepted_draft_payload_witness :
  1 <= length (deviceName desk1) <= 23
  /\ exists a b : Z,
       (1 <= a <= b)%Z
       /\ same_num (Number (rangeStart desk1)) (num_of_Z a) = true
       /\ same_num (Number (rangeEnd desk1)) (num_of_Z b) = true
       /\ get_prop (buildPrintFile desk1) (js "pages_start")
          = VNum (Number (rangeStart desk1))
       /\ get_prop (buildPrintFile desk1) (js "page_end")
          = VNum (Number (rangeEnd desk1)).
Proof.
  assert (V : validateBeforeSend desk1 = None) by (vm_compute; reflexivity).
  destruct (@accepted_draft_payload desk1 V)
    as (_ & D & _ & _ & _ & _ & _ & R).
  split; [exact D|]. apply R. vm_compute. reflexivity.
Defined.

(** The scenario's draft with one blank in each range field. *)
Lemma blank_range_payload_witness :
  get_prop (buildPrintFile (with_range (js " ") (js " ") desk1))
           (js "pages_start") = VNum (JFin 0)
  /\ get_prop (buildPrintFile (with_range (js " ") (js " ") desk1))
              (js "page_end") = VNum (JFin 0)
  /\ check_range (js " ") (js " ") = Some ERR_PAGE_START.
Proof.
  assert (V : validateBeforeSend (with_range (js " ") (js " ") desk1) = None)
    by (vm_compute; reflexivity).
  assert (B : has_text (rangeStart (with_range (js " ") (js " ") desk1))
              = false) by (vm_compute; reflexivity).
  destruct (@blank_range_payload (with_range (js " ") (js " ") desk1) V B)
    as (_ & C & P & _).
  destruct P as [P1 P2];
    [vm_compute; discriminate | vm_compute; discriminate |].
  split; [exact P1|]. split; [exact P2 | exact C].
Defined.

(** A 500 answer with a SUCCESS envelope, and a 200 answer with a
    FAILURE envelope. *)
Lemma connect_verdict_witness :
  Settings.status
    (Settings.run Sample2.typed
       (Settings.events
          (Settings.connect Sample2.server_500_success Sample2.typed)))
  = Some (Settings.mkStatus success (VStr Settings.MSG_CONNECTED))
  /\ exists s,
       Settings.status
         (Settings.run Sample2.typed
            (Settings.events
               (Settings.connect Sample2.server_failure Sample2.typed)))
       = Some s
       /\ Settings.type s = error.
Proof.
  split.
  - destruct (@connect_verdict Sample2.server_500_success Sample2.typed
                (mkResponse 500 None Sample2.body_success) eq_refl)
      as (H & _).
    apply H.
    exists [(js "status", VStr (js "SUCCESS"));
            (js "message", VStr (js "ok"))].
    split; vm_compute; reflexivity.
  - destruct (@connect_verdict Sample2.server_failure Sample2.typed
                (mkResponse 200 None Sample2.body_failure) eq_refl)
      as (_ & H).
    apply H. intros (props & Hp & Hs).
    vm_compute in Hp. injection Hp as <-.
    vm_compute in Hs. discriminate Hs.
Defined.

(** The message without network, for a page of HTML, and for the JSON
    text [null]. *)
Lemma connect_failure_message_witness :
  Settings.status
    (Settings.run Sample2.typed
       (Settings.events (Settings.connect offline Sample2.typed)))
  = Some (Settings.mkStatus error (VStr (js "Failed to fetch")))
  /\ Settings.status
       (Settings.run Sample2.typed
          (Settings.events
             (Settings.connect Sample2.server_html Sample2.typed)))
     = Some (Settings.mkStatus error (VStr (js "<html>Bad Gateway</html>")))
  /\ exists m,
       Settings.status
         (Settings.run Sample2.typed
            (Settings.events
               (Settings.connect Sample2.server_null Sample2.typed)))
       = Some (Settings.mkStatus error (VStr m))
       /\ m <> [].
Proof.
  split; [|split].
  - pose proof (connect_failure_message offline Sample2.typed) as H.
    cbv zeta in H. destruct H as (H & _).
    exact (H (mkError (js "Failed to fetch")) eq_refl).
  - pose proof (connect_failure_message Sample2.server_html Sample2.typed)
      as H.
    cbv zeta in H. destruct H as (_ & H & _).
    apply (H (mkResponse 200 None (js "<html>Bad Gateway</html>")) eq_refl).
    vm_compute. reflexivity.
  - pose proof (connect_failure_message Sample2.server_null Sample2.typed)
      as H.
    cbv zeta in H. destruct H as (_ & _ & _ & _ & H).
    apply (H (mkResponse 200 None (js "null")) eq_refl).
    vm_compute. reflexivity.
Defined.

(** The settings page after both credentials are typed. *)
Lemma settings_reachable_invariant_witness :
  Settings.busy Sample2.typed_in = false
  /\ Settings.shown Sample2.typed_in Settings.ConnectButton = true.
Proof.
  assert (R : Settings.reachable Sample2.typed_in).
  { unfold Sample2.typed_in.
    apply Settings.reach_use;
      [apply Settings.reach_use; [apply Settings.reach_mount | reflexivity]
      | reflexivity]. }
  destruct (@settings_reachable_invariant Sample2.typed_in R)
    as (B & _ & S).
  split; [exact B|]. apply S. split; vm_compute; discriminate.
Defined.

(** A rejected draft, and an accepted one that meets a 401 answer. *)
Lemma sendPrint_keeps_session_witness :
  stage (run logged_out (events (Card0.sendPrint server_ok logged_out)))
  = ready
  /\ token (run desk1 (events (Card1.sendPrint server_401 desk1)))
     = VStr (js "T1")
  /\ stage (run desk1 (events (Card1.sendPrint server_401 desk1))) = ready.
Proof.
  split; [|split].
  - pose proof (sendPrint_keeps_session server_ok logged_out) as H.
    cbv zeta in H. destruct H as (_ & _ & _ & _ & H).
    destruct H as [S _]; [vm_compute; discriminate | exact S].
  - pose proof (sendPrint_keeps_session server_401 desk1) as H.
    cbv zeta in H. destruct H as ((_ & T) & _). exact T.
  - pose proof (sendPrint_keeps_session server_401 desk1) as H.
    cbv zeta in H. destruct H as (_ & _ & _ & H & _).
    destruct H as [_ S]; [vm_compute; reflexivity | exact S].
Defined.

(** The two cards after the same login answer. *)
Lemma components_agree_witness :
  token (run at_login (events (Card0.doLogin server_ok at_login)))
  = token (run at_login (events (Card1.doLogin server_ok at_login)))
  /\ stage (run at_login (events (Card0.doLogin server_ok at_login)))
     = stage (run at_login (events (Card1.doLogin server_ok at_login))).
Proof.
  destruct (components_agree server_ok server_ok at_login) as (H & _).
  cbv zeta in H. destruct H as (T & S & _); [vm_compute; reflexivity|].
  split; [exact T | exact S].
Defined.

(* ================================================================== *)
(** * The page range of a validated draft *)
(* ================================================================== *)

(** The card of [Sample2.blank_range] is reached by the controls. *)
Lemma blank_range_reachable (c : Controls.Component) :
  Controls.reachable Sample2.type_errors c (Sample2.blank_range c).
Proof.
  unfold Sample2.blank_range.
  apply Controls.reach_use;
    [apply Controls.reach_use;
     [apply filled_reachable | destruct c; vm_compute; reflexivity]
    | destruct c; vm_compute; reflexivity].
Qed.

(** C1 (evaluated where the code departs from it): a card that logged
    in, holds a device name and a file URL and had one blank typed into
    each of its two range fields is reached through the controls with
    the Send button enabled, in both components.  Its draft passes
    validation, the validator finding no text in either range field and
    so no range to check; yet [sendPrint], which tests the raw strings,
    puts [pages_start] 0 and [page_end] 0 in the payload, values the
    validator's own numeric rule rejects, and sends them: the request
    carries them in its JSON text and a 2xx answer is reported as a
    created job.  So among the drafts that pass validation the range
    fields of the payload are not present exactly when both range
    fields are set in the validator's sense. *)
Theorem blank_range_sent_as_page_zero (c : Controls.Component) :
  let st := Sample2.blank_range c in
  Controls.reachable Sample2.type_errors c st
  /\ Controls.shown c st Controls.SendButton = true
  /\ rangeStart st = js " " /\ rangeEnd st = js " "
  /\ validateBeforeSend st = None
  /\ has_text (rangeStart st) = false
  /\ has_text (rangeEnd st) = false
  /\ has_key (js "pages_start") (buildPrintFile st) = true
  /\ has_key (js "page_end") (buildPrintFile st) = true
  /\ get_prop (buildPrintFile st) (js "pages_start") = VNum (num_of_Z 0)
  /\ get_prop (buildPrintFile st) (js "page_end") = VNum (num_of_Z 0)
  /\ check_range (rangeStart st) (rangeEnd st) = Some ERR_PAGE_START
  /\ (forall net,
         requests (events (Card0.sendPrint net st))
         = [submit_request Card0.BASE (js "T1") st]
         /\ requests (events (Card1.sendPrint net st))
            = [submit_request Card1.BASE (js "T1") st])
  /\ option_map single_quoted (body (submit_request Card0.BASE (js "T1") st))
     = Some (js "{'device_name':'Desk1','print_files':[{'filename':'https://x/y.pdf','color':false,'double_sided':true,'page_size':'A4','copies':1,'page_orientation':'auto','pages_start':0,'page_end':0}]}")
  /\ body (submit_request Card1.BASE (js "T1") st)
     = body (submit_request Card0.BASE (js "T1") st)
  /\ toasts (events (Card0.sendPrint server_ok st))
     = [mkToast success (js "Created. Txn TX9, code C7")]
  /\ toasts (events (Card1.sendPrint server_ok st))
     = [mkToast success (js "Created. Txn TX9, code C7")]
  /\ ~ (forall s : State,
           validateBeforeSend s = None ->
           (has_key (js "pages_start") (buildPrintFile s) = true
            <-> has_text (rangeStart s) = true
                /\ has_text (rangeEnd s) = true)).
Proof.
  cbv zeta.
  assert (V : validateBeforeSend (Sample2.blank_range c) = None)
    by (destruct c; vm_compute; reflexivity).
  assert (T : ToString (token (Sample2.blank_range c)) = inr (js "T1"))
    by (destruct c; vm_compute; reflexivity).
  assert (K : has_key (js "pages_start")
                      (buildPrintFile (Sample2.blank_range c)) = true)
    by (destruct c; vm_compute; reflexivity).
  assert (B : has_text (rangeStart (Sample2.blank_range c)) = false)
    by (destruct c; vm_compute; reflexivity).
  split; [apply blank_range_reachable|].
  split; [destruct c; vm_compute; reflexivity|].
  split; [destruct c; vm_compute; reflexivity|].
  split; [destruct c; vm_compute; reflexivity|].
  split; [exact V|]. split; [exact B|].
  split; [destruct c; vm_compute; reflexivity|].
  split; [exact K|].
  split; [destruct c; vm_compute; reflexivity|].
  split; [destruct c; vm_compute; reflexivity|].
  split; [destruct c; vm_compute; reflexivity|].
  split; [destruct c; vm_compute; reflexivity|].
  split.
  { intros net.
    pose proof (sendPrint_requests net (Sample2.blank_range c)) as R.
    cbv zeta in R. rewrite V, T in R. exact R. }
  split; [destruct c; vm_compute; reflexivity|].
  split; [reflexivity|].
  split; [destruct c; vm_compute; reflexivity|].
  split; [destruct c; vm_compute; reflexivity|].
  intros H. destruct (H (Sample2.blank_range c) V) as [H1 _].
  destruct (H1 K) as [Hs _]. rewrite B in Hs. discriminate Hs.
Qed.
